(** * crawrels: a shallow embedding of the crawl engine and its helpers

    The development follows the layout of the repository:
    - [Py], [Urllib], [Json], [JsonText]: the Python primitives the sources
      rely on (string methods, urllib.parse, JSON values and a codec);
    - [Utils]: scraper/utils.py;
    - [RobotsHandler]: scraper/robots.py;
    - [PageRecord], [CrawlState]: scraper/state.py;
    - [ScraperSettings], [FileCrawler]: scraper/config.py, scraper/crawler.py;
    - [App]: the Start handler of app.py.
    Strings are sequences of code points below 256; integers are [Z]. The
    collaborators outside the repository (regular expressions, tldextract,
    robots.txt reading, HTTP, the json module, the clock) are parameters.
    The threads of the engine are modelled by an interleaving of the
    blocks they run under the lock ([FileCrawler.step]). *)

From Stdlib Require Import ZArith Ascii String List Bool Lia.
From stdpp Require Import base option list gmap strings pretty.

Set Warnings "-register-all,-clear-no-such-hyp".
Local Open Scope string_scope.
Local Open Scope list_scope.

(** ** Python string primitives *)
Module Py.

(** [str.isspace] on one code point below 256. *)
Definition isspace (c : ascii) : bool :=
  let n := nat_of_ascii c in
  (((9 <=? n) && (n <=? 13)) || ((28 <=? n) && (n <=? 32))
   || (n =? 133) || (n =? 160))%nat.

(** [str.lower] on one code point below 256. *)
Definition lower_char (c : ascii) : ascii :=
  let n := nat_of_ascii c in
  if (((65 <=? n) && (n <=? 90))
      || ((192 <=? n) && (n <=? 222) && negb (n =? 215)))%nat
  then ascii_of_nat (n + 32) else c.

Fixpoint lower (s : string) : string :=
  match s with
  | EmptyString => EmptyString
  | String c r => String (lower_char c) (lower r)
  end.

Fixpoint lstrip_by (p : ascii -> bool) (s : string) : string :=
  match s with
  | EmptyString => EmptyString
  | String c r => if p c then lstrip_by p r else s
  end.

(** Drops the longest suffix whose characters all satisfy [p]. *)
Fixpoint rstrip_by (p : ascii -> bool) (s : string) : string :=
  match s with
  | EmptyString => EmptyString
  | String c r =>
      match rstrip_by p r with
      | EmptyString => if p c then EmptyString else String c EmptyString
      | r' => String c r'
      end
  end.

(** [s.strip()] *)
Definition strip (s : string) : string := rstrip_by isspace (lstrip_by isspace s).

(** [s.rstrip(ch)] for a one-character argument. *)
Definition rstrip_char (ch : ascii) (s : string) : string :=
  rstrip_by (fun c => Ascii.eqb c ch) s.

(** [s.startswith(p)] *)
Definition startswith (p s : string) : bool := String.prefix p s.

(** [s.endswith(p)] *)
Definition endswith (p s : string) : bool :=
  (String.length p <=? String.length s)%nat
  && String.eqb (String.substring (String.length s - String.length p)
                                  (String.length p) s) p.

(** [p in s] for strings. *)
Fixpoint contains (p s : string) : bool :=
  String.prefix p s ||
  match s with
  | EmptyString => false
  | String _ r => contains p r
  end.

(** Truthiness of a string: [not s] is [is_empty s]. *)
Definition is_empty (s : string) : bool :=
  match s with EmptyString => true | _ => false end.

End Py.

(** ** Exceptions

    A call either returns a value or raises; [let* x := c in k] sequences two
    calls and propagates the exception of the first. The constructors are
    Python's exception classes, except [IllTyped]: the model is typed by the
    annotations of the dataclasses, and [IllTyped f] marks the point where
    Python would store, unchecked, a value outside the annotated type of
    field [f]. *)
Inductive exn : Type :=
| ValueError (msg : string)
| KeyError (key : string)
| TypeError (msg : string)
| AttributeError (msg : string)
| FileNotFoundError (path : string)
| RuntimeError (msg : string)
| IllTyped (field : string).

Inductive result (A : Type) : Type :=
| Ok (a : A)
| Raise (e : exn).
Arguments Ok {A} a.
Arguments Raise {A} e.

Definition bind {A B : Type} (c : result A) (k : A -> result B) : result B :=
  match c with
  | Ok a => k a
  | Raise e => Raise e
  end.

Notation "'let*' p ':=' c 'in' k" := (bind c (fun p => k))
  (at level 10, p pattern, c at level 100, k at level 200).

(** ** urllib.parse (CPython 3.11): urlsplit, urlparse, urlunparse, urljoin *)
Module Urllib.

Definition slice_to (i : nat) (s : string) : string := String.substring 0 i s.
Definition slice_from (i : nat) (s : string) : string :=
  String.substring i (String.length s - i) s.

(** [s.find(c, start)] for a one-character [c]. *)
Fixpoint find_from (c : ascii) (start : nat) (s : string) : option nat :=
  match s with
  | EmptyString => None
  | String d r =>
      match start with
      | O => if Ascii.eqb c d then Some O else S <$> find_from c O r
      | S k => S <$> find_from c k r
      end
  end.

Definition find (c : ascii) (s : string) : option nat := find_from c 0 s.

(** [s.rfind(c)] *)
Fixpoint rfind (c : ascii) (s : string) : option nat :=
  match s with
  | EmptyString => None
  | String d r =>
      match rfind c r with
      | Some i => Some (S i)
      | None => if Ascii.eqb c d then Some O else None
      end
  end.

(** [s.split(c)] for a one-character separator: never empty. *)
Fixpoint split_on (c : ascii) (s : string) : list string :=
  match s with
  | EmptyString => [EmptyString]
  | String d r =>
      if Ascii.eqb c d then EmptyString :: split_on c r
      else match split_on c r with
           | [] => [String d EmptyString]
           | w :: ws => String d w :: ws
           end
  end.

(** [c.join(parts)] *)
Fixpoint join (c : string) (parts : list string) : string :=
  match parts with
  | [] => EmptyString
  | [w] => w
  | w :: ws => w +:+ c +:+ join c ws
  end.

(** [s.replace(c, '')] *)
Fixpoint remove_char (p : ascii -> bool) (s : string) : string :=
  match s with
  | EmptyString => EmptyString
  | String d r => if p d then remove_char p r else String d (remove_char p r)
  end.

Fixpoint all_chars (p : ascii -> bool) (s : string) : bool :=
  match s with
  | EmptyString => true
  | String d r => p d && all_chars p r
  end.

Definition has_char (c : ascii) (s : string) : bool :=
  match find c s with Some _ => true | None => false end.

Definition in_list (s : string) (l : list string) : bool :=
  existsb (String.eqb s) l.

Definition uses_relative : list string :=
  [""; "ftp"; "http"; "gopher"; "nntp"; "imap"; "wais"; "file"; "https";
   "shttp"; "mms"; "prospero"; "rtsp"; "rtspu"; "sftp"; "svn"; "svn+ssh";
   "ws"; "wss"].

Definition uses_netloc : list string :=
  [""; "ftp"; "http"; "gopher"; "nntp"; "telnet"; "imap"; "wais"; "file";
   "mms"; "https"; "shttp"; "snews"; "prospero"; "rtsp"; "rtspu"; "rsync";
   "svn"; "svn+ssh"; "sftp"; "nfs"; "git"; "git+ssh"; "ws"; "wss"].

Definition uses_params : list string :=
  [""; "ftp"; "hdl"; "prospero"; "http"; "imap"; "https"; "shttp"; "rtsp";
   "rtspu"; "sip"; "sips"; "mms"; "sftp"; "tel"].

Definition is_ascii_alpha (c : ascii) : bool :=
  let n := nat_of_ascii c in
  (((65 <=? n) && (n <=? 90)) || ((97 <=? n) && (n <=? 122)))%nat.

Definition is_scheme_char (c : ascii) : bool :=
  let n := nat_of_ascii c in
  (is_ascii_alpha c || ((48 <=? n) && (n <=? 57))
   || (n =? 43) || (n =? 45) || (n =? 46))%nat.

(** [_WHATWG_C0_CONTROL_OR_SPACE] *)
Definition is_c0_or_space (c : ascii) : bool := (nat_of_ascii c <=? 32)%nat.

(** [_UNSAFE_URL_BYTES_TO_REMOVE] *)
Definition is_unsafe (c : ascii) : bool :=
  let n := nat_of_ascii c in ((n =? 9) || (n =? 13) || (n =? 10))%nat.

Definition is_ascii_str (s : string) : bool :=
  all_chars (fun c => (nat_of_ascii c <? 128)%nat) s.

Record SplitResult := mkSplit
  { s_scheme : string; s_netloc : string; s_path : string;
    s_query : string; s_fragment : string }.

Record ParseResult := mkParse
  { scheme : string; netloc : string; path : string; params : string;
    query : string; fragment : string }.

(** The two validations of a network location that need tables outside
    this development: [ipv6_ok] is true when [_check_bracketed_netloc]
    returns (a bracketed host is a well-formed IPv6 or IPvFuture literal),
    [nfkc_ok] is true when [_checknetloc] returns on a non-ASCII netloc. *)
Record netloc_checks := mkChecks
  { ipv6_ok : string -> bool; nfkc_ok : string -> bool }.

Section Parse.
Variable chk : netloc_checks.

(** [_splitnetloc(url, 2)] *)
Definition splitnetloc (url : string) : string * string :=
  let pick (c : ascii) (delim : nat) :=
    match find_from c 2 url with
    | Some w => Nat.min delim w
    | None => delim
    end in
  let delim := pick "#"%char (pick "?"%char (pick "/"%char (String.length url))) in
  (String.substring 2 (delim - 2) url, slice_from delim url).

(** [url.split(c, 1)] when [c] occurs in [url]. *)
Definition split_first (c : ascii) (url : string) : option (string * string) :=
  match find c url with
  | Some i => Some (slice_to i url, slice_from (S i) url)
  | None => None
  end.

Definition urlsplit (url0 scheme0 : string) : result SplitResult :=
  let url := remove_char is_unsafe (Py.lstrip_by is_c0_or_space url0) in
  let scheme :=
    remove_char is_unsafe
      (Py.rstrip_by is_c0_or_space (Py.lstrip_by is_c0_or_space scheme0)) in
  let '(scheme, url) :=
    match find ":"%char url with
    | Some (S i') =>
        let i := S i' in
        match url with
        | String c0 _ =>
            if is_ascii_alpha c0 && all_chars is_scheme_char (slice_to i url)
            then (Py.lower (slice_to i url), slice_from (S i) url)
            else (scheme, url)
        | EmptyString => (scheme, url)
        end
    | _ => (scheme, url)
    end in
  let* (netloc, url) :=
    (if String.eqb (slice_to 2 url) "//" then
       let '(netloc, rest) := splitnetloc url in
       let lb := has_char "["%char netloc in
       let rb := has_char "]"%char netloc in
       if (lb && negb rb) || (rb && negb lb)
       then Raise (ValueError "Invalid IPv6 URL")
       else if lb && rb && negb (ipv6_ok chk netloc)
       then Raise (ValueError "Invalid IPv6 URL")
       else Ok (netloc, rest)
     else Ok (EmptyString, url)) in
  let '(url, fragment) :=
    match split_first "#"%char url with
    | Some (u, f) => (u, f)
    | None => (url, EmptyString)
    end in
  let '(url, query) :=
    match split_first "?"%char url with
    | Some (u, q) => (u, q)
    | None => (url, EmptyString)
    end in
  if negb (Py.is_empty netloc) && negb (is_ascii_str netloc)
     && negb (nfkc_ok chk netloc)
  then Raise (ValueError "netloc contains invalid characters under NFKC normalization")
  else Ok (mkSplit scheme netloc url query fragment).

(** [_splitparams(url)] *)
Definition splitparams (url : string) : string * string :=
  match rfind "/"%char url with
  | Some k =>
      match find_from ";"%char k url with
      | Some i => (slice_to i url, slice_from (S i) url)
      | None => (url, EmptyString)
      end
  | None =>
      match find ";"%char url with
      | Some i => (slice_to i url, slice_from (S i) url)
      | None => (url, EmptyString)
      end
  end.

Definition urlparse (url scheme0 : string) : result ParseResult :=
  let* sp := urlsplit url scheme0 in
  let '(p, prm) :=
    if in_list (s_scheme sp) uses_params && has_char ";"%char (s_path sp)
    then splitparams (s_path sp)
    else (s_path sp, EmptyString) in
  Ok (mkParse (s_scheme sp) (s_netloc sp) p prm (s_query sp) (s_fragment sp)).

Definition urlunsplit (scheme netloc url query fragment : string) : string :=
  let url :=
    if negb (Py.is_empty netloc)
       || (negb (Py.is_empty scheme) && in_list scheme uses_netloc
           && negb (String.eqb (slice_to 2 url) "//"))
    then
      let url :=
        if negb (Py.is_empty url) && negb (String.eqb (slice_to 1 url) "/")
        then "/" +:+ url else url in
      "//" +:+ netloc +:+ url
    else url in
  let url := if Py.is_empty scheme then url else scheme +:+ ":" +:+ url in
  let url := if Py.is_empty query then url else url +:+ "?" +:+ query in
  if Py.is_empty fragment then url else url +:+ "#" +:+ fragment.

Definition urlunparse (p : ParseResult) : string :=
  let url :=
    if Py.is_empty (params p) then path p else path p +:+ ";" +:+ params p in
  urlunsplit (scheme p) (netloc p) url (query p) (fragment p).

(** The loop of [urljoin] over the segments: [..] pops, [.] is skipped. *)
Fixpoint resolve_segments (segments resolved : list string) : list string :=
  match segments with
  | [] => resolved
  | seg :: rest =>
      if String.eqb seg ".." then resolve_segments rest (removelast resolved)
      else if String.eqb seg "." then resolve_segments rest resolved
      else resolve_segments rest (resolved ++ [seg])
  end.

(** [segments[1:-1] = filter(None, segments[1:-1])] *)
Definition drop_inner_empty (segments : list string) : list string :=
  match segments with
  | [] => []
  | [a] => [a]
  | a :: rest =>
      a :: filter (fun w => negb (Py.is_empty w)) (removelast rest)
        ++ [List.last rest EmptyString]
  end.

Definition urljoin (base url : string) : result string :=
  if Py.is_empty base then Ok url
  else if Py.is_empty url then Ok base
  else
    let* b := urlparse base EmptyString in
    let* u := urlparse url (scheme b) in
    if negb (String.eqb (scheme u) (scheme b))
       || negb (in_list (scheme u) uses_relative)
    then Ok url
    else if in_list (scheme u) uses_netloc && negb (Py.is_empty (netloc u))
    then Ok (urlunparse u)
    else
      let netloc' :=
        if in_list (scheme u) uses_netloc then netloc b else netloc u in
      if Py.is_empty (path u) && Py.is_empty (params u)
      then
        let query' := if Py.is_empty (query u) then query b else query u in
        Ok (urlunparse
              (mkParse (scheme u) netloc' (path b) (params b) query' (fragment u)))
      else
        let base_parts := split_on "/"%char (path b) in
        let base_parts :=
          if negb (String.eqb (List.last base_parts EmptyString) EmptyString)
          then removelast base_parts else base_parts in
        let segments :=
          if String.eqb (slice_to 1 (path u)) "/"
          then split_on "/"%char (path u)
          else drop_inner_empty (base_parts ++ split_on "/"%char (path u)) in
        let resolved := resolve_segments segments [] in
        let last_seg := List.last segments EmptyString in
        let resolved :=
          if String.eqb last_seg "." || String.eqb last_seg ".."
          then resolved ++ [EmptyString] else resolved in
        let joined := join "/" resolved in
        let path' := if Py.is_empty joined then "/" else joined in
        Ok (urlunparse
              (mkParse (scheme u) netloc' path' (params u) (query u) (fragment u))).
End Parse.

End Urllib.

(** ** scraper/utils.py *)
Module Utils.

Section Normalize.
Variable chk : Urllib.netloc_checks.

(** [normalize_url(base, href)]: [Ok None] is Python's [None]; the
    [ValueError] of [urljoin] and [urlparse] is not caught. *)
Definition normalize_url (base href : string) : result (option string) :=
  if Py.is_empty href then Ok None
  else
    let href := Py.strip href in
    if Py.startswith "mailto:" href || Py.startswith "javascript:" href
    then Ok None
    else
      let* joined := Urllib.urljoin chk base href in
      let* parsed := Urllib.urlparse chk joined EmptyString in
      if negb (Urllib.in_list (Urllib.scheme parsed) ["http"; "https"])
      then Ok None
      else
        let clean :=
          Urllib.mkParse (Urllib.scheme parsed) (Urllib.netloc parsed)
            (Urllib.path parsed) (Urllib.params parsed)
            (Urllib.query parsed) EmptyString in
        let normalized := Urllib.urlunparse clean in
        Ok (Some (if negb (String.eqb (Urllib.path clean) "/")
                  then Py.rstrip_char "/"%char normalized
                  else normalized)).
End Normalize.

(** [sorted(xs, key=len, reverse=True)]: a stable sort, longest first. *)
Fixpoint insert_by_len (x : string) (l : list string) : list string :=
  match l with
  | [] => [x]
  | y :: r =>
      if (String.length y <? String.length x)%nat then x :: l
      else y :: insert_by_len x r
  end.

Definition sort_by_len_desc (l : list string) : list string :=
  fold_left (fun acc x => insert_by_len x acc) l [].

Section Matching.
Variable chk : Urllib.netloc_checks.
(** [EXTRACTOR(netloc)] of tldextract: the (domain, suffix) of a host. *)
Variable tld_extract : string -> string * string.

(** [extract_domain(url)] *)
Definition extract_domain (url : string) : result string :=
  let* parsed := Urllib.urlparse chk url EmptyString in
  let '(domain, suffix) := tld_extract (Urllib.netloc parsed) in
  Ok (Urllib.join "."
        (filter (fun part => negb (Py.is_empty part)) [domain; suffix])).

(** [same_registrable_domain(url, reference)] *)
Definition same_registrable_domain (url reference : string) : result bool :=
  let* a := extract_domain url in
  let* b := extract_domain reference in
  Ok (String.eqb a b).

(** [match_extension(url, extensions)]; the set of extensions is taken in
    order of first occurrence. *)
Definition match_extension (url : string) (extensions : list string)
  : result (option string) :=
  let* parsed := Urllib.urlparse chk url EmptyString in
  let path := Py.lower (Urllib.path parsed) in
  let normalized :=
    map Py.lower (filter (fun ext => negb (Py.is_empty ext)) extensions) in
  Ok (List.find (fun ext => Py.endswith ext path)
        (sort_by_len_desc (remove_dups normalized))).
End Matching.

Section Patterns.
(** The regular-expression engine is external: [re_search pattern value]
    is [Some b] when [re.search] returns (b = a match was found) and [None]
    when it raises [re.error]. *)
Variable re_search : string -> string -> option bool.

(** [match_patterns(value, patterns)] *)
Fixpoint match_patterns (value : string) (patterns : list string) : bool :=
  match patterns with
  | [] => false
  | pattern :: rest =>
      if Py.is_empty pattern then match_patterns value rest
      else
        match re_search pattern value with
        | Some true => true
        | Some false => match_patterns value rest
        | None =>
            if Py.contains pattern value then true
            else match_patterns value rest
        end
  end.
End Patterns.

End Utils.

(** ** JSON values, as [json.loads] returns them

    Numbers are integers (a snapshot holds no float); an object is a Python
    dict, an association list in insertion order whose keys are unique. *)
Module Json.

Inductive json : Type :=
| JNull
| JBool (b : bool)
| JInt (z : Z)
| JStr (s : string)
| JArr (items : list json)
| JObj (fields : list (string * json)).

Abbreviation pydict := (list (string * json)).

(** [d.get(k)] as an option. *)
Fixpoint dict_get (k : string) (d : pydict) : option json :=
  match d with
  | [] => None
  | (k', v) :: r => if String.eqb k k' then Some v else dict_get k r
  end.

(** [d[k] = v]: in place when the key exists, appended otherwise. *)
Fixpoint dict_set (k : string) (v : json) (d : pydict) : pydict :=
  match d with
  | [] => [(k, v)]
  | (k', v') :: r =>
      if String.eqb k k' then (k, v) :: r else (k', v') :: dict_set k v r
  end.

(** [k in d] *)
Definition dict_has (k : string) (d : pydict) : bool :=
  match dict_get k d with Some _ => true | None => false end.

(** [d.get(k)]: a missing key reads as [None]. *)
Definition get (k : string) (d : pydict) : json := default JNull (dict_get k d).

(** [d.get(k, dflt)] *)
Definition get_default (k : string) (dflt : json) (d : pydict) : json :=
  default dflt (dict_get k d).

(** Truth value of a JSON value. *)
Definition truthy (j : json) : bool :=
  match j with
  | JNull => false
  | JBool b => b
  | JInt z => negb (z =? 0)%Z
  | JStr s => negb (Py.is_empty s)
  | JArr l => match l with [] => false | _ => true end
  | JObj l => match l with [] => false | _ => true end
  end.

(** [a or b] *)
Definition py_or (a b : json) : json := if truthy a then a else b.

(** [j == s] for a string [s]. *)
Definition eq_str (j : json) (s : string) : bool :=
  match j with JStr s' => String.eqb s' s | _ => false end.

Definition of_option_str (o : option string) : json :=
  match o with Some s => JStr s | None => JNull end.

Fixpoint chars_of (s : string) : list json :=
  match s with
  | EmptyString => []
  | String c r => JStr (String c EmptyString) :: chars_of r
  end.

(** Iteration, as in [list(x)], [tuple(x)], [for item in x]. *)
Definition py_iter (j : json) : result (list json) :=
  match j with
  | JArr l => Ok l
  | JStr s => Ok (chars_of s)
  | JObj d => Ok (map (fun kv => JStr (fst kv)) d)
  | _ => Raise (TypeError "object is not iterable")
  end.

Definition is_digit (c : ascii) : bool :=
  let n := nat_of_ascii c in ((48 <=? n) && (n <=? 57))%nat.

Definition digit_val (c : ascii) : Z := Z.of_nat (nat_of_ascii c - 48).

(** Decimal digits, single underscores allowed between two digits. *)
Fixpoint digits (acc : Z) (after_digit : bool) (s : string) : option Z :=
  match s with
  | EmptyString => if after_digit then Some acc else None
  | String c r =>
      if is_digit c then digits (acc * 10 + digit_val c) true r
      else if Ascii.eqb c "_"%char && after_digit then digits acc false r
      else None
  end.

(** The white space that [int] skips around a literal: that of
    [str.strip] without the separators U+001C to U+001F. *)
Definition int_space (c : ascii) : bool :=
  let n := nat_of_ascii c in
  (((9 <=? n) && (n <=? 13)) || (n =? 32) || (n =? 133) || (n =? 160))%nat.

(** [int(s)] for a string. *)
Definition int_of_string (s : string) : option Z :=
  match Py.rstrip_by int_space (Py.lstrip_by int_space s) with
  | String "-"%char r => Z.opp <$> digits 0 false r
  | String "+"%char r => digits 0 false r
  | r => digits 0 false r
  end.

(** [int(j)] *)
Definition py_int (j : json) : result Z :=
  match j with
  | JInt z => Ok z
  | JBool b => Ok (if b then 1 else 0)%Z
  | JStr s =>
      match int_of_string s with
      | Some z => Ok z
      | None => Raise (ValueError "invalid literal for int() with base 10")
      end
  | _ => Raise (TypeError "int() argument must be a string or a real number")
  end.

Fixpoint mapM {A B : Type} (f : A -> result B) (l : list A) : result (list B) :=
  match l with
  | [] => Ok []
  | a :: r => let* b := f a in let* bs := mapM f r in Ok (b :: bs)
  end.

(** Readers for the annotated field types. *)
Definition as_str (field : string) (j : json) : result string :=
  match j with JStr s => Ok s | _ => Raise (IllTyped field) end.

Definition as_opt_str (field : string) (j : json) : result (option string) :=
  match j with
  | JNull => Ok None
  | JStr s => Ok (Some s)
  | _ => Raise (IllTyped field)
  end.

Definition as_bool (field : string) (j : json) : result bool :=
  match j with JBool b => Ok b | _ => Raise (IllTyped field) end.

Definition as_dict (field : string) (j : json) : result pydict :=
  match j with JObj d => Ok d | _ => Raise (IllTyped field) end.

(** [list(j)] read as a list of strings, respectively of dicts. *)
Definition str_list (field : string) (j : json) : result (list string) :=
  let* l := py_iter j in mapM (as_str field) l.

Definition dict_list (field : string) (j : json) : result (list pydict) :=
  let* l := py_iter j in mapM (as_dict field) l.

(** One element of the sequence given to [dict(...)]. *)
Definition dict_item (field : string) (item : json) : result (string * json) :=
  match py_iter item with
  | Raise _ =>
      Raise (TypeError "cannot convert dictionary update sequence element to a sequence")
  | Ok [k; v] =>
      match k with
      | JStr s => Ok (s, v)
      | JArr _ | JObj _ => Raise (TypeError "unhashable type")
      | _ => Raise (IllTyped field)
      end
  | Ok _ => Raise (ValueError "dictionary update sequence element has the wrong length")
  end.

(** [dict(j)]: a dict is copied, a sequence of pairs is converted. *)
Definition py_dict (field : string) (j : json) : result pydict :=
  match j with
  | JObj d => Ok d
  | JArr l => mapM (dict_item field) l
  | JStr s => mapM (dict_item field) (chars_of s)
  | _ => Raise (TypeError "object is not iterable")
  end.

(** [j.items()]: only a dict has it. *)
Definition items (j : json) : result pydict :=
  match j with
  | JObj d => Ok d
  | _ => Raise (AttributeError "items")
  end.

(** [j.get]: only a dict has it. *)
Definition as_payload (j : json) : result pydict :=
  match j with
  | JObj d => Ok d
  | _ => Raise (AttributeError "get")
  end.

(** [d[k]] *)
Definition getitem (k : string) (d : pydict) : result json :=
  match dict_get k d with
  | Some v => Ok v
  | None => Raise (KeyError k)
  end.

End Json.

(** ** A reference JSON codec

    [dumps] prints as [json.dumps(v, indent=2)] does and [loads] reads
    the JSON texts whose numbers are integers and whose escapes stay
    below code point 256 (anything else is answered [None]). The engine
    is stated over any codec; this one instantiates it. *)
Module JsonText.
Import Json.

Definition dquote : ascii := "034"%char.
Definition backslash : ascii := "092"%char.

Definition hex_digit (n : nat) : ascii :=
  if (n <? 10)%nat then ascii_of_nat (48 + n) else ascii_of_nat (87 + n).

(** [\u00XX] *)
Definition u_escape (c : ascii) : string :=
  let n := nat_of_ascii c in
  String backslash
    (String "u" (String "0" (String "0"
      (String (hex_digit (n / 16)) (String (hex_digit (n mod 16)) EmptyString))))).

Definition escape_char (c : ascii) : string :=
  let n := nat_of_ascii c in
  if Ascii.eqb c dquote then String backslash (String dquote EmptyString)
  else if Ascii.eqb c backslash then String backslash (String backslash EmptyString)
  else if (n =? 10)%nat then String backslash "n"
  else if (n =? 13)%nat then String backslash "r"
  else if (n =? 9)%nat then String backslash "t"
  else if (n =? 8)%nat then String backslash "b"
  else if (n =? 12)%nat then String backslash "f"
  else if ((n <? 32) || (126 <? n))%nat then u_escape c
  else String c EmptyString.

Fixpoint escape (s : string) : string :=
  match s with
  | EmptyString => EmptyString
  | String c r => escape_char c +:+ escape r
  end.

Definition quote (s : string) : string :=
  String dquote (escape s) +:+ String dquote EmptyString.

Definition print_int (z : Z) : string := pretty z.

Fixpoint spaces (n : nat) : string :=
  match n with O => EmptyString | S k => String " " (spaces k) end.

Definition newline : string := String "010"%char EmptyString.

(** The items of a container, one per line at the given indentation. *)
Definition lines (indent : nat) (items : list string) : string :=
  Urllib.join ("," +:+ newline +:+ spaces indent) items.

Fixpoint print (indent : nat) (v : json) : string :=
  match v with
  | JNull => "null"
  | JBool true => "true"
  | JBool false => "false"
  | JInt z => print_int z
  | JStr s => quote s
  | JArr [] => "[]"
  | JArr items =>
      "[" +:+ newline +:+ spaces (indent + 2)
        +:+ lines (indent + 2) (map (print (indent + 2)) items)
        +:+ newline +:+ spaces indent +:+ "]"
  | JObj [] => "{}"
  | JObj fields =>
      "{" +:+ newline +:+ spaces (indent + 2)
        +:+ lines (indent + 2)
              (map (fun kv => quote (fst kv) +:+ ": " +:+ print (indent + 2) (snd kv))
                   fields)
        +:+ newline +:+ spaces indent +:+ "}"
  end.

(** [json.dumps(v, indent=2)] *)
Definition dumps (v : json) : string := print 0 v.

Definition is_ws (c : ascii) : bool :=
  let n := nat_of_ascii c in
  ((n =? 32) || (n =? 9) || (n =? 10) || (n =? 13))%nat.

Definition skip_ws (s : string) : string := Py.lstrip_by is_ws s.

Definition hex_val (c : ascii) : option nat :=
  let n := nat_of_ascii c in
  if ((48 <=? n) && (n <=? 57))%nat then Some (n - 48)
  else if ((97 <=? n) && (n <=? 102))%nat then Some (n - 87)
  else if ((65 <=? n) && (n <=? 70))%nat then Some (n - 55)
  else None.

(** The body of a string literal, after its opening quote. *)
Fixpoint read_string (s : string) : option (string * string) :=
  match s with
  | EmptyString => None
  | String c r =>
      if Ascii.eqb c dquote then Some (EmptyString, r)
      else if Ascii.eqb c backslash then
        match r with
        | String e r' =>
            let plain (d : ascii) :=
              match read_string r' with
              | Some (body, rest) => Some (String d body, rest)
              | None => None
              end in
            if Ascii.eqb e dquote then plain dquote
            else if Ascii.eqb e backslash then plain backslash
            else if Ascii.eqb e "/" then plain "/"%char
            else if Ascii.eqb e "n" then plain "010"%char
            else if Ascii.eqb e "r" then plain "013"%char
            else if Ascii.eqb e "t" then plain "009"%char
            else if Ascii.eqb e "b" then plain "008"%char
            else if Ascii.eqb e "f" then plain "012"%char
            else if Ascii.eqb e "u" then
              match r' with
              | String "0" (String "0" (String h (String l r''))) =>
                  match hex_val h, hex_val l, read_string r'' with
                  | Some a, Some b, Some (body, rest) =>
                      Some (String (ascii_of_nat (16 * a + b)) body, rest)
                  | _, _, _ => None
                  end
              | _ => None
              end
            else None
        | EmptyString => None
        end
      else if (nat_of_ascii c <? 32)%nat then None
      else
        match read_string r with
        | Some (body, rest) => Some (String c body, rest)
        | None => None
        end
  end.

Fixpoint read_digits (acc : Z) (s : string) : Z * string :=
  match s with
  | String c r =>
      if is_digit c then read_digits (acc * 10 + digit_val c) r else (acc, s)
  | EmptyString => (acc, s)
  end.

(** An integer literal: no leading zero, no fraction, no exponent. *)
Definition read_int (s : string) : option (Z * string) :=
  let '(neg, s) :=
    match s with
    | String "-" r => (true, r)
    | _ => (false, s)
    end in
  match s with
  | String c r =>
      if is_digit c then
        let '(z, rest) :=
          if Ascii.eqb c "0" then (0%Z, r) else read_digits 0 s in
        match rest with
        | String d _ =>
            if is_digit d || Ascii.eqb d "." || Ascii.eqb d "e" || Ascii.eqb d "E"
            then None
            else Some (if neg then Z.opp z else z, rest)
        | EmptyString => Some (if neg then Z.opp z else z, rest)
        end
      else None
  | EmptyString => None
  end.

(** What the reader is in the middle of: a value, the items of an array
    after one item, the fields of an object after one field. *)
Inductive mode : Type :=
| MValue
| MItems (acc : list json)
| MFields (acc : list (string * json)).

(** A field [key: value] read with [read_value]. *)
Definition read_field (read_value : string -> option (json * string))
    (s : string) : option (string * json * string) :=
  match skip_ws s with
  | String c r =>
      if Ascii.eqb c dquote then
        match read_string r with
        | Some (k, rest) =>
            match skip_ws rest with
            | String ":" rest' =>
                match read_value rest' with
                | Some (v, rest'') => Some (k, v, rest'')
                | None => None
                end
            | _ => None
            end
        | None => None
        end
      else None
  | EmptyString => None
  end.

Fixpoint read (fuel : nat) (m : mode) (s : string) : option (json * string) :=
  match fuel with
  | O => None
  | S fuel =>
      match m with
      | MValue =>
          match skip_ws s with
          | String c r =>
              if Ascii.eqb c dquote then
                match read_string r with
                | Some (str, rest) => Some (JStr str, rest)
                | None => None
                end
              else if Ascii.eqb c "[" then
                match skip_ws r with
                | String "]" rest => Some (JArr [], rest)
                | _ =>
                    match read fuel MValue r with
                    | Some (v, rest) => read fuel (MItems [v]) rest
                    | None => None
                    end
                end
              else if Ascii.eqb c "{" then
                match skip_ws r with
                | String "}" rest => Some (JObj [], rest)
                | _ =>
                    match read_field (read fuel MValue) r with
                    | Some (k, v, rest) => read fuel (MFields [(k, v)]) rest
                    | None => None
                    end
                end
              else if Py.startswith "null" (String c r)
              then Some (JNull, Urllib.slice_from 4 (String c r))
              else if Py.startswith "true" (String c r)
              then Some (JBool true, Urllib.slice_from 4 (String c r))
              else if Py.startswith "false" (String c r)
              then Some (JBool false, Urllib.slice_from 5 (String c r))
              else
                match read_int (String c r) with
                | Some (z, rest) => Some (JInt z, rest)
                | None => None
                end
          | EmptyString => None
          end
      | MItems acc =>
          match skip_ws s with
          | String "]" rest => Some (JArr acc, rest)
          | String "," rest =>
              match read fuel MValue rest with
              | Some (v, rest') => read fuel (MItems (acc ++ [v])) rest'
              | None => None
              end
          | _ => None
          end
      | MFields acc =>
          match skip_ws s with
          | String "}" rest => Some (JObj acc, rest)
          | String "," rest =>
              match read_field (read fuel MValue) rest with
              | Some (k, v, rest') => read fuel (MFields (dict_set k v acc)) rest'
              | None => None
              end
          | _ => None
          end
      end
  end.

(** [json.loads(raw)]: one value and nothing but blanks after it. Every
    call consumes a character, so the length of the text bounds them. *)
Definition loads (raw : string) : option json :=
  match read (S (String.length raw)) MValue raw with
  | Some (v, rest) => if Py.is_empty (skip_ws rest) then Some v else None
  | None => None
  end.

End JsonText.

(** ** scraper/state.py: PageRecord *)
Module PageRecord.
Import Json.

Record t : Type := mk
  { url : string;
    depth : Z;
    title : option string;
    assets : list pydict;
    errors : list string;
    referrers : list string;
    last_status : option string }.

Definition with_depth (d : Z) (r : t) : t :=
  mk (url r) d (title r) (assets r) (errors r) (referrers r) (last_status r).
Definition with_assets (a : list pydict) (r : t) : t :=
  mk (url r) (depth r) (title r) a (errors r) (referrers r) (last_status r).
Definition with_errors (e : list string) (r : t) : t :=
  mk (url r) (depth r) (title r) (assets r) e (referrers r) (last_status r).
Definition with_referrers (l : list string) (r : t) : t :=
  mk (url r) (depth r) (title r) (assets r) (errors r) l (last_status r).

(** [PageRecord(url=url, depth=depth)] *)
Definition fresh (u : string) (d : Z) : t := mk u d None [] [] [] None.

Definition to_dict (r : t) : json :=
  let assets := JArr (map JObj (assets r)) in
  JObj [("url", JStr (url r));
        ("depth", JInt (depth r));
        ("title", of_option_str (title r));
        ("assets", assets);
        ("pdfs", assets);
        ("errors", JArr (map JStr (errors r)));
        ("referrers", JArr (map JStr (referrers r)));
        ("last_status", of_option_str (last_status r))].

Definition from_dict (data : json) : result t :=
  let* payload := as_payload data in
  let assets := get "assets" payload in
  let assets :=
    match assets with
    | JNull => if dict_has "pdfs" payload then get "pdfs" payload else assets
    | _ => assets
    end in
  let referrers :=
    py_or (py_or (get "referrers" payload) (get "parents" payload)) (JArr []) in
  let* u := getitem "url" payload in
  let* u := as_str "url" u in
  let* d := py_int (get_default "depth" (JInt 0) payload) in
  let* ti := as_opt_str "title" (get "title" payload) in
  let* a := dict_list "assets" (py_or assets (JArr [])) in
  let* e := str_list "errors" (get_default "errors" (JArr []) payload) in
  let* rf := str_list "referrers" (py_or referrers (JArr [])) in
  let* ls := as_opt_str "last_status" (get "last_status" payload) in
  Ok (mk u d ti a e rf ls).

End PageRecord.

(** ** scraper/state.py: CrawlState *)
Module CrawlState.
Import Json.

Record t : Type := mk
  { start_url : string;
    max_depth : Z;
    respect_robots : bool;
    same_domain_only : bool;
    include_patterns : list string;
    exclude_patterns : list string;
    target_extensions : list string;
    frontier : list (string * Z);
    visited : gset string;
    asset_cache : gmap string pydict;
    pages : gmap string PageRecord.t;
    skipped : list pydict;
    started_at : option string;
    finished_at : option string;
    referrers : gmap string (list string);
    asset_manifest : gmap string pydict }.

Definition with_target_extensions (x : list string) (s : t) : t :=
  mk (start_url s) (max_depth s) (respect_robots s) (same_domain_only s)
     (include_patterns s) (exclude_patterns s) x (frontier s) (visited s)
     (asset_cache s) (pages s) (skipped s) (started_at s) (finished_at s)
     (referrers s) (asset_manifest s).
Definition with_frontier (x : list (string * Z)) (s : t) : t :=
  mk (start_url s) (max_depth s) (respect_robots s) (same_domain_only s)
     (include_patterns s) (exclude_patterns s) (target_extensions s) x (visited s)
     (asset_cache s) (pages s) (skipped s) (started_at s) (finished_at s)
     (referrers s) (asset_manifest s).
Definition with_visited (x : gset string) (s : t) : t :=
  mk (start_url s) (max_depth s) (respect_robots s) (same_domain_only s)
     (include_patterns s) (exclude_patterns s) (target_extensions s) (frontier s) x
     (asset_cache s) (pages s) (skipped s) (started_at s) (finished_at s)
     (referrers s) (asset_manifest s).
Definition with_asset_cache (x : gmap string pydict) (s : t) : t :=
  mk (start_url s) (max_depth s) (respect_robots s) (same_domain_only s)
     (include_patterns s) (exclude_patterns s) (target_extensions s) (frontier s)
     (visited s) x (pages s) (skipped s) (started_at s) (finished_at s)
     (referrers s) (asset_manifest s).
Definition with_pages (x : gmap string PageRecord.t) (s : t) : t :=
  mk (start_url s) (max_depth s) (respect_robots s) (same_domain_only s)
     (include_patterns s) (exclude_patterns s) (target_extensions s) (frontier s)
     (visited s) (asset_cache s) x (skipped s) (started_at s) (finished_at s)
     (referrers s) (asset_manifest s).
Definition with_skipped (x : list pydict) (s : t) : t :=
  mk (start_url s) (max_depth s) (respect_robots s) (same_domain_only s)
     (include_patterns s) (exclude_patterns s) (target_extensions s) (frontier s)
     (visited s) (asset_cache s) (pages s) x (started_at s) (finished_at s)
     (referrers s) (asset_manifest s).
Definition with_started_at (x : option string) (s : t) : t :=
  mk (start_url s) (max_depth s) (respect_robots s) (same_domain_only s)
     (include_patterns s) (exclude_patterns s) (target_extensions s) (frontier s)
     (visited s) (asset_cache s) (pages s) (skipped s) x (finished_at s)
     (referrers s) (asset_manifest s).
Definition with_referrers (x : gmap string (list string)) (s : t) : t :=
  mk (start_url s) (max_depth s) (respect_robots s) (same_domain_only s)
     (include_patterns s) (exclude_patterns s) (target_extensions s) (frontier s)
     (visited s) (asset_cache s) (pages s) (skipped s) (started_at s) (finished_at s)
     x (asset_manifest s).
Definition with_asset_manifest (x : gmap string pydict) (s : t) : t :=
  mk (start_url s) (max_depth s) (respect_robots s) (same_domain_only s)
     (include_patterns s) (exclude_patterns s) (target_extensions s) (frontier s)
     (visited s) (asset_cache s) (pages s) (skipped s) (started_at s) (finished_at s)
     (referrers s) x.

(** A dict of the state as a JSON object. *)
Definition obj_of_map {V : Type} (f : V -> json) (m : gmap string V) : json :=
  JObj (map (fun kv => (fst kv, f (snd kv))) (map_to_list m)).

Definition to_dict (s : t) : json :=
  let cache := obj_of_map JObj (asset_cache s) in
  JObj [("start_url", JStr (start_url s));
        ("max_depth", JInt (max_depth s));
        ("respect_robots", JBool (respect_robots s));
        ("same_domain_only", JBool (same_domain_only s));
        ("include_patterns", JArr (map JStr (include_patterns s)));
        ("exclude_patterns", JArr (map JStr (exclude_patterns s)));
        ("target_extensions", JArr (map JStr (target_extensions s)));
        ("frontier",
          JArr (map (fun ud => JArr [JStr (fst ud); JInt (snd ud)]) (frontier s)));
        ("visited", JArr (map JStr (elements (visited s))));
        ("asset_cache", cache);
        ("pdf_cache", cache);
        ("pages", obj_of_map PageRecord.to_dict (pages s));
        ("skipped", JArr (map JObj (skipped s)));
        ("started_at", of_option_str (started_at s));
        ("finished_at", of_option_str (finished_at s));
        ("referrers", obj_of_map (fun refs => JArr (map JStr refs)) (referrers s));
        ("asset_manifest", obj_of_map JObj (asset_manifest s))].

(** [tuple(item)] read as a frontier entry. *)
Definition frontier_item (item : json) : result (string * Z) :=
  let* parts := py_iter item in
  match parts with
  | [JStr u; JInt d] => Ok (u, d)
  | _ => Raise (IllTyped "frontier")
  end.

(** One element of [set(...)] read as a visited URL. *)
Definition visited_item (item : json) : result string :=
  match item with
  | JStr u => Ok u
  | JArr _ | JObj _ => Raise (TypeError "unhashable type")
  | _ => Raise (IllTyped "visited")
  end.

Definition decode_values {V : Type} (f : json -> result V) (d : pydict)
  : result (list (string * V)) :=
  mapM (fun kv => let* v := f (snd kv) in Ok (fst kv, v)) d.

(** [mark_started()]; [now] is the clock reading. *)
Definition mark_started (now : string) (s : t) : t :=
  match started_at s with
  | Some (String _ _) => s
  | _ => with_started_at (Some now) s
  end.

(** [enqueue(url, depth)] *)
Definition enqueue (url : string) (depth : Z) (s : t) : t :=
  with_frontier (frontier s ++ [(url, depth)]) s.

(** [dequeue()] *)
Definition dequeue (s : t) : option (string * Z) * t :=
  match frontier s with
  | [] => (None, s)
  | task :: rest => (Some task, with_frontier rest s)
  end.

(** [if ref not in refs: refs.append(ref)] *)
Definition append_new (ref : string) (refs : list string) : list string :=
  if Urllib.in_list ref refs then refs else refs ++ [ref].

(** The loop of [page] over the referrers recorded for the URL. *)
Definition backfill (recorded : list string) (refs : list string) : list string :=
  fold_left (fun acc ref => append_new ref acc) recorded refs.

(** [page(url, depth)]: the record returned is the one stored in [pages]. *)
Definition page (url : string) (depth : Z) (s : t) : PageRecord.t * t :=
  let record :=
    match pages s !! url with
    | None => PageRecord.fresh url depth
    | Some r => PageRecord.with_depth (Z.min (PageRecord.depth r) depth) r
    end in
  let record :=
    PageRecord.with_referrers
      (backfill (default [] (referrers s !! url)) (PageRecord.referrers record))
      record in
  (record, with_pages (<[url := record]> (pages s)) s).

(** [record_referrer(url, referrer)] *)
Definition record_referrer (url referrer : string) (s : t) : t :=
  if Py.is_empty referrer then s
  else
    let refs := append_new referrer (default [] (referrers s !! url)) in
    let s := with_referrers (<[url := refs]> (referrers s)) s in
    match pages s !! url with
    | Some p =>
        let p' :=
          PageRecord.with_referrers (append_new referrer (PageRecord.referrers p)) p in
        with_pages (<[url := p']> (pages s)) s
    | None => s
    end.

(** [record_skip(url, reason)] *)
Definition record_skip (url reason : string) (s : t) : t :=
  with_skipped (skipped s ++ [[("url", JStr url); ("reason", JStr reason)]]) s.

Section RegisterAsset.
Variables (asset_url path page_url : string) (depth : Z).
Variables (asset_type extension : option string) (reused : bool) (now : string).

(** Truth value of an optional string. *)
Definition nonempty (o : option string) : bool :=
  match o with Some (String _ _) => true | _ => false end.

(** The loop over [entry['pages']]: [Some] of the updated list when an
    item for [page_url] was found, [None] otherwise. *)
Fixpoint touch_page (l : list json) : result (option (list json)) :=
  match l with
  | [] => Ok None
  | JObj item :: rest =>
      if eq_str (get "page" item) page_url
      then
        let item := dict_set "path" (JStr path) (dict_set "depth" (JInt depth) item) in
        let item := if reused then dict_set "reused" (JBool true) item else item in
        Ok (Some (JObj item :: rest))
      else
        let* r := touch_page rest in
        Ok (cons (JObj item) <$> r)
  | _ :: _ => Raise (AttributeError "get")
  end.

Definition register_entry (existing : option pydict) : result pydict :=
  let entry :=
    match existing with
    | None =>
        [("path", JStr path);
         ("type", of_option_str asset_type);
         ("extension", of_option_str extension);
         ("first_page", JStr page_url);
         ("first_depth", JInt depth);
         ("first_seen", JStr now);
         ("pages", JArr [])]
    | Some e =>
        let e := dict_set "path" (JStr path) e in
        let e := if nonempty asset_type
                 then dict_set "type" (of_option_str asset_type) e else e in
        if nonempty extension
        then dict_set "extension" (of_option_str extension) e else e
    end in
  let entry := if dict_has "pages" entry then entry
               else dict_set "pages" (JArr []) entry in
  let* pages :=
    match get "pages" entry with
    | JArr l =>
        let* touched := touch_page l in
        match touched with
        | Some l' => Ok l'
        | None =>
            Ok (l ++ [JObj [("page", JStr page_url); ("depth", JInt depth);
                            ("path", JStr path); ("reused", JBool reused)]])
        end
    | JStr _ | JObj _ => Raise (AttributeError "append")
    | _ => Raise (TypeError "object is not iterable")
    end in
  let entry := dict_set "pages" (JArr pages) entry in
  let entry := dict_set "last_seen" (JStr now) entry in
  Ok (dict_set "download_count" (JInt (Z.of_nat (length pages))) entry).

(** [register_asset(asset_url, path, page_url, depth, asset_type,
    extension, reused)] *)
Definition register_asset (s : t) : result t :=
  let* entry := register_entry (asset_manifest s !! asset_url) in
  Ok (with_asset_manifest (<[asset_url := entry]> (asset_manifest s)) s).
End RegisterAsset.

Section Persistence.
(** [json.dumps(payload, indent=2)] and [json.loads(raw)]; [None] stands for
    [json.JSONDecodeError]. *)
Variable json_dumps : json -> string.
Variable json_loads : string -> option json.

(** The file system: the text stored at each path. *)
Abbreviation files := (gmap string string).

Definition save (s : t) (path : string) (fs : files) : files :=
  <[path := json_dumps (to_dict s)]> fs.

(** The part of [load] that follows [json.loads]. *)
Definition of_payload (data : json) : result t :=
  let* payload := as_payload data in
  let* page_items := items (get_default "pages" (JObj []) payload) in
  let* pages := decode_values PageRecord.from_dict page_items in
  let asset_cache :=
    py_or (py_or (get "asset_cache" payload) (get "pdf_cache" payload)) (JObj []) in
  let* su := getitem "start_url" payload in
  let* su := as_str "start_url" su in
  let* md := getitem "max_depth" payload in
  let* md := py_int md in
  let* rr := as_bool "respect_robots"
               (get_default "respect_robots" (JBool true) payload) in
  let* sd := as_bool "same_domain_only"
               (get_default "same_domain_only" (JBool true) payload) in
  let* ip := str_list "include_patterns"
               (get_default "include_patterns" (JArr []) payload) in
  let* ep := str_list "exclude_patterns"
               (get_default "exclude_patterns" (JArr []) payload) in
  let* te := str_list "target_extensions"
               (get_default "target_extensions" (JArr []) payload) in
  let* fr := py_iter (get_default "frontier" (JArr []) payload) in
  let* fr := mapM frontier_item fr in
  let* vi := py_iter (get_default "visited" (JArr []) payload) in
  let* vi := mapM visited_item vi in
  let* ac := py_dict "asset_cache" asset_cache in
  let* ac := decode_values (as_dict "asset_cache") ac in
  let* sk := dict_list "skipped" (get_default "skipped" (JArr []) payload) in
  let* sa := as_opt_str "started_at" (get "started_at" payload) in
  let* fa := as_opt_str "finished_at" (get "finished_at" payload) in
  let* rf := items (py_or (get "referrers" payload) (JObj [])) in
  let* rf := decode_values (str_list "referrers") rf in
  let* am := py_dict "asset_manifest"
               (get_default "asset_manifest" (JObj []) payload) in
  let* am := decode_values (as_dict "asset_manifest") am in
  Ok (mk su md rr sd ip ep te fr (list_to_set vi) (list_to_map ac)
         (list_to_map pages) sk sa fa (list_to_map rf) (list_to_map am)).

Definition load (path : string) (fs : files) : result t :=
  match fs !! path with
  | None => Raise (FileNotFoundError path)
  | Some raw =>
      if Py.is_empty (Py.strip raw)
      then Raise (ValueError ("State file " +:+ path +:+ " is empty"))
      else
        match json_loads raw with
        | None => Raise (ValueError ("Invalid JSON in state file " +:+ path))
        | Some payload => of_payload payload
        end
  end.
End Persistence.

End CrawlState.

(** ** scraper/robots.py *)
Module RobotsHandler.

Section Robots.
Variable chk : Urllib.netloc_checks.
(** A parsed robots.txt, what reading one over the network gives ([None]
    when [set_url]/[read] raise) and [RobotFileParser.can_fetch]. *)
Variable policy : Type.
Variable robots_read : string -> option policy.
Variable can_fetch : policy -> string -> string -> bool.

(** The handler with the cache that [functools.lru_cache] keeps for
    [_parser_for], most recently used first, and the robots URLs read so
    far. *)
Record t : Type := mk
  { user_agent : string;
    respect : bool;
    cache : list (string * option policy);
    requests : list string }.

Definition maxsize : nat := 32.

Fixpoint cache_lookup (url : string) (l : list (string * option policy))
  : option (option policy) :=
  match l with
  | [] => None
  | (k, v) :: r => if String.eqb k url then Some v else cache_lookup url r
  end.

Definition cache_remove (url : string) (l : list (string * option policy))
  : list (string * option policy) :=
  filter (fun kv => negb (String.eqb (fst kv) url)) l.

(** The body of [_parser_for]: the robots URL and the parser read. *)
Definition read_parser (url : string) : result (string * option policy) :=
  let* parsed := Urllib.urlparse chk url EmptyString in
  let* robots_url :=
    Urllib.urljoin chk
      (Urllib.scheme parsed +:+ "://" +:+ Urllib.netloc parsed) "/robots.txt" in
  Ok (robots_url, robots_read robots_url).

(** [_parser_for(url)] under [@lru_cache(maxsize=32)]: the key is the
    argument, a hit moves the entry to the front, a miss on a full cache
    evicts the least recently used entry. *)
Definition _parser_for (url : string) (h : t) : result (option policy * t) :=
  match cache_lookup url (cache h) with
  | Some v =>
      Ok (v, mk (user_agent h) (respect h)
                ((url, v) :: cache_remove url (cache h)) (requests h))
  | None =>
      let* (robots_url, v) := read_parser url in
      let kept :=
        if (maxsize <=? length (cache h))%nat then removelast (cache h)
        else cache h in
      Ok (v, mk (user_agent h) (respect h) ((url, v) :: kept)
                (requests h ++ [robots_url]))
  end.

(** [is_allowed(url)] *)
Definition is_allowed (url : string) (h : t) : result (bool * t) :=
  if negb (respect h) then Ok (true, h)
  else
    let* (parser, h) := _parser_for url h in
    match parser with
    | None => Ok (true, h)
    | Some p => Ok (can_fetch p (user_agent h) url, h)
    end.
End Robots.

Arguments mk {policy} _ _ _ _.
Arguments user_agent {policy} _.
Arguments respect {policy} _.
Arguments cache {policy} _.
Arguments requests {policy} _.

End RobotsHandler.

(** ** scraper/config.py: the settings the engine reads *)
Module ScraperSettings.

Record t : Type := mk
  { state_path : string;
    user_agent : string;
    default_download_workers : Z;
    target_extensions : list string }.

End ScraperSettings.

(** ** scraper/crawler.py *)
Module FileCrawler.
Import Json.

(** One iteration of the loop of [_prepare_extensions]: [None] when the
    entry is skipped. *)
Definition clean_extension (ext : string) : option string :=
  if Py.is_empty ext then None
  else
    let cleaned := Py.strip (Py.lower ext) in
    if Py.is_empty cleaned then None
    else Some (if Py.startswith "." cleaned then cleaned else "." +:+ cleaned).

Fixpoint insert_sorted (x : string) (l : list string) : list string :=
  match l with
  | [] => [x]
  | y :: r =>
      match String.compare x y with
      | Eq => l
      | Lt => x :: l
      | Gt => y :: insert_sorted x r
      end
  end.

(** [sorted(set(l))] *)
Definition sorted_set (l : list string) : list string :=
  fold_right insert_sorted [] l.

(** [_prepare_extensions(raw)] *)
Definition _prepare_extensions (raw : list string) : list string :=
  let normalized := omap clean_extension raw in
  sorted_set (match normalized with [] => [".pdf"] | _ => normalized end).

(** The accumulators of [_extract_links]. *)
Record links : Type := mkLinks
  { assets : list (string * string * string);
    html_links : list string;
    assets_seen : gset string;
    html_seen : gset string }.

(** The collaborators of the engine, which live outside the repository:
    - [chk]: the host validations of urllib (see [Urllib.netloc_checks]);
    - [re_search pattern value]: [re.search], [None] for [re.error];
    - [tld_extract]: tldextract's (domain, suffix) of a host;
    - [robots_read url]: the robots.txt read at [url], [None] when reading
      raises; [can_fetch]: [RobotFileParser.can_fetch];
    - [json_dumps], [json_loads]: the json module, [None] for a decode error;
    - [clock]: the successive readings of the clock by [register_asset];
    - [head_content_type url]: the Content-Type of a HEAD response, [None]
      when the request fails or has no such header; [http_get url]: the
      Content-Type of a GET response, [None] when the request fails;
    - [asset_name url label extension]: the file name, [base_stem] and
      [suffix_ext] that [_download_asset] derives; [path_suffix p]:
      [Path(p).suffix]. *)
Record env (policy : Type) : Type := mkEnv
  { chk : Urllib.netloc_checks;
    re_search : string -> string -> option bool;
    tld_extract : string -> string * string;
    robots_read : string -> option policy;
    can_fetch : policy -> string -> string -> bool;
    json_dumps : json -> string;
    json_loads : string -> option json;
    clock : nat -> string;
    head_content_type : string -> option string;
    http_get : string -> option string;
    asset_name : string -> string -> string -> string * string * string;
    path_suffix : string -> string }.
Arguments mkEnv {policy}.
Arguments chk {policy} _.
Arguments re_search {policy} _.
Arguments tld_extract {policy} _.
Arguments robots_read {policy} _.
Arguments can_fetch {policy} _.
Arguments json_dumps {policy} _.
Arguments json_loads {policy} _.
Arguments clock {policy} _.
Arguments head_content_type {policy} _.
Arguments http_get {policy} _.
Arguments asset_name {policy} _.
Arguments path_suffix {policy} _.

Section Engine.
Context {policy : Type}.
Variable E : env policy.

(** The fields of the engine that the bookkeeping reads and writes; the
    HTTP session, the rate limiter, the events and the status snapshot
    are left out. [asset_inflight] maps an asset URL to the number of its
    future, [asset_waiters] to the URLs of the waiting page records;
    [download_pool] tells whether [_download_pool] is set. *)
Record t : Type := mk
  { settings : ScraperSettings.t;
    concurrency : Z;
    download_concurrency : Z;
    target_extensions : list string;
    robots : RobotsHandler.t policy;
    state : CrawlState.t;
    queued_pages : gset string;
    asset_inflight : gmap string nat;
    asset_waiters : gmap string (list string);
    active_downloads : Z;
    download_pool : bool }.

Definition with_robots (x : RobotsHandler.t policy) (c : t) : t :=
  mk (settings c) (concurrency c) (download_concurrency c) (target_extensions c)
     x (state c) (queued_pages c) (asset_inflight c) (asset_waiters c)
     (active_downloads c) (download_pool c).
Definition with_state (x : CrawlState.t) (c : t) : t :=
  mk (settings c) (concurrency c) (download_concurrency c) (target_extensions c)
     (robots c) x (queued_pages c) (asset_inflight c) (asset_waiters c)
     (active_downloads c) (download_pool c).
Definition with_queued_pages (x : gset string) (c : t) : t :=
  mk (settings c) (concurrency c) (download_concurrency c) (target_extensions c)
     (robots c) (state c) x (asset_inflight c) (asset_waiters c)
     (active_downloads c) (download_pool c).
Definition with_asset_inflight (x : gmap string nat) (c : t) : t :=
  mk (settings c) (concurrency c) (download_concurrency c) (target_extensions c)
     (robots c) (state c) (queued_pages c) x (asset_waiters c)
     (active_downloads c) (download_pool c).
Definition with_asset_waiters (x : gmap string (list string)) (c : t) : t :=
  mk (settings c) (concurrency c) (download_concurrency c) (target_extensions c)
     (robots c) (state c) (queued_pages c) (asset_inflight c) x
     (active_downloads c) (download_pool c).
Definition with_active_downloads (x : Z) (c : t) : t :=
  mk (settings c) (concurrency c) (download_concurrency c) (target_extensions c)
     (robots c) (state c) (queued_pages c) (asset_inflight c) (asset_waiters c)
     x (download_pool c).
Definition with_download_pool (x : bool) (c : t) : t :=
  mk (settings c) (concurrency c) (download_concurrency c) (target_extensions c)
     (robots c) (state c) (queued_pages c) (asset_inflight c) (asset_waiters c)
     (active_downloads c) x.

(** One pass of a loop of [_hydrate_cache_from_previous_run]. *)
Definition hydrate_entries (need_path : bool) (entries : pydict)
    (m : gmap string pydict) : gmap string pydict :=
  fold_left
    (fun m kv =>
       match m !! fst kv, snd kv with
       | None, JObj entry =>
           if negb need_path || truthy (get "path" entry)
           then <[fst kv := entry]> m else m
       | _, _ => m
       end)
    entries m.

(** [_hydrate_cache_from_previous_run(state_path)] *)
Definition _hydrate_cache_from_previous_run (path : string)
    (fs : gmap string string) (st : CrawlState.t) : result CrawlState.t :=
  match fs !! path with
  | None => Ok st
  | Some raw =>
      match json_loads E raw with
      | None => Ok st
      | Some data =>
          let* payload := as_payload data in
          let cached_assets :=
            py_or (py_or (get "asset_cache" payload) (get "pdf_cache" payload))
                  (JObj []) in
          let manifest := py_or (get "asset_manifest" payload) (JObj []) in
          let* cached_assets := items cached_assets in
          let st :=
            CrawlState.with_asset_cache
              (hydrate_entries true cached_assets (CrawlState.asset_cache st)) st in
          let* manifest := items manifest in
          Ok (CrawlState.with_asset_manifest
                (hydrate_entries false manifest (CrawlState.asset_manifest st)) st)
      end
  end.

(** [FileCrawler.__init__]; [now] is the clock reading of [mark_started]
    and [fs] the file system. Creating the directories and the HTTP
    session has no part in the model. *)
Definition init (start_url : string) (max_depth : Z)
    (settings : ScraperSettings.t) (concurrency : Z)
    (include_patterns exclude_patterns : option (list string))
    (respect_robots same_domain_only resume : bool)
    (download_concurrency : option Z)
    (target_extensions : option (list string))
    (now : string) (fs : gmap string string) : result t :=
  let concurrency := Z.max 1 concurrency in
  let desired_downloads :=
    match download_concurrency with
    | Some n => if (n =? 0)%Z then ScraperSettings.default_download_workers settings
                else n
    | None => ScraperSettings.default_download_workers settings
    end in
  let download_concurrency := Z.max 1 desired_downloads in
  let exts :=
    _prepare_extensions
      match target_extensions with
      | Some (x :: r) => x :: r
      | _ => ScraperSettings.target_extensions settings
      end in
  let robots := RobotsHandler.mk (ScraperSettings.user_agent settings)
                  respect_robots [] [] in
  let state_path := ScraperSettings.state_path settings in
  let* loaded :=
    if resume && bool_decide (is_Some (fs !! state_path))
    then
      match CrawlState.load (json_loads E) state_path fs with
      | Ok st => Ok (Some st)
      | Raise (ValueError _) => Ok None
      | Raise e => Raise e
      end
    else Ok None in
  let* st :=
    match loaded with
    | Some st => Ok st
    | None =>
        let st :=
          CrawlState.mk start_url max_depth respect_robots same_domain_only
            (default [] include_patterns) (default [] exclude_patterns) exts
            [] ∅ ∅ ∅ [] None None ∅ ∅ in
        _hydrate_cache_from_previous_run state_path fs
          (CrawlState.enqueue start_url 0 st)
    end in
  let st := CrawlState.mark_started now st in
  let '(st, exts) :=
    match CrawlState.target_extensions st with
    | [] => (CrawlState.with_target_extensions exts st, exts)
    | _ => (st, _prepare_extensions (CrawlState.target_extensions st))
    end in
  Ok (mk settings concurrency download_concurrency exts robots st
         (list_to_set (map fst (CrawlState.frontier st))) ∅ ∅ 0 false).

(** [_record_skip(url, reason)] *)
Definition _record_skip (url reason : string) (c : t) : t :=
  with_state (CrawlState.record_skip url reason (state c)) c.

(** The closure [consider(url_value, label)] of [_extract_links(base_url,
    soup)]. *)
Definition consider (base_url : string) (url_value : option string)
    (label : string) (c : t) (acc : links) : result (t * links) :=
  match url_value with
  | None | Some EmptyString => Ok (c, acc)
  | Some url_value =>
      let* norm := Utils.normalize_url (chk E) base_url url_value in
      match norm with
      | None | Some EmptyString => Ok (c, acc)
      | Some norm =>
          let st := state c in
          if Utils.match_patterns (re_search E) norm (CrawlState.exclude_patterns st)
          then Ok (_record_skip norm "exclude-pattern" c, acc)
          else if match CrawlState.include_patterns st with
                  | [] => false
                  | _ => negb (Utils.match_patterns (re_search E) norm
                                 (CrawlState.include_patterns st))
                  end
          then Ok (_record_skip norm "include-miss" c, acc)
          else
            let* off_domain :=
              if CrawlState.same_domain_only st
              then
                let* same := Utils.same_registrable_domain (chk E) (tld_extract E) norm
                               (CrawlState.start_url st) in
                Ok (negb same)
              else Ok false in
            if off_domain then Ok (_record_skip norm "off-domain" c, acc)
            else
              let* (allowed, rb) :=
                RobotsHandler.is_allowed (chk E) policy (robots_read E) (can_fetch E)
                  norm (robots c) in
              let c := with_robots rb c in
              if negb allowed then Ok (_record_skip norm "robots" c, acc)
              else
                let target_exts :=
                  match CrawlState.target_extensions st with
                  | [] => target_extensions c
                  | l => l
                  end in
                let* extension := Utils.match_extension (chk E) norm target_exts in
                match extension with
                | Some (String a b) =>
                    if bool_decide (norm ∈ assets_seen acc) then Ok (c, acc)
                    else Ok (c, mkLinks (assets acc ++ [(norm, label, String a b)])
                                        (html_links acc)
                                        ({[norm]} ∪ assets_seen acc)
                                        (html_seen acc))
                | _ =>
                    if bool_decide (norm ∈ html_seen acc) then Ok (c, acc)
                    else Ok (c, mkLinks (assets acc) (html_links acc ++ [norm])
                                        (assets_seen acc)
                                        ({[norm]} ∪ html_seen acc))
                end
      end
  end.

(** [_enqueue_page(parent_url, url, depth)] *)
Definition _enqueue_page (parent_url url : string) (depth : Z) (c : t) : t :=
  let st := CrawlState.record_referrer url parent_url (state c) in
  let c := with_state st c in
  if bool_decide (url ∈ CrawlState.visited st)
     || bool_decide (url ∈ queued_pages c)
  then c
  else
    with_queued_pages ({[url]} ∪ queued_pages c)
      (with_state (CrawlState.enqueue url depth st) c).

(** [_crawl_loop], first half of an iteration: [task = self.state.dequeue()]. *)
Definition loop_dequeue (c : t) : option (string * Z) * t :=
  let '(task, st) := CrawlState.dequeue (state c) in
  (task, with_state st c).

(** [_crawl_loop], second half: the block under the lock; [true] when the
    page is dispatched to the crawl pool. *)
Definition loop_mark (task : string * Z) (c : t) : bool * t :=
  let st := state c in
  if bool_decide (fst task ∈ CrawlState.visited st) then (false, c)
  else
    (true,
     with_queued_pages (queued_pages c ∖ {[fst task]})
       (with_state (CrawlState.with_visited ({[fst task]} ∪ CrawlState.visited st) st) c)).

(** *** The asset coordinator

    A page record is shared between [state.pages] and the workers that
    hold it; records are never removed from [pages], so a worker's
    reference is the record's URL. *)

(** The arguments of [_schedule_asset_download] and [_download_asset]. *)
Record call : Type := mkCall
  { c_page : string;
    c_asset_url : string;
    c_folder : string;
    c_label : string;
    c_extension : string }.

(** [any(item.get('url') == asset_url for item in page.assets)] *)
Definition has_asset (asset_url : string) (p : PageRecord.t) : bool :=
  existsb (fun item => eq_str (get "url" item) asset_url) (PageRecord.assets p).

(** The loop of [_attach_asset_to_page] over [page.assets]: the updated
    list when an entry with this URL and path exists. *)
Fixpoint mark_existing (asset_url path : string) (reused : bool)
    (l : list pydict) : option (list pydict) :=
  match l with
  | [] => None
  | existing :: rest =>
      if eq_str (get "url" existing) asset_url && eq_str (get "path" existing) path
      then
        Some ((if reused && negb (truthy (get "reused" existing))
               then dict_set "reused" (JBool true) existing
               else existing) :: rest)
      else cons existing <$> mark_existing asset_url path reused rest
  end.

Definition optional_field (k : string) (o : option string) : pydict :=
  if CrawlState.nonempty o then [(k, of_option_str o)] else [].

(** [_attach_asset_to_page(page, asset_url, path, asset_type, extension,
    reused)]: the engine after the call and the exception it raised, if
    any. *)
Definition _attach_asset_to_page (page asset_url path : string)
    (asset_type extension : option string) (reused : bool) (now : string)
    (c : t) : t * option exn :=
  match CrawlState.pages (state c) !! page with
  | None => (c, Some (KeyError page))
  | Some p =>
      let entry :=
        [("url", JStr asset_url); ("path", JStr path)]
          ++ optional_field "type" asset_type
          ++ optional_field "extension" extension
          ++ (if reused then [("reused", JBool true)] else []) in
      match mark_existing asset_url path reused (PageRecord.assets p) with
      | Some l =>
          let p := PageRecord.with_assets l p in
          (with_state
             (CrawlState.with_pages (<[page := p]> (CrawlState.pages (state c)))
                (state c)) c, None)
      | None =>
          let p' := PageRecord.with_assets (PageRecord.assets p ++ [entry]) p in
          let cache_entry :=
            [("path", JStr path)] ++ optional_field "type" asset_type
              ++ optional_field "extension" extension in
          let st := state c in
          let st := CrawlState.with_pages (<[page := p']> (CrawlState.pages st)) st in
          let st :=
            CrawlState.with_asset_cache
              (<[asset_url := cache_entry]> (CrawlState.asset_cache st)) st in
          match CrawlState.register_asset asset_url path (PageRecord.url p')
                  (PageRecord.depth p') asset_type extension reused now st with
          | Ok st' => (with_state st' c, None)
          | Raise e => (with_state st c, Some e)
          end
      end
  end.

(** [page.errors.append(msg)] *)
Definition add_page_error (page msg : string) (c : t) : t :=
  match CrawlState.pages (state c) !! page with
  | None => c
  | Some p =>
      let p := PageRecord.with_errors (PageRecord.errors p ++ [msg]) p in
      with_state
        (CrawlState.with_pages (<[page := p]> (CrawlState.pages (state c)))
           (state c)) c
  end.

(** [self.state.asset_cache.pop(asset_url, None)] *)
Definition evict_cache (asset_url : string) (c : t) : t :=
  with_state
    (CrawlState.with_asset_cache
       (delete asset_url (CrawlState.asset_cache (state c))) (state c)) c.

(** Where a call of [_schedule_asset_download] stands: before the first
    block under the lock, holding a cache entry whose file existed, before
    the second block, before [submit], before the block that stores the
    future, before [add_done_callback], returned, or raised. *)
Inductive sched_pc : Type :=
| SBegin
| SCached (cache_entry : pydict)
| SCheck
| SSubmit
| SRegister (future : nat)
| SCallback (future : nat)
| SDone
| SRaised (e : exn).

(** Where a call of [_download_asset] stands. *)
Inductive dl_pc : Type :=
| DBegin
| DFetch (target : string)
| DAttach (target : string) (asset_type : option string) (ext : string)
| DDrain (target : string) (asset_type : option string) (ext : string)
| DWaiters (target : string) (asset_type : option string) (ext : string)
           (waiters : list string)
| DExcept (target : string) (msg : string)
| DExceptDrain (target : string) (msg : string)
| DExceptWaiters (target : string) (msg : string) (waiters : list string)
| DUnlink (target : string)
| DReturned
| DCalledBack.

Record sched_thread : Type := mkSched { s_call : call; s_pc : sched_pc }.

(** A future of the download pool; [d_callback] tells whether
    [_download_done] has been attached to it. *)
Record dl_task : Type := mkTask
  { d_call : call; d_pc : dl_pc; d_callback : bool }.

(** The engine with its surroundings: the local [task] of the driving
    loop, the paths that exist on disk, the snapshot files, the clock, the
    calls in progress and the asset URLs requested with GET so far. *)
Record world : Type := mkWorld
  { crawler : t;
    task : option (string * Z);
    disk : gset string;
    fs : gmap string string;
    time : nat;
    scheds : list sched_thread;
    tasks : list dl_task;
    gets : list string }.

Definition with_crawler (x : t) (w : world) : world :=
  mkWorld x (task w) (disk w) (fs w) (time w) (scheds w) (tasks w) (gets w).
Definition with_task (x : option (string * Z)) (w : world) : world :=
  mkWorld (crawler w) x (disk w) (fs w) (time w) (scheds w) (tasks w) (gets w).
Definition with_disk (x : gset string) (w : world) : world :=
  mkWorld (crawler w) (task w) x (fs w) (time w) (scheds w) (tasks w) (gets w).
Definition with_fs (x : gmap string string) (w : world) : world :=
  mkWorld (crawler w) (task w) (disk w) x (time w) (scheds w) (tasks w) (gets w).
Definition with_time (x : nat) (w : world) : world :=
  mkWorld (crawler w) (task w) (disk w) (fs w) x (scheds w) (tasks w) (gets w).
Definition with_scheds (x : list sched_thread) (w : world) : world :=
  mkWorld (crawler w) (task w) (disk w) (fs w) (time w) x (tasks w) (gets w).
Definition with_tasks (x : list dl_task) (w : world) : world :=
  mkWorld (crawler w) (task w) (disk w) (fs w) (time w) (scheds w) x (gets w).
Definition with_gets (x : list string) (w : world) : world :=
  mkWorld (crawler w) (task w) (disk w) (fs w) (time w) (scheds w) (tasks w) x.

(** [folder / name]; paths are strings in normal form, so that
    [str(Path(p))] is [p]. *)
Definition joinpath (folder name : string) : string := folder +:+ "/" +:+ name.

(** [while target_path.exists(): ...]; the candidates differ by their
    number, so one past the number of files on disk is free. *)
Fixpoint free_target (fuel : nat) (dk : gset string)
    (folder base_stem suffix_ext target : string) (suffix : nat) : string :=
  match fuel with
  | O => target
  | S fuel' =>
      if bool_decide (target ∈ dk)
      then free_target fuel' dk folder base_stem suffix_ext
             (joinpath folder (base_stem +:+ "_" +:+ pretty suffix +:+ suffix_ext))
             (S suffix)
      else target
  end.

Definition pick_target (dk : gset string) (cl : call) : string :=
  let '(filename, base_stem, suffix_ext) :=
    asset_name E (c_asset_url cl) (c_label cl) (c_extension cl) in
  free_target (size dk + 2) dk (c_folder cl) base_stem suffix_ext
    (joinpath (c_folder cl) filename) 1.

(** [_persist()] *)
Definition _persist (w : world) : world :=
  with_fs (CrawlState.save (json_dumps E) (state (crawler w))
             (ScraperSettings.state_path (settings (crawler w))) (fs w)) w.

(** [_download_done(future)] *)
Definition _download_done (future : nat) (w : world) : world :=
  let c := crawler w in
  let inflight :=
    match filter (fun kv => bool_decide (snd kv = future))
            (map_to_list (asset_inflight c)) with
    | kv :: _ => delete (fst kv) (asset_inflight c)
    | [] => asset_inflight c
    end in
  let c := with_asset_inflight inflight c in
  let c := with_active_downloads (Z.max 0 (active_downloads c - 1)) c in
  _persist (with_crawler c w).

(** One atomic step of a call of [_schedule_asset_download]. *)
Definition sched_step (th : sched_thread) (w : world) : sched_pc * world :=
  let cl := s_call th in
  let c := crawler w in
  let st := state c in
  match s_pc th with
  | SBegin =>
      match CrawlState.pages st !! c_page cl with
      | None => (SRaised (KeyError (c_page cl)), w)
      | Some p =>
          if has_asset (c_asset_url cl) p then (SDone, w)
          else
            match CrawlState.asset_cache st !! c_asset_url cl with
            | Some (f :: fl) =>
                match dict_get "path" (f :: fl) with
                | None => (SRaised (KeyError "path"), w)
                | Some (JStr source_path) =>
                    if bool_decide (source_path ∈ disk w)
                    then (SCached (f :: fl), w)
                    else (SCheck, with_crawler (evict_cache (c_asset_url cl) c) w)
                | Some _ => (SRaised (TypeError "expected str or os.PathLike"), w)
                end
            | _ => (SCheck, w)
            end
      end
  | SCached cache_entry =>
      match get_default "path" (JStr EmptyString) cache_entry with
      | JStr source_path =>
          if negb (bool_decide (source_path ∈ disk w))
          then (SCheck, with_crawler (evict_cache (c_asset_url cl) c) w)
          else
            match as_opt_str "type" (get "type" cache_entry),
                  as_opt_str "extension"
                    (py_or (get "extension" cache_entry) (JStr (c_extension cl))) with
            | Ok asset_type, Ok preferred_ext =>
                let '(c', e) :=
                  _attach_asset_to_page (c_page cl) (c_asset_url cl) source_path
                    asset_type preferred_ext true (clock E (time w)) c in
                (match e with Some e => SRaised e | None => SDone end,
                 with_time (S (time w)) (with_crawler c' w))
            | Raise e, _ | _, Raise e => (SRaised e, w)
            end
      | _ => (SRaised (TypeError "expected str or os.PathLike"), w)
      end
  | SCheck =>
      match CrawlState.pages st !! c_page cl with
      | None => (SRaised (KeyError (c_page cl)), w)
      | Some p =>
          let waiters := default [] (asset_waiters c !! c_asset_url cl) in
          if Urllib.in_list (c_page cl) waiters then (SDone, w)
          else if bool_decide (is_Some (asset_inflight c !! c_asset_url cl))
          then
            (SDone,
             with_crawler
               (with_asset_waiters
                  (<[c_asset_url cl := waiters ++ [c_page cl]]> (asset_waiters c)) c) w)
          else if has_asset (c_asset_url cl) p then (SDone, w)
          else
            (SSubmit,
             with_crawler (with_active_downloads (active_downloads c + 1) c) w)
      end
  | SSubmit =>
      if download_pool c
      then (SRegister (length (tasks w)),
            with_tasks (tasks w ++ [mkTask cl DBegin false]) w)
      else (SRaised (RuntimeError "Download pool not available"), w)
  | SRegister future =>
      (SCallback future,
       with_crawler
         (with_asset_inflight (<[c_asset_url cl := future]> (asset_inflight c)) c) w)
  | SCallback future =>
      match tasks w !! future with
      | Some t =>
          match d_pc t with
          | DReturned =>
              (SDone,
               _download_done future
                 (with_tasks (<[future := mkTask (d_call t) DCalledBack true]> (tasks w)) w))
          | _ =>
              (SDone,
               with_tasks (<[future := mkTask (d_call t) (d_pc t) true]> (tasks w)) w)
          end
      | None => (SDone, w)
      end
  | SDone => (SDone, w)
  | SRaised e => (SRaised e, w)
  end.

(** [head_content_type or content_type or None] *)
Definition pick_type (head : option string) (content_type : string)
  : option string :=
  if CrawlState.nonempty head then head
  else if Py.is_empty content_type then None else Some content_type.

(** [str(exc)], the text that ends up in [page.errors]. *)
Definition exn_message (e : exn) : string :=
  match e with
  | ValueError m | TypeError m | AttributeError m | RuntimeError m => m
  | KeyError k | FileNotFoundError k | IllTyped k => k
  end.

(** One atomic step of a call of [_download_asset], and the done-callback
    once the call has returned. A failed request is reported with the
    text [request failed], the text of [requests] being outside the model. *)
Definition download_step (future : nat) (t : dl_task) (w : world) : dl_pc * world :=
  let cl := d_call t in
  let c := crawler w in
  match d_pc t with
  | DBegin => (DFetch (pick_target (disk w) cl), w)
  | DFetch target =>
      let head := head_content_type E (c_asset_url cl) in
      let w := with_gets (gets w ++ [c_asset_url cl]) w in
      match http_get E (c_asset_url cl) with
      | None => (DExcept target "request failed", w)
      | Some header =>
          let content_type := Py.lower header in
          if Py.contains "text/html" content_type
          then (DExcept target "content-type html", w)
          else
            let ext := if Py.is_empty (c_extension cl) then path_suffix E target
                       else c_extension cl in
            (DAttach target (pick_type head content_type) ext,
             with_disk ({[target]} ∪ disk w) w)
      end
  | DAttach target asset_type ext =>
      let '(c', e) :=
        _attach_asset_to_page (c_page cl) (c_asset_url cl) target asset_type
          (Some ext) false (clock E (time w)) c in
      (match e with
       | Some e => DExcept target (exn_message e)
       | None => DDrain target asset_type ext
       end,
       with_time (S (time w)) (with_crawler c' w))
  | DDrain target asset_type ext =>
      (DWaiters target asset_type ext
         (default [] (asset_waiters c !! c_asset_url cl)),
       with_crawler
         (with_asset_waiters (delete (c_asset_url cl) (asset_waiters c)) c) w)
  | DWaiters target asset_type ext [] => (DReturned, w)
  | DWaiters target asset_type ext (waiter :: rest) =>
      let '(c', e) :=
        _attach_asset_to_page waiter (c_asset_url cl) target asset_type
          (Some ext) true (clock E (time w)) c in
      (match e with
       | Some e => DExcept target (exn_message e)
       | None => DWaiters target asset_type ext rest
       end,
       with_time (S (time w)) (with_crawler c' w))
  | DExcept target msg =>
      (DExceptDrain target msg,
       with_crawler
         (evict_cache (c_asset_url cl)
            (add_page_error (c_page cl) ("download-error: " +:+ msg) c)) w)
  | DExceptDrain target msg =>
      (DExceptWaiters target msg
         (default [] (asset_waiters c !! c_asset_url cl)),
       with_crawler
         (with_asset_waiters (delete (c_asset_url cl) (asset_waiters c)) c) w)
  | DExceptWaiters target msg [] => (DUnlink target, w)
  | DExceptWaiters target msg (waiter :: rest) =>
      (DExceptWaiters target msg rest,
       with_crawler (add_page_error waiter ("download-error: " +:+ msg) c) w)
  | DUnlink target => (DReturned, with_disk (disk w ∖ {[target]}) w)
  | DReturned =>
      if d_callback t then (DCalledBack, _download_done future w)
      else (DReturned, w)
  | DCalledBack => (DCalledBack, w)
  end.

(** What the threads of the engine do, one atomic step at a time. *)
Inductive label : Type :=
| StartPools
| LoopDequeue
| LoopMark
| PageError (url : string) (depth : Z) (msg : string)
| PageFetched (url : string) (depth : Z) (title : option string)
| Consider (base_url : string) (url_value : option string) (lab : string)
           (acc : links)
| EnqueuePage (parent_url url : string) (depth : Z)
| Schedule (cl : call)
| Sched (thread : nat)
| Download (future : nat)
| Persist.

Definition step (l : label) (w : world) : world :=
  let c := crawler w in
  match l with
  | StartPools => with_crawler (with_download_pool true c) w
  | LoopDequeue =>
      match task w with
      | None => let '(tk, c') := loop_dequeue c in with_task tk (with_crawler c' w)
      | Some _ => w
      end
  | LoopMark =>
      match task w with
      | Some tk => with_task None (with_crawler (snd (loop_mark tk c)) w)
      | None => w
      end
  | PageError url depth msg =>
      let '(_, st) := CrawlState.page url depth (state c) in
      with_crawler (add_page_error url ("fetch-error: " +:+ msg) (with_state st c)) w
  | PageFetched url depth title =>
      let '(p, st) := CrawlState.page url depth (state c) in
      let p := PageRecord.mk (PageRecord.url p) (PageRecord.depth p) title
                 (PageRecord.assets p) (PageRecord.errors p)
                 (PageRecord.referrers p) (Some "fetched") in
      with_crawler
        (with_state (CrawlState.with_pages (<[url := p]> (CrawlState.pages st)) st) c) w
  | Consider base_url url_value lab acc =>
      match consider base_url url_value lab c acc with
      | Ok (c', _) => with_crawler c' w
      | Raise _ => w
      end
  | EnqueuePage parent_url url depth =>
      with_crawler (_enqueue_page parent_url url depth c) w
  | Schedule cl => with_scheds (scheds w ++ [mkSched cl SBegin]) w
  | Sched i =>
      match scheds w !! i with
      | Some th =>
          let '(pc, w') := sched_step th w in
          with_scheds (<[i := mkSched (s_call th) pc]> (scheds w')) w'
      | None => w
      end
  | Download future =>
      match tasks w !! future with
      | Some t =>
          let '(pc, w') := download_step future t w in
          with_tasks (<[future := mkTask (d_call t) pc (d_callback t)]> (tasks w')) w'
      | None => w
      end
  | Persist => _persist w
  end.

(** A schedule, run from left to right. *)
Definition exec (ls : list label) (w : world) : world :=
  fold_left (fun w l => step l w) ls w.

(** The world in which a freshly built engine starts. *)
Definition boot (c : t) (dk : gset string) (files : gmap string string) : world :=
  mkWorld c None dk files 0 [] [] [].

End Engine.

Arguments t : clear implicits.
Arguments world : clear implicits.

End FileCrawler.

(** ** app.py: the handler of the Start button *)
Module App.

Inductive outcome (policy : Type) : Type :=
| SidebarError (msg : string)
| Started (crawler : FileCrawler.t policy)
| Uncaught (e : exn).
Arguments SidebarError {policy} msg.
Arguments Started {policy} crawler.
Arguments Uncaught {policy} e.

(** [if start_clicked: ...]: the two checks of the form, then the
    construction of the engine, whose [ValueError] goes to the sidebar. *)
Definition start_clicked {policy : Type} (E : FileCrawler.env policy)
    (start_url : string) (max_depth : Z) (settings : ScraperSettings.t)
    (concurrency : Z) (include_patterns exclude_patterns : list string)
    (respect_robots same_domain resume_existing : bool)
    (download_concurrency : Z) (all_extensions : list string)
    (now : string) (fs : gmap string string) : outcome policy :=
  if Py.is_empty start_url then SidebarError "Start URL is required."
  else
    match all_extensions with
    | [] => SidebarError "Select at least one file extension to download."
    | _ =>
        match FileCrawler.init E start_url max_depth settings concurrency
                (Some include_patterns) (Some exclude_patterns) respect_robots
                same_domain resume_existing (Some download_concurrency)
                (Some all_extensions) now fs with
        | Ok c => Started c
        | Raise (ValueError msg) => SidebarError msg
        | Raise e => Uncaught e
        end
    end.

End App.

(** * Properties *)

(** ** Concrete collaborators, used to run the model *)
Module Demo.
Import Json FileCrawler.

Definition ok_checks : Urllib.netloc_checks :=
  Urllib.mkChecks (fun _ => true) (fun _ => true).

(** An engine in which every pattern, the empty one included, matches. *)
Definition re_always : string -> string -> option bool := fun _ _ => Some true.

(** An engine for patterns without metacharacters: a literal search. *)
Definition re_literal : string -> string -> option bool :=
  fun pattern value => Some (Py.contains pattern value).

(** Every host is its own registrable domain. *)
Definition tld_host : string -> string * string := fun host => (host, EmptyString).

(** A site without robots.txt restrictions, PDF responses, files named
    [sample.pdf]. *)
Definition E : env unit :=
  mkEnv ok_checks re_literal tld_host (fun _ => Some tt) (fun _ _ _ => true)
    JsonText.dumps JsonText.loads pretty
    (fun _ => Some "application/pdf") (fun _ => Some "application/pdf")
    (fun _ _ _ => ("sample.pdf", "sample", ".pdf")) (fun _ => ".pdf").

Definition settings : ScraperSettings.t :=
  ScraperSettings.mk "crawl_state.json" "SimpleFileScraper/1.0" 20 [".pdf"; ".zip"].

End Demo.

(** ** Shared lemmas *)

Lemma in_list_elem (x : string) (l : list string) :
  Urllib.in_list x l = true <-> x ∈ l.
Proof.
  unfold Urllib.in_list. rewrite existsb_exists, list_elem_of_In. split.
  - intros (y & Hy & Heq). apply String.eqb_eq in Heq. by subst.
  - intros H. exists x. split; [done | apply String.eqb_refl].
Qed.

Lemma append_new_cases (ref : string) (refs : list string) :
  ((ref ∈ refs) /\ CrawlState.append_new ref refs = refs)
  \/ ((ref ∉ refs) /\ CrawlState.append_new ref refs = refs ++ [ref]).
Proof.
  unfold CrawlState.append_new.
  destruct (Urllib.in_list ref refs) eqn:Hin.
  - left. by apply in_list_elem in Hin.
  - right. split; [|done]. intros H. apply in_list_elem in H. congruence.
Qed.

Lemma backfill_spec (recorded refs : list string) :
  exists added,
    CrawlState.backfill recorded refs = refs ++ added
    /\ NoDup added
    /\ (forall x, x ∈ added -> (x ∉ refs) /\ (x ∈ recorded))
    /\ (forall x, x ∈ recorded -> x ∈ refs ++ added).
Proof.
  revert refs. induction recorded as [|r rs IH]; intros refs.
  - exists []. rewrite app_nil_r.
    split; [done|]. split; [constructor|]. split; set_solver.
  - change (CrawlState.backfill (r :: rs) refs)
      with (CrawlState.backfill rs (CrawlState.append_new r refs)).
    destruct (append_new_cases r refs) as [[Hin Heq] | [Hnin Heq]]; rewrite Heq.
    + destruct (IH refs) as (added & Hb & Hnd & Hnew & Hall).
      exists added. split; [done|]. split; [done|]. split.
      * intros x Hx. destruct (Hnew x Hx). set_solver.
      * intros x Hx. apply elem_of_cons in Hx as [Hx | Hx].
        -- subst x. set_solver.
        -- by apply Hall.
    + destruct (IH (refs ++ [r])) as (added & Hb & Hnd & Hnew & Hall).
      exists (r :: added). rewrite Hb, <- app_assoc.
      split; [done|]. split; [|split].
      * constructor; [|done]. intros Hr. destruct (Hnew r Hr) as [Hn _].
        apply Hn. set_solver.
      * intros x Hx. apply elem_of_cons in Hx as [Hx | Hx].
        -- subst x. set_solver.
        -- destruct (Hnew x Hx) as [Hn Hrec]. set_solver.
      * intros x Hx. apply elem_of_cons in Hx as [Hx | Hx].
        -- subst x. set_solver.
        -- specialize (Hall x Hx). set_solver.
Qed.

(** ** utils.match_patterns *)

(** C10: [match_patterns] ignores the empty patterns of its list: its
    answer is the one for the list without them, whatever the
    regular-expression engine says of an empty pattern, so a list made
    only of empty strings never matches. *)
Theorem match_patterns_ignores_empty :
  forall (re_search : string -> string -> option bool)
         (value : string) (patterns : list string),
    Utils.match_patterns re_search value patterns
    = Utils.match_patterns re_search value
        (filter (fun p => negb (Py.is_empty p)) patterns)
    /\ (Forall (fun p => p = EmptyString) patterns ->
        Utils.match_patterns re_search value patterns = false).
Proof.
  intros re_search value patterns. split.
  - induction patterns as [|p ps IH]; [done|].
    destruct p as [|c p]; simpl; [exact IH|].
    destruct (re_search (String c p) value) as [[|]|]; [done | exact IH |].
    destruct (Py.contains (String c p) value); [done | exact IH].
  - induction 1 as [|p ps -> _ IH]; [done | exact IH].
Qed.

Lemma match_patterns_ignores_empty_witness :
  Forall (fun p => p = EmptyString) [""; ""]
  /\ Utils.match_patterns Demo.re_always "https://example.com/a" [""; ""] = false.
Proof.
  split; [by repeat constructor|].
  apply (match_patterns_ignores_empty Demo.re_always "https://example.com/a" [""; ""]).
  by repeat constructor.
Defined.

(** ** CrawlState.page *)

(** C9: [page(url, depth)] returns the record stored under [url]; when a
    record existed it is that record with its depth lowered to the minimum
    of the old and the new depth, and its referrers are the old ones
    followed by the referrers recorded for [url] in the referrer graph that
    were missing, each once. *)
Theorem page_min_depth_and_backfill :
  forall (url : string) (depth : Z) (s : CrawlState.t),
    let old := CrawlState.pages s !! url in
    let recorded := default [] (CrawlState.referrers s !! url) in
    let record := fst (CrawlState.page url depth s) in
    let s' := snd (CrawlState.page url depth s) in
    let old_refs := from_option PageRecord.referrers [] old in
    CrawlState.pages s' !! url = Some record
    /\ (forall r, old = Some r ->
          PageRecord.depth record = Z.min (PageRecord.depth r) depth
          /\ PageRecord.url record = PageRecord.url r
          /\ PageRecord.title record = PageRecord.title r
          /\ PageRecord.assets record = PageRecord.assets r
          /\ PageRecord.errors record = PageRecord.errors r
          /\ PageRecord.last_status record = PageRecord.last_status r)
    /\ (old = None ->
          PageRecord.depth record = depth /\ PageRecord.url record = url)
    /\ (forall ref, ref ∈ recorded -> ref ∈ PageRecord.referrers record)
    /\ exists added,
         PageRecord.referrers record = old_refs ++ added
         /\ NoDup added
         /\ (forall x, x ∈ added -> (x ∉ old_refs) /\ (x ∈ recorded)).
Proof.
  intros url depth s. cbv zeta. unfold CrawlState.page. simpl.
  split; [by rewrite lookup_insert_eq|].
  destruct (CrawlState.pages s !! url) as [r|] eqn:Hold; simpl.
  - destruct (backfill_spec (default [] (CrawlState.referrers s !! url))
                (PageRecord.referrers r)) as (added & Heq & Hnd & Hnew & Hall).
    split; [|split; [|split]].
    + intros r' Hr'. injection Hr' as <-. done.
    + done.
    + intros ref Href. rewrite Heq. by apply Hall.
    + exists added. done.
  - destruct (backfill_spec (default [] (CrawlState.referrers s !! url)) [])
      as (added & Heq & Hnd & Hnew & Hall).
    split; [|split; [|split]].
    + done.
    + done.
    + intros ref Href. rewrite Heq. by apply Hall.
    + exists added. done.
Qed.

(** ** Configuration of the engine *)

Lemma insert_sorted_nonempty (x : string) (l : list string) :
  FileCrawler.insert_sorted x l <> [].
Proof.
  destruct l as [|y r]; simpl; [done|].
  destruct (String.compare x y); done.
Qed.

Lemma prepare_extensions_nonempty (raw : list string) :
  FileCrawler._prepare_extensions raw <> [].
Proof.
  unfold FileCrawler._prepare_extensions.
  destruct (omap FileCrawler.clean_extension raw) as [|x l]; simpl.
  - done.
  - apply insert_sorted_nonempty.
Qed.

Lemma init_without_snapshot {policy : Type} (E : FileCrawler.env policy)
    (start_url : string) (max_depth : Z) (settings : ScraperSettings.t)
    (concurrency : Z) (include_patterns exclude_patterns : option (list string))
    (respect_robots same_domain_only resume : bool)
    (download_concurrency : option Z) (target_extensions : option (list string))
    (now : string) (fs : gmap string string) :
  fs !! ScraperSettings.state_path settings = None ->
  exists c,
    FileCrawler.init E start_url max_depth settings concurrency include_patterns
      exclude_patterns respect_robots same_domain_only resume
      download_concurrency target_extensions now fs = Ok c
    /\ FileCrawler.target_extensions c <> []
    /\ CrawlState.frontier (FileCrawler.state c) = [(start_url, 0%Z)]
    /\ CrawlState.start_url (FileCrawler.state c) = start_url
    /\ CrawlState.visited (FileCrawler.state c) = ∅.
Proof.
  intros Hfs. unfold FileCrawler.init.
  rewrite Hfs. rewrite andb_false_r. simpl.
  unfold FileCrawler._hydrate_cache_from_previous_run. rewrite Hfs. simpl.
  set (exts := FileCrawler._prepare_extensions _).
  destruct exts as [|e es] eqn:He.
  { exfalso. exact (prepare_extensions_nonempty _ He). }
  simpl. eexists. split; [reflexivity|]. simpl.
  split; [apply prepare_extensions_nonempty|]. done.
Qed.

(** C6, at a concrete input: the engine is built, without an error, from
    an empty start URL and an empty extension set, even when the settings
    list no extension either; the extension set becomes [.pdf]. *)
Lemma engine_accepts_empty_configuration :
  FileCrawler._prepare_extensions [] = [".pdf"]
  /\ exists c,
       FileCrawler.init Demo.E "" 0 (ScraperSettings.mk "crawl_state.json" "ua" 20 [])
         1 None None true true false None (Some []) "2024-01-01T00:00:00.000000Z" ∅
       = Ok c
       /\ FileCrawler.target_extensions c = [".pdf"]
       /\ CrawlState.frontier (FileCrawler.state c) = [("", 0%Z)].
Proof.
  split; [reflexivity|].
  eexists. split; [vm_compute; reflexivity|]. split; reflexivity.
Qed.

(** Whether the hydration returns or raises does not depend on the state
    it is given. *)
Lemma hydrate_outcome {policy : Type} (E : FileCrawler.env policy)
    (path : string) (fs : gmap string string) (st st' : CrawlState.t) :
  match FileCrawler._hydrate_cache_from_previous_run E path fs st,
        FileCrawler._hydrate_cache_from_previous_run E path fs st' with
  | Ok s, Ok s' =>
      CrawlState.frontier s = CrawlState.frontier st
      /\ CrawlState.frontier s' = CrawlState.frontier st'
      /\ CrawlState.target_extensions s = CrawlState.target_extensions st
      /\ CrawlState.target_extensions s' = CrawlState.target_extensions st'
      /\ CrawlState.started_at s = CrawlState.started_at st
      /\ CrawlState.started_at s' = CrawlState.started_at st'
  | Raise e, Raise e' => e = e'
  | _, _ => False
  end.
Proof.
  unfold FileCrawler._hydrate_cache_from_previous_run.
  destruct (fs !! path) as [raw|]; [|done].
  destruct (FileCrawler.json_loads E raw) as [data|]; [|done].
  destruct (Json.as_payload data) as [payload|e]; cbn [bind]; [|done].
  destruct (Json.items (Json.py_or (Json.py_or _ _) _)) as [cached|e]; cbn [bind];
    [|done].
  destruct (Json.items (Json.py_or _ _)) as [manifest|e]; cbn [bind]; done.
Qed.

(** The extension set of an engine is never empty. *)
Lemma init_extensions_nonempty {policy : Type} (E : FileCrawler.env policy)
    (start_url : string) (max_depth : Z) (settings : ScraperSettings.t)
    (concurrency : Z) (include_patterns exclude_patterns : option (list string))
    (respect_robots same_domain_only resume : bool)
    (download_concurrency : option Z) (target_extensions : option (list string))
    (now : string) (fs : gmap string string) (c : FileCrawler.t policy) :
  FileCrawler.init E start_url max_depth settings concurrency include_patterns
    exclude_patterns respect_robots same_domain_only resume
    download_concurrency target_extensions now fs = Ok c ->
  FileCrawler.target_extensions c <> [].
Proof.
  unfold FileCrawler.init.
  destruct (if resume && _ then _ else _) as [loaded|e]; cbn [bind]; [|done].
  destruct (match loaded with Some st => _ | None => _ end) as [st|e]; cbn [bind];
    [|done].
  destruct (CrawlState.target_extensions (CrawlState.mark_started now st)) as [|x l];
    intros [= <-]; cbn [FileCrawler.target_extensions];
    apply prepare_extensions_nonempty.
Qed.

(** Whether the constructor returns or raises, and what it raises, does
    not depend on the start URL or on the extensions. *)
Lemma init_outcome {policy : Type} (E : FileCrawler.env policy)
    (start_url start_url' : string) (max_depth : Z) (settings : ScraperSettings.t)
    (concurrency : Z) (include_patterns exclude_patterns : option (list string))
    (respect_robots same_domain_only resume : bool)
    (download_concurrency : option Z)
    (target_extensions target_extensions' : option (list string))
    (now : string) (fs : gmap string string) :
  match FileCrawler.init E start_url max_depth settings concurrency include_patterns
          exclude_patterns respect_robots same_domain_only resume
          download_concurrency target_extensions now fs,
        FileCrawler.init E start_url' max_depth settings concurrency include_patterns
          exclude_patterns respect_robots same_domain_only resume
          download_concurrency target_extensions' now fs with
  | Ok _, Ok _ => True
  | Raise e, Raise e' => e = e'
  | _, _ => False
  end.
Proof.
  unfold FileCrawler.init.
  destruct (if resume && _ then _ else _) as [[st|]|e0]; cbn [bind]; [| |done].
  - by destruct (CrawlState.target_extensions (CrawlState.mark_started now st)).
  - pose proof (hydrate_outcome E (ScraperSettings.state_path settings) fs
                  (CrawlState.enqueue start_url 0
                     (CrawlState.mk start_url max_depth respect_robots same_domain_only
                        (default [] include_patterns) (default [] exclude_patterns)
                        (FileCrawler._prepare_extensions
                           match target_extensions with
                           | Some (x :: r) => x :: r
                           | _ => ScraperSettings.target_extensions settings
                           end)
                        [] ∅ ∅ ∅ [] None None ∅ ∅))
                  (CrawlState.enqueue start_url' 0
                     (CrawlState.mk start_url' max_depth respect_robots same_domain_only
                        (default [] include_patterns) (default [] exclude_patterns)
                        (FileCrawler._prepare_extensions
                           match target_extensions' with
                           | Some (x :: r) => x :: r
                           | _ => ScraperSettings.target_extensions settings
                           end)
                        [] ∅ ∅ ∅ [] None None ∅ ∅))) as Hh.
    destruct (FileCrawler._hydrate_cache_from_previous_run E _ fs
                (CrawlState.enqueue start_url 0 _)) as [s|e1];
      destruct (FileCrawler._hydrate_cache_from_previous_run E _ fs
                  (CrawlState.enqueue start_url' 0 _)) as [s'|e2];
      cbn [bind]; try done.
    by destruct (CrawlState.target_extensions (CrawlState.mark_started now s)),
         (CrawlState.target_extensions (CrawlState.mark_started now s')).
Qed.

(** C6, as the code has it: the engine rejects no configuration.
    [FileCrawler.__init__] never looks at the start URL or at the
    extension set: whether it returns or raises, and what it raises, is the
    same for every start URL and every extension set, the empty ones
    included; it can raise only on the state file. Where there is no
    state file it returns an engine for every start URL and every
    extension set, with the start URL enqueued at depth 0. Whenever it
    returns, the extension set of the engine is not empty:
    [_prepare_extensions] never returns an empty tuple and falls back to
    [.pdf] when no usable extension is left. The empty start URL and the
    empty extension set are refused by the caller, the Start handler of
    the user interface, before the engine is built. *)
Theorem configuration_checked_by_caller_only :
  forall {policy : Type} (E : FileCrawler.env policy)
         (start_url : string) (max_depth : Z) (settings : ScraperSettings.t)
         (concurrency : Z) (include_patterns exclude_patterns : list string)
         (respect_robots same_domain_only resume : bool)
         (download_concurrency : Z) (target_extensions : list string)
         (now : string) (fs : gmap string string),
    (forall (start_url' : string) (target_extensions' : list string),
       match FileCrawler.init E start_url max_depth settings concurrency
               (Some include_patterns) (Some exclude_patterns) respect_robots
               same_domain_only resume (Some download_concurrency)
               (Some target_extensions) now fs,
             FileCrawler.init E start_url' max_depth settings concurrency
               (Some include_patterns) (Some exclude_patterns) respect_robots
               same_domain_only resume (Some download_concurrency)
               (Some target_extensions') now fs with
       | Ok c, Ok c' =>
           FileCrawler.target_extensions c <> []
           /\ FileCrawler.target_extensions c' <> []
       | Raise e, Raise e' => e = e'
       | _, _ => False
       end)
    /\ (fs !! ScraperSettings.state_path settings = None ->
        exists c,
          FileCrawler.init E start_url max_depth settings concurrency
            (Some include_patterns) (Some exclude_patterns) respect_robots
            same_domain_only resume (Some download_concurrency)
            (Some target_extensions) now fs = Ok c
          /\ FileCrawler.target_extensions c <> []
          /\ CrawlState.frontier (FileCrawler.state c) = [(start_url, 0%Z)])
    /\ (forall raw,
          FileCrawler._prepare_extensions raw <> []
          /\ (omap FileCrawler.clean_extension raw = [] ->
              FileCrawler._prepare_extensions raw = [".pdf"]))
    /\ (start_url = EmptyString ->
        App.start_clicked E start_url max_depth settings concurrency
          include_patterns exclude_patterns respect_robots same_domain_only
          resume download_concurrency target_extensions now fs
        = App.SidebarError "Start URL is required.")
    /\ (start_url <> EmptyString -> target_extensions = [] ->
        App.start_clicked E start_url max_depth settings concurrency
          include_patterns exclude_patterns respect_robots same_domain_only
          resume download_concurrency target_extensions now fs
        = App.SidebarError "Select at least one file extension to download.").
Proof.
  intros policy E start_url max_depth settings concurrency incl excl rr sd
    resume dc exts now fs.
  split; [|split; [|split; [|split]]].
  - intros start_url' exts'.
    pose proof (init_outcome E start_url start_url' max_depth settings concurrency
                  (Some incl) (Some excl) rr sd resume (Some dc) (Some exts)
                  (Some exts') now fs) as Hout.
    destruct (FileCrawler.init E start_url max_depth settings concurrency (Some incl)
                (Some excl) rr sd resume (Some dc) (Some exts) now fs)
      as [c|e] eqn:Hc;
      destruct (FileCrawler.init E start_url' max_depth settings concurrency
                  (Some incl) (Some excl) rr sd resume (Some dc) (Some exts') now fs)
        as [c'|e'] eqn:Hc'; try done.
    split; by eapply init_extensions_nonempty.
  - intros Hfs.
    destruct (init_without_snapshot E start_url max_depth settings concurrency
                (Some incl) (Some excl) rr sd resume (Some dc) (Some exts)
                now fs Hfs) as (c & Hc & Hne & Hfr & _).
    exists c. done.
  - intros raw. split; [apply prepare_extensions_nonempty|].
    intros Hraw. unfold FileCrawler._prepare_extensions. by rewrite Hraw.
  - intros ->. reflexivity.
  - intros Hne ->. unfold App.start_clicked.
    destruct start_url; [done | reflexivity].
Qed.

Lemma configuration_checked_by_caller_only_witness :
  match FileCrawler.init Demo.E "" 2 Demo.settings 4 (Some []) (Some []) true true
          false (Some 2%Z) (Some []) "2024-01-01T00:00:00.000000Z"
          {["crawl_state.json" := "{}"]},
        FileCrawler.init Demo.E "http://a.com/" 2 Demo.settings 4 (Some []) (Some [])
          true true false (Some 2%Z) (Some [".zip"]) "2024-01-01T00:00:00.000000Z"
          {["crawl_state.json" := "{}"]} with
  | Ok c, Ok c' =>
      FileCrawler.target_extensions c <> [] /\ FileCrawler.target_extensions c' <> []
  | Raise e, Raise e' => e = e'
  | _, _ => False
  end
  /\ (∅ : gmap string string) !! ScraperSettings.state_path Demo.settings = None
  /\ exists c,
       FileCrawler.init Demo.E "" 2 Demo.settings 4 (Some []) (Some []) true true
         false (Some 2%Z) (Some []) "2024-01-01T00:00:00.000000Z" ∅ = Ok c
       /\ FileCrawler.target_extensions c <> []
       /\ CrawlState.frontier (FileCrawler.state c) = [("", 0%Z)].
Proof.
  split; [|split; [reflexivity|]].
  - exact (proj1 (configuration_checked_by_caller_only Demo.E "" 2 Demo.settings 4
                    [] [] true true false 2 [] "2024-01-01T00:00:00.000000Z"
                    {["crawl_state.json" := "{}"]}) "http://a.com/" [".zip"]).
  - apply (proj1 (proj2 (configuration_checked_by_caller_only Demo.E "" 2
                           Demo.settings 4 [] [] true true false 2 []
                           "2024-01-01T00:00:00.000000Z" ∅))).
    reflexivity.
Defined.

(** ** Link classification *)

(** The reasons logged by a call, last first. *)
Definition skip_reasons {policy : Type} (c : FileCrawler.t policy) : list Json.json :=
  map (Json.get "reason") (CrawlState.skipped (FileCrawler.state c)).

Lemma record_skip_appends {policy : Type} (c : FileCrawler.t policy)
    (url reason : string) :
  CrawlState.skipped (FileCrawler.state (FileCrawler._record_skip url reason c))
  = CrawlState.skipped (FileCrawler.state c)
      ++ [[("url", Json.JStr url); ("reason", Json.JStr reason)]].
Proof. reflexivity. Qed.

(** An engine that crawls a.com, same domain only, and excludes [ads]. *)
Definition ads_crawler : result (FileCrawler.t unit) :=
  FileCrawler.init Demo.E "http://a.com/" 2 Demo.settings 4 (Some ["b.org"])
    (Some ["ads"]) false true false None None "2024-01-01T00:00:00.000000Z" ∅.

Definition no_links : FileCrawler.links := FileCrawler.mkLinks [] [] ∅ ∅.

(** C8, at a concrete input: with same-domain-only enabled, a link to
    another registrable domain that matches an exclude pattern is logged
    once, with reason [exclude-pattern], not [off-domain]. *)
Lemma off_domain_link_logged_as_excluded :
  Utils.same_registrable_domain Demo.ok_checks Demo.tld_host
    "http://b.org/ads/x" "http://a.com/" = Ok false
  /\ (let* c := ads_crawler in
      let* (c', _) := FileCrawler.consider Demo.E "http://a.com/"
                        (Some "http://b.org/ads/x") "" c no_links in
      Ok (CrawlState.same_domain_only (FileCrawler.state c), skip_reasons c'))
     = Ok (true, [Json.JStr "exclude-pattern"]).
Proof. split; vm_compute; reflexivity. Qed.

(** C8, as the code has it: a link is checked against the exclude
    patterns, then the include patterns, then the domain. A link that
    matches an exclude pattern is logged with reason [exclude-pattern],
    also when it matches an include pattern; a link on another registrable
    domain is logged with reason [off-domain] when same-domain-only is
    enabled and neither pattern check has already skipped it. *)
Theorem consider_checks_in_order :
  forall {policy : Type} (E : FileCrawler.env policy)
         (base_url url_value label : string) (c : FileCrawler.t policy)
         (acc : FileCrawler.links) (h : ascii) (t : string),
    let norm := String h t in
    let st := FileCrawler.state c in
    let excluded :=
      Utils.match_patterns (FileCrawler.re_search E) norm
        (CrawlState.exclude_patterns st) in
    let included :=
      match CrawlState.include_patterns st with
      | [] => true
      | l => Utils.match_patterns (FileCrawler.re_search E) norm l
      end in
    url_value <> EmptyString ->
    Utils.normalize_url (FileCrawler.chk E) base_url url_value = Ok (Some norm) ->
    (excluded = true ->
       FileCrawler.consider E base_url (Some url_value) label c acc
       = Ok (FileCrawler._record_skip norm "exclude-pattern" c, acc))
    /\ (excluded = false -> included = false ->
          FileCrawler.consider E base_url (Some url_value) label c acc
          = Ok (FileCrawler._record_skip norm "include-miss" c, acc))
    /\ (excluded = false -> included = true ->
          CrawlState.same_domain_only st = true ->
          Utils.same_registrable_domain (FileCrawler.chk E)
            (FileCrawler.tld_extract E) norm (CrawlState.start_url st) = Ok false ->
          FileCrawler.consider E base_url (Some url_value) label c acc
          = Ok (FileCrawler._record_skip norm "off-domain" c, acc)).
Proof.
  intros policy E base_url url_value label c acc h t norm st excluded included
    Hne Hnorm.
  unfold FileCrawler.consider.
  destruct url_value as [|u0 u]; [done|].
  rewrite Hnorm. cbn [bind]. fold norm. fold st. fold excluded.
  split; [|split].
  - intros ->. reflexivity.
  - intros -> Hinc. subst included.
    destruct (CrawlState.include_patterns st) as [|i l]; [done|].
    rewrite Hinc. reflexivity.
  - intros -> Hinc Hsame Hdom. subst included.
    rewrite Hsame, Hdom. cbn [bind negb].
    destruct (CrawlState.include_patterns st) as [|i l]; [reflexivity|].
    rewrite Hinc. reflexivity.
Qed.

Lemma consider_checks_in_order_witness :
  exists c,
    ads_crawler = Ok c
    /\ FileCrawler.consider Demo.E "http://a.com/" (Some "http://b.org/x") "" c no_links
       = Ok (FileCrawler._record_skip "http://b.org/x" "off-domain" c, no_links).
Proof.
  eexists. split; [vm_compute; reflexivity|].
  refine (proj2 (proj2 (consider_checks_in_order Demo.E "http://a.com/"
            "http://b.org/x" "" _ no_links "h" "ttp://b.org/x" _ _)) _ _ _ _).
  - discriminate.
  - vm_compute. reflexivity.
  - vm_compute. reflexivity.
  - vm_compute. reflexivity.
  - vm_compute. reflexivity.
  - vm_compute. reflexivity.
Defined.

(** ** The robots handler *)

Section RobotsFacts.
Variable chk : Urllib.netloc_checks.
Variable policy : Type.
Variable robots_read : string -> option policy.
Variable can_fetch : policy -> string -> string -> bool.

#[local] Abbreviation is_allowed :=
  (RobotsHandler.is_allowed chk policy robots_read can_fetch).
#[local] Abbreviation parser_for :=
  (RobotsHandler._parser_for chk policy robots_read).
#[local] Abbreviation read_parser :=
  (RobotsHandler.read_parser chk policy robots_read).
#[local] Abbreviation cache_lookup := (RobotsHandler.cache_lookup policy).




End RobotsFacts.







(** ** Snapshots *)

Section Roundtrip.
Import Json.

Lemma mapM_map {A B C : Type} (f : B -> result C) (g : A -> B) (h : A -> C)
    (l : list A) :
  (forall a, f (g a) = Ok (h a)) -> mapM f (map g l) = Ok (map h l).
Proof.
  intros Hfg. induction l as [|a l IH]; [done|].
  simpl. by rewrite Hfg, IH.
Qed.

Lemma mapM_map_id {A B : Type} (f : B -> result A) (g : A -> B) (l : list A) :
  (forall a, f (g a) = Ok a) -> mapM f (map g l) = Ok l.
Proof.
  intros Hfg. rewrite (mapM_map f g id); [by rewrite map_id | done].
Qed.

Lemma str_list_strings (field : string) (l : list string) :
  str_list field (JArr (map JStr l)) = Ok l.
Proof. unfold str_list. simpl. by apply mapM_map_id. Qed.

Lemma dict_list_dicts (field : string) (l : list pydict) :
  dict_list field (JArr (map JObj l)) = Ok l.
Proof. unfold dict_list. simpl. by apply mapM_map_id. Qed.

Lemma as_opt_str_of_option (field : string) (o : option string) :
  as_opt_str field (of_option_str o) = Ok o.
Proof. by destruct o. Qed.

(** Reading back the object written for a dict of the state. *)
Lemma decode_obj_of_map {V : Type} (enc : V -> json) (dec : json -> result V)
    (m : gmap string V) :
  (forall v, dec (enc v) = Ok v) ->
  forall fields, CrawlState.obj_of_map enc m = JObj fields ->
    CrawlState.decode_values dec fields = Ok (map_to_list m).
Proof.
  intros Hdec fields [= <-]. unfold CrawlState.decode_values.
  apply mapM_map_id. intros [k v]. simpl. by rewrite Hdec.
Qed.

Lemma obj_of_map_truthy {V : Type} (enc : V -> json) (m : gmap string V) :
  truthy (CrawlState.obj_of_map enc m) = false -> m = ∅.
Proof.
  unfold CrawlState.obj_of_map. simpl.
  destruct (map_to_list m) as [|kv l] eqn:Hl; [|done].
  intros _. by apply map_to_list_empty_iff.
Qed.

(** A dict of the state, written, then read through [d or {}]. *)
Lemma decode_or_empty {V : Type} (enc : V -> json) (dec : json -> result V)
    (m : gmap string V) :
  (forall v, dec (enc v) = Ok v) ->
  exists fields,
    py_or (CrawlState.obj_of_map enc m) (JObj []) = JObj fields
    /\ (let* l := CrawlState.decode_values dec fields in Ok (list_to_map l))
       = Ok m.
Proof.
  intros Hdec. unfold py_or.
  destruct (truthy (CrawlState.obj_of_map enc m)) eqn:Ht.
  - eexists. split; [reflexivity|].
    rewrite (decode_obj_of_map enc dec m Hdec _ eq_refl). simpl.
    by rewrite list_to_map_to_list.
  - apply obj_of_map_truthy in Ht. subst m. exists []. split; [done|]. done.
Qed.

Lemma page_record_roundtrip (r : PageRecord.t) :
  PageRecord.from_dict (PageRecord.to_dict r) = Ok r.
Proof.
  destruct r as [u d ti a e rf ls].
  unfold PageRecord.from_dict, PageRecord.to_dict.
  cbn [as_payload bind PageRecord.url PageRecord.depth PageRecord.title
       PageRecord.assets PageRecord.errors PageRecord.referrers
       PageRecord.last_status].
  cbv [get_default get getitem dict_get dict_has String.eqb Ascii.eqb Bool.eqb
       default from_option id].
  cbn [bind as_str py_int].
  rewrite !as_opt_str_of_option. cbn [bind].
  assert (Ha : dict_list "assets" (py_or (JArr (map JObj a)) (JArr [])) = Ok a).
  { destruct a as [|x a]; [done|]. apply (dict_list_dicts "assets" (x :: a)). }
  assert (Hr : str_list "referrers"
                 (py_or (py_or (py_or (JArr (map JStr rf)) JNull) (JArr []))
                    (JArr [])) = Ok rf).
  { destruct rf as [|x rf]; [done|]. apply (str_list_strings "referrers" (x :: rf)). }
  destruct (map JObj a) as [|j js] eqn:Hja.
  - rewrite Ha. cbn [bind]. rewrite str_list_strings. cbn [bind].
    rewrite Hr. done.
  - rewrite Ha. cbn [bind]. rewrite str_list_strings. cbn [bind].
    rewrite Hr. done.
Qed.

Lemma frontier_roundtrip (l : list (string * Z)) :
  mapM CrawlState.frontier_item
    (map (fun ud => JArr [JStr (fst ud); JInt (snd ud)]) l) = Ok l.
Proof. apply mapM_map_id. by intros [u d]. Qed.

Lemma visited_roundtrip (l : list string) :
  mapM CrawlState.visited_item (map JStr l) = Ok l.
Proof. by apply mapM_map_id. Qed.

(** Decoding the payload of a state gives the state back. *)
Lemma of_payload_to_dict (st : CrawlState.t) :
  CrawlState.of_payload (CrawlState.to_dict st) = Ok st.
Proof.
  destruct st as [su md rr sd ip ep te fr vi ac pg sk sa fa rf am].
  unfold CrawlState.of_payload, CrawlState.to_dict.
  cbn [as_payload bind CrawlState.start_url CrawlState.max_depth
       CrawlState.respect_robots CrawlState.same_domain_only
       CrawlState.include_patterns CrawlState.exclude_patterns
       CrawlState.target_extensions CrawlState.frontier CrawlState.visited
       CrawlState.asset_cache CrawlState.pages CrawlState.skipped
       CrawlState.started_at CrawlState.finished_at CrawlState.referrers
       CrawlState.asset_manifest].
  cbv [get_default get getitem dict_get String.eqb Ascii.eqb Bool.eqb default
       from_option id].
  cbn [items CrawlState.obj_of_map bind].
  rewrite (decode_obj_of_map PageRecord.to_dict PageRecord.from_dict pg
             page_record_roundtrip _ eq_refl).
  cbn [bind as_str py_int as_bool].
  rewrite !str_list_strings. cbn [bind py_iter].
  rewrite frontier_roundtrip. cbn [bind].
  rewrite visited_roundtrip. cbn [bind].
  rewrite dict_list_dicts, !as_opt_str_of_option. cbn [bind].
  assert (Hac : (let* ac0 := py_dict "asset_cache"
                   (py_or (py_or (CrawlState.obj_of_map JObj ac)
                                 (CrawlState.obj_of_map JObj ac)) (JObj [])) in
                 let* l := CrawlState.decode_values (as_dict "asset_cache") ac0 in
                 Ok (list_to_map l)) = Ok ac).
  { destruct (decode_or_empty JObj (as_dict "asset_cache") ac ltac:(done))
      as (fields & Hor & Hdec).
    assert (Hor2 : py_or (py_or (CrawlState.obj_of_map JObj ac)
                            (CrawlState.obj_of_map JObj ac)) (JObj [])
                   = JObj fields).
    { rewrite <- Hor. unfold py_or.
      by destruct (truthy (CrawlState.obj_of_map JObj ac)) eqn:Ht; rewrite ?Ht. }
    rewrite Hor2. exact Hdec. }
  destruct (decode_or_empty (fun refs => JArr (map JStr refs))
              (str_list "referrers") rf (str_list_strings "referrers"))
    as (rfields & Hrf & Hrfdec).
  unfold CrawlState.obj_of_map in *.
  destruct (py_dict "asset_cache" _) as [ac0|e] eqn:Hpd; [|done].
  cbn [bind] in *.
  destruct (CrawlState.decode_values (as_dict "asset_cache") ac0) as [acl|e] eqn:Hacl;
    [|done].
  cbn [bind] in *. injection Hac as Hac.
  rewrite Hrf. cbn [items bind].
  destruct (CrawlState.decode_values (str_list "referrers") rfields) as [rfl|e] eqn:Hrfl;
    [|done].
  cbn [bind py_dict] in *. injection Hrfdec as Hrfdec.
  pose proof (decode_obj_of_map JObj (as_dict "asset_manifest") am ltac:(done)
                _ eq_refl) as Ham.
  unfold CrawlState.obj_of_map in Ham. rewrite Ham. cbn [bind].
  rewrite Hac, Hrfdec, !list_to_map_to_list, list_to_set_elements_L.
  reflexivity.
Qed.

End Roundtrip.

(** C2: for every state, and every JSON codec that reads back the
    payload it wrote (to a text that is not blank), saving the state to a
    path and loading that path returns a state with the same visited set,
    the same frontier in the same order and the same asset manifest: the
    state itself. *)
Theorem snapshot_round_trip :
  forall (json_dumps : Json.json -> string)
         (json_loads : string -> option Json.json)
         (st : CrawlState.t) (path : string) (fs : gmap string string),
    json_loads (json_dumps (CrawlState.to_dict st)) = Some (CrawlState.to_dict st) ->
    Py.strip (json_dumps (CrawlState.to_dict st)) <> EmptyString ->
    exists st',
      CrawlState.load json_loads path (CrawlState.save json_dumps st path fs) = Ok st'
      /\ CrawlState.visited st' = CrawlState.visited st
      /\ CrawlState.frontier st' = CrawlState.frontier st
      /\ CrawlState.asset_manifest st' = CrawlState.asset_manifest st
      /\ st' = st.
Proof.
  intros dumps loads st path fs Hcodec Hblank.
  exists st. split; [|done].
  unfold CrawlState.load, CrawlState.save. rewrite lookup_insert_eq.
  destruct (Py.strip (dumps (CrawlState.to_dict st))) eqn:Hs; [done|].
  cbn [Py.is_empty]. rewrite Hcodec. apply of_payload_to_dict.
Qed.

(** A state in the middle of a crawl: one page visited, two queued, one
    asset downloaded and referenced by two pages. *)
Definition midcrawl_state : CrawlState.t :=
  CrawlState.mk "http://a.com/" 2 true true [] ["logout"] [".pdf"]
    [("http://a.com/docs", 1%Z); ("http://a.com/about", 1%Z)]
    {["http://a.com/"]}
    {["http://a.com/f.pdf" := [("path", Json.JStr "out/f.pdf")]]}
    {["http://a.com/" := PageRecord.mk "http://a.com/" 0 (Some "Home")
                           [[("url", Json.JStr "http://a.com/f.pdf");
                             ("path", Json.JStr "out/f.pdf")]] [] [] (Some "fetched")]}
    [] (Some "2024-01-01T00:00:00.000000Z") None
    {["http://a.com/docs" := ["http://a.com/"]]}
    {["http://a.com/f.pdf" :=
        [("path", Json.JStr "out/f.pdf"); ("type", Json.JNull);
         ("pages", Json.JArr [Json.JObj [("page", Json.JStr "http://a.com/");
                                         ("reused", Json.JBool false)]]);
         ("download_count", Json.JInt 1)]]}.

Lemma snapshot_round_trip_witness :
  exists st',
    CrawlState.load JsonText.loads "crawl_state.json"
      (CrawlState.save JsonText.dumps midcrawl_state "crawl_state.json" ∅) = Ok st'
    /\ CrawlState.visited st' = CrawlState.visited midcrawl_state
    /\ CrawlState.frontier st' = CrawlState.frontier midcrawl_state
    /\ CrawlState.asset_manifest st' = CrawlState.asset_manifest midcrawl_state
    /\ st' = midcrawl_state.
Proof.
  apply (snapshot_round_trip JsonText.dumps JsonText.loads midcrawl_state
           "crawl_state.json" ∅).
  - vm_compute. reflexivity.
  - vm_compute. discriminate.
Defined.

(** C4: a snapshot whose text is blank or is not valid JSON (a truncated
    snapshot is not) makes [CrawlState.load] raise [ValueError]; no state
    is returned. The caller decides what follows: [FileCrawler.__init__],
    asked to resume, catches that error and starts a fresh crawl from the
    start URL. *)
Theorem corrupt_snapshot_raises :
  forall {policy : Type} (E : FileCrawler.env policy) (raw : string)
         (fs : gmap string string) (start_url : string) (max_depth : Z)
         (settings : ScraperSettings.t) (concurrency : Z)
         (include_patterns exclude_patterns : option (list string))
         (respect_robots same_domain_only : bool)
         (download_concurrency : option Z)
         (target_extensions : option (list string)) (now : string),
    let path := ScraperSettings.state_path settings in
    fs !! path = Some raw ->
    Py.strip raw = EmptyString \/ FileCrawler.json_loads E raw = None ->
    (exists msg,
       CrawlState.load (FileCrawler.json_loads E) path fs = Raise (ValueError msg))
    /\ (FileCrawler.json_loads E raw = None ->
        exists c,
          FileCrawler.init E start_url max_depth settings concurrency
            include_patterns exclude_patterns respect_robots same_domain_only
            true download_concurrency target_extensions now fs = Ok c
          /\ CrawlState.frontier (FileCrawler.state c) = [(start_url, 0%Z)]
          /\ CrawlState.visited (FileCrawler.state c) = ∅
          /\ CrawlState.pages (FileCrawler.state c) = ∅).
Proof.
  intros policy E raw fs start_url max_depth settings concurrency incl excl rr sd
    dc exts now path Hfs Hbad.
  assert (Hload : exists msg,
             CrawlState.load (FileCrawler.json_loads E) path fs
             = Raise (ValueError msg)).
  { unfold CrawlState.load. rewrite Hfs.
    destruct (Py.is_empty (Py.strip raw)) eqn:Hempty; [by eexists|].
    destruct Hbad as [Hblank | Hjson].
    - by rewrite Hblank in Hempty.
    - rewrite Hjson. by eexists. }
  split; [exact Hload|].
  intros Hjson. destruct Hload as [msg Hload].
  unfold FileCrawler.init. fold path. rewrite Hfs, Hload.
  rewrite bool_decide_eq_true_2 by by eexists.
  cbn [andb bind].
  unfold FileCrawler._hydrate_cache_from_previous_run. rewrite Hfs, Hjson.
  cbn [bind].
  set (prepared := FileCrawler._prepare_extensions _).
  destruct prepared as [|e es] eqn:He.
  { exfalso. exact (prepare_extensions_nonempty _ He). }
  simpl. eexists. split; [reflexivity|]. done.
Qed.

(** The snapshot of [midcrawl_state] cut ten characters before its end. *)
Definition truncated_snapshot : string :=
  let text := JsonText.dumps (CrawlState.to_dict midcrawl_state) in
  Urllib.slice_to (String.length text - 10) text.

Lemma corrupt_snapshot_raises_witness :
  exists msg,
    CrawlState.load JsonText.loads "crawl_state.json"
      {["crawl_state.json" := truncated_snapshot]} = Raise (ValueError msg).
Proof.
  refine (proj1 (corrupt_snapshot_raises Demo.E truncated_snapshot
                   {["crawl_state.json" := truncated_snapshot]}
                   "http://a.com/" 2 Demo.settings 4 None None true true None None
                   "2024-01-01T00:00:00.000000Z" _ _)).
  - reflexivity.
  - right. vm_compute. reflexivity.
Defined.

(** ** The frontier *)

Section Frontier.
Import FileCrawler.
Context {policy : Type}.
Variable E : env policy.

(** What decides an enqueue: the frontier, the visited set and
    [_queued_pages]. *)
Definition enqueue_view (c : t policy)
  : list (string * Z) * gset string * gset string :=
  (CrawlState.frontier (state c), CrawlState.visited (state c), queued_pages c).

(** Every URL of the frontier is in [_queued_pages] or already visited. *)
Definition frontier_tracked (c : t policy) : Prop :=
  forall url, url ∈ map fst (CrawlState.frontier (state c)) ->
              url ∈ queued_pages c \/ url ∈ CrawlState.visited (state c).

Lemma frontier_tracked_view (c c' : t policy) :
  enqueue_view c' = enqueue_view c -> frontier_tracked c -> frontier_tracked c'.
Proof.
  unfold enqueue_view, frontier_tracked. intros [= Hf Hv Hq] H url.
  rewrite Hf, Hv, Hq. apply H.
Qed.

Lemma attach_view (page asset_url path : string)
    (asset_type extension : option string) (reused : bool) (now : string)
    (c : t policy) :
  enqueue_view (fst (_attach_asset_to_page page asset_url path asset_type
                       extension reused now c)) = enqueue_view c.
Proof.
  unfold _attach_asset_to_page.
  destruct (CrawlState.pages (state c) !! page) as [p|]; [|done].
  destruct (mark_existing _ _ _ _); [done|].
  unfold CrawlState.register_asset.
  destruct (CrawlState.register_entry _ _ _ _ _ _ _ _); done.
Qed.

Lemma add_page_error_view (page msg : string) (c : t policy) :
  enqueue_view (add_page_error page msg c) = enqueue_view c.
Proof.
  unfold add_page_error. by destruct (CrawlState.pages (state c) !! page).
Qed.

Lemma download_done_view (future : nat) (w : world policy) :
  enqueue_view (crawler (_download_done E future w)) = enqueue_view (crawler w).
Proof.
  unfold _download_done. simpl.
  by destruct (filter _ (map_to_list (asset_inflight (crawler w)))).
Qed.

Lemma sched_step_view (th : sched_thread) (w : world policy) :
  enqueue_view (crawler (snd (sched_step E th w))) = enqueue_view (crawler w).
Proof.
  unfold sched_step.
  destruct (s_pc th) as [|entry| | |fut|fut| |e]; try done.
  - destruct (CrawlState.pages _ !! _); [|done].
    destruct (has_asset _ _); [done|].
    destruct (CrawlState.asset_cache _ !! _) as [[|f fl]|]; try done.
    destruct (Json.dict_get "path" (f :: fl)) as [[]|]; try done.
    by destruct (bool_decide _).
  - destruct (Json.get_default _ _ _); try done.
    destruct (negb _); [done|].
    destruct (Json.as_opt_str "type" _); [|done].
    destruct (Json.as_opt_str "extension" _); [|done].
    pose proof (attach_view (c_page (s_call th)) (c_asset_url (s_call th)) s a a0
                  true (clock E (time w)) (crawler w)) as Hv.
    destruct (_attach_asset_to_page _ _ _ _ _ _ _ _) as [c' e]. exact Hv.
  - destruct (CrawlState.pages _ !! _); [|done].
    destruct (Urllib.in_list _ _); [done|].
    destruct (bool_decide _); [done|].
    by destruct (has_asset _ _).
  - by destruct (download_pool _).
  - destruct (tasks w !! fut) as [t|]; [|done].
    destruct (d_pc t); try done.
Qed.

Lemma download_step_view (future : nat) (t : dl_task) (w : world policy) :
  enqueue_view (crawler (snd (download_step E future t w))) = enqueue_view (crawler w).
Proof.
  unfold download_step.
  destruct (d_pc t) as [|tg|tg at' ext|tg at' ext|tg at' ext ws|tg msg|tg msg
                        |tg msg ws|tg| |]; try done.
  - destruct (http_get E _); [|done]. by destruct (Py.contains _ _).
  - pose proof (attach_view (c_page (d_call t)) (c_asset_url (d_call t)) tg at'
                  (Some ext) false (clock E (time w)) (crawler w)) as Hv.
    destruct (_attach_asset_to_page _ _ _ _ _ _ _ _) as [c' e]. exact Hv.
  - destruct ws as [|waiter rest]; [done|].
    pose proof (attach_view waiter (c_asset_url (d_call t)) tg at'
                  (Some ext) true (clock E (time w)) (crawler w)) as Hv.
    destruct (_attach_asset_to_page _ _ _ _ _ _ _ _) as [c' e]. exact Hv.
  - simpl. unfold evict_cache. simpl.
    apply (add_page_error_view (c_page (d_call t))).
  - destruct ws as [|waiter rest]; [done|]. simpl. apply add_page_error_view.
  - destruct (d_callback t); [|done]. apply (download_done_view future).
Qed.

Lemma consider_view (base_url : string) (url_value : option string)
    (lab : string) (c c' : t policy) (acc acc' : links) :
  consider E base_url url_value lab c acc = Ok (c', acc') ->
  enqueue_view c' = enqueue_view c.
Proof.
  unfold consider. intros H.
  repeat (simplify_eq; try done;
          match type of H with
          | context [match ?x with _ => _ end] => destruct x eqn:?
          | context [bind ?x _] => destruct x eqn:?; cbn [bind] in H
          end).
Qed.

Lemma enqueue_page_tracked (parent_url url : string) (depth : Z) (c : t policy) :
  frontier_tracked c -> frontier_tracked (_enqueue_page parent_url url depth c).
Proof.
  intros Hc. unfold _enqueue_page.
  assert (Hrec :
            enqueue_view (with_state (CrawlState.record_referrer url parent_url (state c)) c)
            = enqueue_view c).
  { unfold CrawlState.record_referrer.
    destruct (Py.is_empty parent_url); [by destruct c|]. simpl.
    by destruct (_ !! url). }
  set (c1 := with_state _ c) in *.
  assert (Hc1 : frontier_tracked c1) by (apply (frontier_tracked_view c); auto).
  destruct (_ || _) eqn:Hin; [exact Hc1|].
  intros x Hx. simpl in *. rewrite map_app in Hx. simpl in Hx.
  apply elem_of_app in Hx as [Hx | Hx].
  - destruct (Hc1 x Hx) as [Hq | Hv]; [left; set_solver | by right].
  - left. set_solver.
Qed.

(** Every step of the engine keeps the frontier tracked. *)
Lemma step_tracked (l : label) (w : world policy) :
  frontier_tracked (crawler w) -> frontier_tracked (crawler (step E l w)).
Proof.
  intros Hw. destruct l; simpl.
  - exact Hw.
  - destruct (task w); [exact Hw|].
    unfold loop_dequeue, CrawlState.dequeue.
    destruct (CrawlState.frontier (state (crawler w))) as [|tk rest] eqn:Hf;
      [exact Hw|].
    simpl. intros x Hx. simpl in Hx. apply (Hw x). rewrite Hf. simpl. set_solver.
  - destruct (task w) as [tk|]; [|exact Hw]. simpl.
    unfold loop_mark. destruct (bool_decide _) eqn:Hv; [exact Hw|]. simpl.
    intros x Hx. simpl in Hx.
    destruct (decide (x = tk.1)) as [-> | Hne]; [right; set_solver|].
    destruct (Hw x Hx); [left | right]; set_solver.
  - unfold CrawlState.page. simpl.
    apply (frontier_tracked_view (crawler w)); [|exact Hw].
    rewrite add_page_error_view. done.
  - unfold CrawlState.page. simpl. exact Hw.
  - destruct (consider E base_url url_value lab (crawler w) acc) as [[c' acc']|e] eqn:Hc;
      [|exact Hw].
    simpl. apply (frontier_tracked_view (crawler w)); [|exact Hw].
    by apply consider_view in Hc.
  - by apply enqueue_page_tracked.
  - exact Hw.
  - destruct (scheds w !! thread) as [th|] eqn:Hth; [|exact Hw].
    pose proof (sched_step_view th w) as Hv.
    destruct (sched_step E th w) as [pc w']. simpl in *.
    by apply (frontier_tracked_view (crawler w)).
  - destruct (tasks w !! future) as [t|] eqn:Ht; [|exact Hw].
    pose proof (download_step_view future t w) as Hv.
    destruct (download_step E future t w) as [pc w']. simpl in *.
    by apply (frontier_tracked_view (crawler w)).
  - exact Hw.
Qed.

Lemma exec_tracked (ls : list label) (w : world policy) :
  frontier_tracked (crawler w) -> frontier_tracked (crawler (exec E ls w)).
Proof.
  revert w. induction ls as [|l ls IH]; intros w Hw; [exact Hw|].
  simpl. apply IH. by apply step_tracked.
Qed.

End Frontier.

Lemma init_tracked {policy : Type} (E : FileCrawler.env policy)
    (start_url : string) (max_depth : Z) (settings : ScraperSettings.t)
    (concurrency : Z) (include_patterns exclude_patterns : option (list string))
    (respect_robots same_domain_only resume : bool)
    (download_concurrency : option Z) (target_extensions : option (list string))
    (now : string) (fs : gmap string string) (c : FileCrawler.t policy) :
  FileCrawler.init E start_url max_depth settings concurrency include_patterns
    exclude_patterns respect_robots same_domain_only resume download_concurrency
    target_extensions now fs = Ok c ->
  frontier_tracked c.
Proof.
  unfold FileCrawler.init. intros H.
  assert (Hq : FileCrawler.queued_pages c
               = list_to_set (map fst (CrawlState.frontier (FileCrawler.state c)))).
  { repeat (simplify_eq; try done;
            match type of H with
            | context [bind ?x _] => destruct x eqn:?; cbn [bind] in H
            | context [match ?x with _ => _ end] => destruct x eqn:?
            end). }
  intros url Hurl. left. rewrite Hq. by apply elem_of_list_to_set.
Qed.

(** [CrawlState.enqueue] itself appends whatever it is given; the check
    is made by [_enqueue_page], its only caller after construction. *)
Lemma state_enqueue_appends (url : string) (depth : Z) (s : CrawlState.t) :
  CrawlState.frontier (CrawlState.enqueue url depth s)
  = CrawlState.frontier s ++ [(url, depth)].
Proof. reflexivity. Qed.

(** C3: in every state the engine reaches from its construction, through
    any schedule of its threads, [_enqueue_page] for a URL that is in the
    visited set or in the frontier leaves the frontier, the visited set and
    [_queued_pages] as they are: a visited URL is not enqueued again and no
    URL gets a second frontier entry. *)
Theorem enqueue_page_skips_known_url :
  forall {policy : Type} (E : FileCrawler.env policy)
         (start_url : string) (max_depth : Z) (settings : ScraperSettings.t)
         (concurrency : Z) (include_patterns exclude_patterns : option (list string))
         (respect_robots same_domain_only resume : bool)
         (download_concurrency : option Z)
         (target_extensions : option (list string))
         (now : string) (fs : gmap string string) (dk : gset string)
         (c0 : FileCrawler.t policy) (schedule : list FileCrawler.label)
         (parent_url url : string) (depth : Z),
    FileCrawler.init E start_url max_depth settings concurrency include_patterns
      exclude_patterns respect_robots same_domain_only resume
      download_concurrency target_extensions now fs = Ok c0 ->
    let c := FileCrawler.crawler
               (FileCrawler.exec E schedule (FileCrawler.boot c0 dk fs)) in
    let c' := FileCrawler._enqueue_page parent_url url depth c in
    url ∈ CrawlState.visited (FileCrawler.state c)
    \/ url ∈ map fst (CrawlState.frontier (FileCrawler.state c)) ->
    CrawlState.frontier (FileCrawler.state c') = CrawlState.frontier (FileCrawler.state c)
    /\ CrawlState.visited (FileCrawler.state c') = CrawlState.visited (FileCrawler.state c)
    /\ FileCrawler.queued_pages c' = FileCrawler.queued_pages c.
Proof.
  intros policy E start_url max_depth settings concurrency incl excl rr sd resume
    dc exts now fs dk c0 schedule parent_url url depth Hinit c c' Hknown.
  assert (Htr : frontier_tracked c).
  { apply exec_tracked. simpl. by eapply init_tracked. }
  assert (Hin : url ∈ CrawlState.visited (FileCrawler.state c)
                \/ url ∈ FileCrawler.queued_pages c).
  { destruct Hknown as [Hv | Hf]; [by left|].
    destruct (Htr url Hf); [by right | by left]. }
  subst c'. unfold FileCrawler._enqueue_page.
  assert (Hview :
            enqueue_view (FileCrawler.with_state
                            (CrawlState.record_referrer url parent_url
                               (FileCrawler.state c)) c)
            = enqueue_view c).
  { unfold CrawlState.record_referrer.
    destruct (Py.is_empty parent_url); [by destruct c|]. simpl.
    by destruct (_ !! url). }
  set (c1 := FileCrawler.with_state _ c) in *.
  pose proof (f_equal (fun v => v.1.1) Hview) as Hf.
  pose proof (f_equal (fun v => v.1.2) Hview) as Hv.
  pose proof (f_equal snd Hview) as Hq.
  cbn [enqueue_view fst snd] in Hf, Hv, Hq.
  assert (Hb : bool_decide (url ∈ CrawlState.visited (FileCrawler.state c1))
               || bool_decide (url ∈ FileCrawler.queued_pages c1) = true).
  { rewrite Hv, Hq. apply orb_true_iff.
    destruct Hin; [left | right]; by apply bool_decide_eq_true_2. }
  change (CrawlState.record_referrer url parent_url (FileCrawler.state c))
    with (FileCrawler.state c1).
  rewrite Hb. done.
Qed.

Lemma enqueue_page_skips_known_url_witness :
  exists c0,
    FileCrawler.init Demo.E "http://a.com/" 2 Demo.settings 4 None None true true
      false None None "2024-01-01T00:00:00.000000Z" ∅ = Ok c0
    /\ let c := FileCrawler.crawler
                  (FileCrawler.exec Demo.E
                     [FileCrawler.LoopDequeue; FileCrawler.LoopMark;
                      FileCrawler.PageFetched "http://a.com/" 0 (Some "Home");
                      FileCrawler.EnqueuePage "http://a.com/" "http://a.com/docs" 1]
                     (FileCrawler.boot c0 ∅ ∅)) in
       CrawlState.frontier
         (FileCrawler.state
            (FileCrawler._enqueue_page "http://a.com/about" "http://a.com/docs" 2 c))
       = CrawlState.frontier (FileCrawler.state c).
Proof.
  eexists. split; [vm_compute; reflexivity|].
  refine (proj1 (enqueue_page_skips_known_url Demo.E "http://a.com/" 2
                   Demo.settings 4 None None true true false None None
                   "2024-01-01T00:00:00.000000Z" ∅ ∅ _ _ "http://a.com/about"
                   "http://a.com/docs" 2 _ _)).
  - vm_compute. reflexivity.
  - right. vm_compute. apply list_elem_of_here.
Defined.

(** ** URL normalization *)

(** C5, at a concrete input: re-normalizing a canonical URL can change
    it. [rstrip('/')] is applied to the whole URL, so the slash that ends
    a query is removed and leaves an empty query, which the next
    normalization drops together with its question mark. *)
Theorem normalize_url_changes_canonical_url :
  Utils.normalize_url Demo.ok_checks "https://example.com/" "http://a.com/x?/"
  = Ok (Some "http://a.com/x?")
  /\ Utils.normalize_url Demo.ok_checks "https://example.com/" "http://a.com/x?"
     = Ok (Some "http://a.com/x")
  /\ Utils.normalize_url Demo.ok_checks "http://a.com/x?" "http://a.com/x?"
     = Ok (Some "http://a.com/x").
Proof. repeat split; vm_compute; reflexivity. Qed.

(** The part of C5 on pseudo-schemes: a [mailto:] or [javascript:] href
    yields no URL, whatever the base. *)
Lemma normalize_url_pseudo_scheme (chk : Urllib.netloc_checks) (base href : string) :
  Py.startswith "mailto:" (Py.strip href) = true
  \/ Py.startswith "javascript:" (Py.strip href) = true ->
  Utils.normalize_url chk base href = Ok None.
Proof.
  intros H. unfold Utils.normalize_url.
  destruct (Py.is_empty href); [done|].
  destruct H as [-> | ->]; [done|]. by rewrite orb_true_r.
Qed.

(** ** The fragment of a normalized URL *)

Section NoHash.
Import Urllib.

(** [c] does not occur in [s]. *)
Fixpoint lacks (c : ascii) (s : string) : Prop :=
  match s with
  | EmptyString => True
  | String d r => d <> c /\ lacks c r
  end.

Lemma lacks_app (c : ascii) (s1 s2 : string) :
  lacks c (s1 +:+ s2) <-> lacks c s1 /\ lacks c s2.
Proof.
  induction s1 as [|d r IH]; simpl; [tauto|]. rewrite IH. tauto.
Qed.

Lemma lacks_substring (c : ascii) (s : string) (n m : nat) :
  lacks c s -> lacks c (String.substring n m s).
Proof.
  revert n m. induction s as [|d r IH]; intros n m H.
  - by destruct n, m.
  - destruct H as [Hd Hr]. destruct n as [|n]; simpl.
    + destruct m as [|m]; simpl; [done|]. split; [done|]. by apply IH.
    + by apply IH.
Qed.

Lemma lacks_rstrip (c : ascii) (p : ascii -> bool) (s : string) :
  lacks c s -> lacks c (Py.rstrip_by p s).
Proof.
  induction s as [|d r IH]; [done|]. intros [Hd Hr]. simpl.
  specialize (IH Hr). destruct (Py.rstrip_by p r) as [|e r'].
  - by destruct (p d).
  - done.
Qed.

Lemma find_from_none (c : ascii) (s : string) :
  find_from c 0 s = None -> lacks c s.
Proof.
  induction s as [|d r IH]; [done|]. simpl.
  destruct (Ascii.eqb c d) eqn:Hcd; [done|].
  destruct (find_from c 0 r); [done|]. intros _. split; [|by apply IH].
  intros ->. by rewrite Ascii.eqb_refl in Hcd.
Qed.

(** The characters of [s] from [k] up to an occurrence of [c] found by
    [find_from c k], or up to the end when there is none, lack [c]. *)
Lemma lacks_before_find (c : ascii) (s : string) (k n : nat) :
  match find_from c k s with
  | Some w => k + n <= w
  | None => True
  end ->
  lacks c (String.substring k n s).
Proof.
  revert k n. induction s as [|d r IH]; intros k n H.
  - by destruct k, n.
  - destruct k as [|k]; simpl in *.
    + destruct n as [|n]; [done|]. simpl.
      destruct (Ascii.eqb c d) eqn:Hcd; [lia|].
      split.
      * intros ->. by rewrite Ascii.eqb_refl in Hcd.
      * apply (IH 0 n). destruct (find_from c 0 r); simpl in *; [lia | done].
    + apply (IH k n). destruct (find_from c k r); simpl in *; [lia | done].
Qed.

Lemma lacks_split_first (c : ascii) (url : string) :
  match split_first c url with
  | Some (u, _) => lacks c u
  | None => lacks c url
  end.
Proof.
  unfold split_first, find. destruct (find_from c 0 url) as [i|] eqn:Hf.
  - unfold slice_to. apply lacks_before_find. rewrite Hf. lia.
  - by apply find_from_none.
Qed.

Lemma lacks_lower_scheme (s : string) :
  all_chars is_scheme_char s = true -> lacks "#" (Py.lower s).
Proof.
  induction s as [|d r IH]; [done|]. simpl. intros H.
  apply andb_true_iff in H as [Hd Hr]. split; [|by apply IH].
  clear -Hd. destruct d as [[] [] [] [] [] [] [] []]; by vm_compute in Hd |- *.
Qed.

Lemma all_chars_substring (p : ascii -> bool) (s : string) (n m : nat) :
  all_chars p s = true -> all_chars p (String.substring n m s) = true.
Proof.
  revert n m. induction s as [|d r IH]; intros n m H.
  - by destruct n, m.
  - simpl in H. apply andb_true_iff in H as [Hd Hr]. destruct n as [|n]; simpl.
    + destruct m as [|m]; simpl; [done|]. rewrite Hd. by apply IH.
    + by apply IH.
Qed.

Lemma find_from_ge (c : ascii) (s : string) (k w : nat) :
  find_from c k s = Some w -> k <= w.
Proof.
  revert k w. induction s as [|d r IH]; intros k w; [done|].
  destruct k as [|k]; simpl; [lia|].
  destruct (find_from c k r) as [w'|] eqn:Hf; [|done].
  intros [= <-]. specialize (IH k w' Hf). lia.
Qed.

Variable chk : netloc_checks.

Lemma lacks_splitnetloc (url : string) :
  lacks "#" (fst (splitnetloc url)).
Proof.
  unfold splitnetloc. simpl. apply lacks_before_find.
  destruct (find_from "#" 2 url) as [w|] eqn:Hw; [|done].
  apply find_from_ge in Hw.
  destruct (find_from "?" 2 url), (find_from "/" 2 url); lia.
Qed.

(** No component that [urlsplit] returns before the fragment holds [#]. *)
Lemma urlsplit_lacks_hash (url : string) (sp : SplitResult) :
  urlsplit chk url EmptyString = Ok sp ->
  lacks "#" (s_scheme sp) /\ lacks "#" (s_netloc sp)
  /\ lacks "#" (s_path sp) /\ lacks "#" (s_query sp).
Proof.
  unfold urlsplit.
  set (url1 := remove_char is_unsafe (Py.lstrip_by is_c0_or_space url)).
  change (remove_char is_unsafe
            (Py.rstrip_by is_c0_or_space (Py.lstrip_by is_c0_or_space EmptyString)))
    with EmptyString.
  set (su := match find ":" url1 with
             | Some (S i') =>
                 match url1 with
                 | String c0 _ =>
                     if is_ascii_alpha c0
                        && all_chars is_scheme_char (slice_to (S i') url1)
                     then (Py.lower (slice_to (S i') url1), slice_from (S (S i')) url1)
                     else (EmptyString, url1)
                 | EmptyString => (EmptyString, url1)
                 end
             | _ => (EmptyString, url1)
             end).
  assert (Hscheme : lacks "#" (fst su)).
  { subst su. destruct (find ":" url1) as [[|i']|]; try done.
    destruct url1 as [|c0 r]; [done|].
    destruct (is_ascii_alpha c0 && all_chars is_scheme_char (slice_to (S i') (String c0 r)))
      eqn:Hs; [|done].
    apply andb_true_iff in Hs as [_ Hs]. by apply lacks_lower_scheme. }
  destruct su as [scheme url2]. simpl in Hscheme.
  set (nl := if String.eqb (slice_to 2 url2) "//" then _ else _).
  assert (Hnl : forall netloc url3, nl = Ok (netloc, url3) -> lacks "#" netloc).
  { subst nl. intros netloc url3.
    destruct (String.eqb (slice_to 2 url2) "//"); [|by intros [= <- <-]].
    pose proof (lacks_splitnetloc url2) as Hn.
    destruct (splitnetloc url2) as [n0 rest]. simpl in Hn.
    destruct (_ || _); [done|]. destruct (_ && _); [done|].
    by intros [= <- <-]. }
  destruct nl as [[netloc url3]|e]; [|done]. cbn [bind].
  specialize (Hnl netloc url3 eq_refl).
  pose proof (lacks_split_first "#" url3) as Hfrag.
  destruct (split_first "#" url3) as [[u f]|].
  - pose proof (lacks_split_first "?" u) as Hq.
    destruct (split_first "?" u) as [[u' q]|] eqn:Hsq.
    + destruct (_ && _); [done|]. intros [= <-]. simpl.
      unfold split_first in Hsq. destruct (find "?" u) as [i|]; [|done].
      injection Hsq as <- <-.
      repeat split; try done; by apply lacks_substring.
    + destruct (_ && _); [done|]. intros [= <-]. simpl. done.
  - pose proof (lacks_split_first "?" url3) as Hq.
    destruct (split_first "?" url3) as [[u' q]|] eqn:Hsq.
    + destruct (_ && _); [done|]. intros [= <-]. simpl.
      unfold split_first in Hsq. destruct (find "?" url3) as [i|]; [|done].
      injection Hsq as <- <-.
      repeat split; try done; by apply lacks_substring.
    + destruct (_ && _); [done|]. intros [= <-]. simpl. done.
Qed.

Lemma splitparams_lacks (c : ascii) (url : string) :
  lacks c url ->
  lacks c (fst (splitparams url)) /\ lacks c (snd (splitparams url)).
Proof.
  intros H. unfold splitparams, slice_to, slice_from.
  destruct (rfind "/" url) as [k|].
  - destruct (find_from ";" k url); simpl; [|done].
    split; by apply lacks_substring.
  - destruct (find ";" url); simpl; [|done].
    split; by apply lacks_substring.
Qed.

Lemma urlparse_lacks_hash (url : string) (p : ParseResult) :
  urlparse chk url EmptyString = Ok p ->
  lacks "#" (scheme p) /\ lacks "#" (netloc p) /\ lacks "#" (path p)
  /\ lacks "#" (params p) /\ lacks "#" (query p).
Proof.
  unfold urlparse.
  destruct (urlsplit chk url EmptyString) as [sp|e] eqn:Hsp; [|done]. cbn [bind].
  destruct (urlsplit_lacks_hash url sp Hsp) as (Hs & Hn & Hp & Hq).
  destruct (splitparams_lacks "#" (s_path sp) Hp) as [Hp1 Hp2].
  destruct (_ && _).
  - destruct (splitparams (s_path sp)) as [p1 p2]. intros [= <-]. simpl in *. done.
  - intros [= <-]. simpl. done.
Qed.

Lemma urlunsplit_lacks_hash (scheme netloc url query : string) :
  lacks "#" scheme -> lacks "#" netloc -> lacks "#" url -> lacks "#" query ->
  lacks "#" (urlunsplit scheme netloc url query EmptyString).
Proof.
  intros Hs Hn Hu Hq. unfold urlunsplit. cbn [Py.is_empty].
  set (u1 := if _ || _ then _ else url).
  assert (H1 : lacks "#" u1).
  { subst u1. destruct (_ || _); [|done].
    rewrite !lacks_app. split; [by repeat split|]. split; [done|].
    destruct (_ && _); [|done]. rewrite lacks_app. by repeat split. }
  set (u2 := if Py.is_empty scheme then u1 else _).
  assert (H2 : lacks "#" u2).
  { subst u2. destruct (Py.is_empty scheme); [done|].
    rewrite !lacks_app. by repeat split. }
  destruct (Py.is_empty query); [done|].
  rewrite !lacks_app. by repeat split.
Qed.

(** The part of C5 on fragments: a URL returned by [normalize_url] holds
    no [#], hence no fragment. *)
Lemma normalize_url_strips_fragment (base href u : string) :
  Utils.normalize_url chk base href = Ok (Some u) -> lacks "#" u.
Proof.
  unfold Utils.normalize_url.
  destruct (Py.is_empty href); [done|].
  destruct (_ || _); [done|].
  destruct (urljoin chk base (Py.strip href)) as [joined|e]; [|done]. cbn [bind].
  destruct (urlparse chk joined EmptyString) as [p|e] eqn:Hp; [|done]. cbn [bind].
  destruct (negb _); [done|].
  destruct (urlparse_lacks_hash joined p Hp) as (Hs & Hn & Hpa & Hpr & Hq).
  assert (Hun : lacks "#"
            (urlunparse (mkParse (scheme p) (netloc p) (path p) (params p)
                           (query p) EmptyString))).
  { unfold urlunparse. simpl. apply urlunsplit_lacks_hash; try done.
    destruct (Py.is_empty (params p)); [done|].
    rewrite !lacks_app. by repeat split. }
  intros [= <-]. destruct (negb _); [|done].
  by apply lacks_rstrip.
Qed.

End NoHash.

(** ** The asset coordinator *)

Module Race.
Import Json FileCrawler.

Definition index : string := "http://a.com/index.html".
Definition page1 : string := "http://a.com/docs/a.html".
Definition page2 : string := "http://a.com/docs/b.html".
Definition asset : string := "http://a.com/files/sample.pdf".

(** The two pages reference the same asset. *)
Definition call1 : call := mkCall page1 asset "out/a.com/docs/a.html/a" "Sample" ".pdf".
Definition call2 : call := mkCall page2 asset "out/a.com/docs/b.html/b" "Same" ".pdf".

Definition engine : result (t unit) :=
  init Demo.E index 2 Demo.settings 4 None None false true
    false (Some 2%Z) (Some [".pdf"]) "2024-01-01T00:00:00.000000Z" ∅.

(** The index page links to both pages; both are dispatched and fetched,
    and their workers enter [_schedule_asset_download]. *)
Definition discovered : list label :=
  [StartPools; LoopDequeue; LoopMark; PageFetched index 0 (Some "Index");
   EnqueuePage index page1 1; EnqueuePage index page2 1;
   LoopDequeue; LoopMark; LoopDequeue; LoopMark;
   PageFetched page1 1 (Some "A"); PageFetched page2 1 (Some "B");
   Schedule call1; Schedule call2].

(** Worker 1 passes the in-flight check and is preempted before it has
    stored its future (line 384); worker 2 passes the same check. *)
Definition racing : list label :=
  discovered
    ++ [Sched 0; Sched 0;              (* worker 1: cache miss, in-flight check *)
        Sched 1; Sched 1;              (* worker 2: cache miss, in-flight check *)
        Sched 0; Sched 0; Sched 0;     (* worker 1: submit, store future, callback *)
        Sched 1; Sched 1; Sched 1]     (* worker 2: submit, store future, callback *)
    ++ repeat (Download 0) 6 ++ repeat (Download 1) 6.

(** Worker 1 stores its future before worker 2 looks: worker 2 waits. *)
Definition ordered : list label :=
  discovered
    ++ [Sched 0; Sched 0; Sched 0; Sched 0; Sched 0;
        Sched 1; Sched 1]
    ++ repeat (Download 0) 7.

Definition reused_flag (item : pydict) : bool := truthy (get "reused" item).

(** What is observed of a run: the GET requests made for assets, the
    files on disk, the [download_count] of the manifest entry and the
    number of attachments of the asset marked reused, over all pages. *)
Definition outcome (w : world unit)
  : list string * list string * json * nat :=
  (gets w,
   elements (disk w),
   from_option (get "download_count") JNull
     (CrawlState.asset_manifest (state (crawler w)) !! asset),
   length
     (filter (fun item => eq_str (get "url" item) asset && reused_flag item)
        (concat (map (fun kv => PageRecord.assets (snd kv))
                   (map_to_list (CrawlState.pages (state (crawler w)))))))).

Definition run (schedule : list label) : result (list string * list string * json * nat) :=
  let* c := engine in
  Ok (outcome (exec Demo.E schedule (boot c ∅ ∅))).

End Race.

(** C1, at a concrete schedule: two pages fetched side by side discover
    the same asset URL and the second worker checks [_asset_inflight]
    before the first has stored its future. Two GET requests are made, two files are written, no
    attachment is marked reused; [download_count] is 2. *)
Theorem racing_pages_download_twice :
  Race.run Race.racing
  = Ok ([Race.asset; Race.asset],
        ["out/a.com/docs/a.html/a/sample.pdf";
         "out/a.com/docs/b.html/b/sample.pdf"],
        Json.JInt 2, 0).
Proof. vm_compute. reflexivity. Qed.

(** The same two pages when the first worker stores its future before the
    second one looks: one GET request, one file, [download_count] 2 and one
    attachment marked reused, as the specification asks. *)
Lemma ordered_pages_download_once :
  Race.run Race.ordered
  = Ok ([Race.asset], ["out/a.com/docs/a.html/a/sample.pdf"], Json.JInt 2, 1).
Proof. vm_compute. reflexivity. Qed.


(** * Further properties of the code *)

(** ** Dicts *)

Lemma dict_get_set_eq (k : string) (v : Json.json) (d : list (string * Json.json)) :
  Json.dict_get k (Json.dict_set k v d) = Some v.
Proof.
  induction d as [|[k' v'] r IH]; simpl.
  - by rewrite String.eqb_refl.
  - destruct (String.eqb k k') eqn:Hk; simpl; rewrite ?String.eqb_refl, ?Hk; done.
Qed.

Lemma dict_get_set_ne (k k' : string) (v : Json.json) (d : list (string * Json.json)) :
  k <> k' -> Json.dict_get k (Json.dict_set k' v d) = Json.dict_get k d.
Proof.
  intros Hne. induction d as [|[k0 v0] r IH]; simpl.
  - apply String.eqb_neq in Hne. by rewrite Hne.
  - destruct (String.eqb k' k0) eqn:Hk; simpl.
    + apply String.eqb_eq in Hk. subst k0.
      apply String.eqb_neq in Hne. by rewrite Hne.
    + by rewrite IH.
Qed.

Lemma get_set_eq (k : string) (v : Json.json) (d : list (string * Json.json)) :
  Json.get k (Json.dict_set k v d) = v.
Proof. unfold Json.get. by rewrite dict_get_set_eq. Qed.

Lemma get_set_ne (k k' : string) (v : Json.json) (d : list (string * Json.json)) :
  k <> k' -> Json.get k (Json.dict_set k' v d) = Json.get k d.
Proof. intros H. unfold Json.get. by rewrite dict_get_set_ne. Qed.

(** ** The frontier as a queue *)

(** [dequeue()] called [n] times: the entries it returned, in order. *)
Fixpoint drain (n : nat) (s : CrawlState.t) : list (string * Z) * CrawlState.t :=
  match n with
  | O => ([], s)
  | S k =>
      match CrawlState.dequeue s with
      | (Some task, s') => let '(got, s'') := drain k s' in (task :: got, s'')
      | (None, s') => ([], s')
      end
  end.

Definition enqueue_all (items : list (string * Z)) (s : CrawlState.t) : CrawlState.t :=
  fold_left (fun st ud => CrawlState.enqueue (fst ud) (snd ud) st) items s.

Lemma enqueue_all_frontier (items : list (string * Z)) (s : CrawlState.t) :
  CrawlState.frontier (enqueue_all items s) = CrawlState.frontier s ++ items.
Proof.
  revert s. induction items as [|[u d] l IH]; intros s; simpl;
    [by rewrite app_nil_r|].
  unfold enqueue_all in *. simpl. rewrite IH. simpl. by rewrite <- app_assoc.
Qed.

Lemma drain_frontier (n : nat) (s : CrawlState.t) :
  fst (drain n s) = take n (CrawlState.frontier s)
  /\ CrawlState.frontier (snd (drain n s)) = drop n (CrawlState.frontier s).
Proof.
  revert s. induction n as [|n IH]; intros s; [done|].
  simpl. unfold CrawlState.dequeue.
  destruct (CrawlState.frontier s) as [|task rest] eqn:Hf; [by rewrite ?Hf|].
  specialize (IH (CrawlState.with_frontier rest s)).
  destruct (drain n (CrawlState.with_frontier rest s)) as [got s''].
  simpl in *. destruct IH as [-> ->]. done.
Qed.

(** X1: the frontier is first in, first out. Whatever the frontier holds,
    entries enqueued after it come back from [dequeue] after it and in the
    order of their enqueue; once everything has been taken, [dequeue]
    returns nothing more and the frontier is empty. *)
Theorem frontier_is_fifo :
  forall (items : list (string * Z)) (s : CrawlState.t) (n : nat),
    length (CrawlState.frontier s) + length items <= n ->
    fst (drain n (enqueue_all items s)) = CrawlState.frontier s ++ items
    /\ CrawlState.frontier (snd (drain n (enqueue_all items s))) = []
    /\ CrawlState.dequeue (snd (drain n (enqueue_all items s)))
       = (None, snd (drain n (enqueue_all items s))).
Proof.
  intros items s n Hn.
  destruct (drain_frontier n (enqueue_all items s)) as [Hgot Hleft].
  rewrite enqueue_all_frontier in Hgot, Hleft.
  assert (Hlen : length (CrawlState.frontier s ++ items) <= n)
    by (rewrite length_app; lia).
  rewrite take_ge in Hgot by done. rewrite drop_ge in Hleft by done.
  split; [done|]. split; [done|].
  unfold CrawlState.dequeue. by rewrite Hleft.
Qed.

Lemma frontier_is_fifo_witness :
  length (CrawlState.frontier midcrawl_state) + length [("http://a.com/x", 2%Z)] <= 3
  /\ fst (drain 3 (enqueue_all [("http://a.com/x", 2%Z)] midcrawl_state))
     = CrawlState.frontier midcrawl_state ++ [("http://a.com/x", 2%Z)].
Proof.
  split; [vm_compute; lia|].
  apply (frontier_is_fifo [("http://a.com/x", 2%Z)] midcrawl_state 3).
  vm_compute. lia.
Defined.

(** ** The referrer graph *)

Lemma append_new_elem (ref : string) (refs : list string) :
  ref ∈ CrawlState.append_new ref refs.
Proof.
  destruct (append_new_cases ref refs) as [[Hin ->] | [_ ->]]; [done|].
  apply elem_of_app. right. apply list_elem_of_here.
Qed.

Lemma append_new_idem (ref : string) (refs : list string) :
  CrawlState.append_new ref (CrawlState.append_new ref refs)
  = CrawlState.append_new ref refs.
Proof.
  destruct (append_new_cases ref (CrawlState.append_new ref refs))
    as [[_ ->] | [Hnin _]]; [done|].
  exfalso. apply Hnin, append_new_elem.
Qed.

Lemma append_new_nodup (ref : string) (refs : list string) :
  NoDup refs -> NoDup (CrawlState.append_new ref refs).
Proof.
  intros Hnd. destruct (append_new_cases ref refs) as [[_ ->] | [Hnin ->]]; [done|].
  apply NoDup_app. split; [done|]. split; [|apply NoDup_singleton].
  intros x Hx Hx'. apply list_elem_of_singleton in Hx'. by subst.
Qed.

Lemma page_record_eta (r : PageRecord.t) :
  PageRecord.with_referrers (PageRecord.referrers r) r = r.
Proof. by destruct r. Qed.

Lemma record_referrer_refs (url referrer : string) (s : CrawlState.t) :
  referrer <> EmptyString ->
  CrawlState.referrers (CrawlState.record_referrer url referrer s) !! url
  = Some (CrawlState.append_new referrer (default [] (CrawlState.referrers s !! url))).
Proof.
  intros Hne. unfold CrawlState.record_referrer.
  destruct referrer as [|c r]; [done|]. cbn [Py.is_empty].
  destruct s as [su md rr sd ip ep te fr vi ac pg sk sa fa rf am]. simpl.
  destruct (pg !! url); simpl; by rewrite lookup_insert_eq.
Qed.

Lemma page_backfills (url ref : string) (depth : Z) (s : CrawlState.t) :
  ref ∈ default [] (CrawlState.referrers s !! url) ->
  ref ∈ PageRecord.referrers (fst (CrawlState.page url depth s)).
Proof.
  intros Href. unfold CrawlState.page. cbn [fst PageRecord.with_referrers
    PageRecord.referrers].
  match goal with
  | |- _ ∈ CrawlState.backfill ?a ?b =>
      destruct (backfill_spec a b) as (added & -> & _ & _ & Hall)
  end.
  by apply Hall.
Qed.

Arguments CrawlState.append_new : simpl never.

(** X2: [record_referrer] is an idempotent append. Recording the same
    edge twice leaves the state as after the first time; an empty referrer
    records nothing; after a non-empty one the referrer is listed for the
    URL, the list has no duplicate if it had none, and the lists of the
    other URLs are untouched. *)
Theorem record_referrer_idempotent :
  forall (url referrer : string) (s : CrawlState.t),
    let s1 := CrawlState.record_referrer url referrer s in
    CrawlState.record_referrer url referrer s1 = s1
    /\ (referrer = EmptyString -> s1 = s)
    /\ (referrer <> EmptyString ->
        exists refs, CrawlState.referrers s1 !! url = Some refs /\ referrer ∈ refs
                     /\ (NoDup (default [] (CrawlState.referrers s !! url)) -> NoDup refs))
    /\ (forall other, other <> url ->
          CrawlState.referrers s1 !! other = CrawlState.referrers s !! other
          /\ CrawlState.pages s1 !! other = CrawlState.pages s !! other).
Proof.
  intros url referrer s s1. subst s1. unfold CrawlState.record_referrer.
  destruct referrer as [|c r]; [by repeat split; destruct s|].
  cbn [Py.is_empty].
  assert (Hne : String c r <> EmptyString) by done.
  revert Hne. generalize (String c r). intros ref Hne.
  destruct s as [su md rr sd ip ep te fr vi ac pg sk sa fa rf am].
  split; [|split; [done|split]].
  - simpl. destruct (pg !! url) as [p|] eqn:Hp; simpl;
      rewrite ?lookup_insert_eq, ?Hp; simpl;
      rewrite ?append_new_idem, ?insert_insert_eq;
      cbv [CrawlState.with_pages CrawlState.with_referrers
           PageRecord.with_referrers]; simpl;
      rewrite ?insert_insert_eq; done.
  - intros _. exists (CrawlState.append_new ref (default [] (rf !! url))).
    split.
    + simpl. destruct (pg !! url); simpl; by rewrite lookup_insert_eq.
    + split; [apply append_new_elem | apply append_new_nodup].
  - intros other Hother. simpl.
    destruct (pg !! url); simpl; rewrite ?lookup_insert_ne by done; done.
Qed.

(** X3: a referrer reaches the page record whichever comes first. When
    the edge is recorded before the page record exists, [page] copies it
    into the record it creates; when the record exists, [record_referrer]
    adds it to the record. *)
Theorem referrer_reaches_page_in_either_order :
  forall (url referrer : string) (depth : Z) (s : CrawlState.t),
    referrer <> EmptyString ->
    referrer ∈ PageRecord.referrers
                 (fst (CrawlState.page url depth
                         (CrawlState.record_referrer url referrer s)))
    /\ exists p,
         CrawlState.pages
           (CrawlState.record_referrer url referrer
              (snd (CrawlState.page url depth s))) !! url = Some p
         /\ referrer ∈ PageRecord.referrers p.
Proof.
  intros url referrer depth s Hne. split.
  - apply page_backfills. rewrite (record_referrer_refs url referrer s Hne).
    apply append_new_elem.
  - unfold CrawlState.record_referrer.
    destruct referrer as [|c r]; [done|]. cbn [Py.is_empty].
    unfold CrawlState.page. cbn [snd].
    cbv [CrawlState.with_pages CrawlState.with_referrers].
    cbn [CrawlState.pages CrawlState.referrers].
    rewrite lookup_insert_eq. cbn [CrawlState.pages].
    eexists. rewrite lookup_insert_eq. split; [reflexivity|].
    cbn [PageRecord.with_referrers PageRecord.referrers]. apply append_new_elem.
Qed.

Lemma referrer_reaches_page_in_either_order_witness :
  "http://a.com/" ∈ PageRecord.referrers
    (fst (CrawlState.page "http://a.com/new" 1
            (CrawlState.record_referrer "http://a.com/new" "http://a.com/"
               midcrawl_state))).
Proof.
  apply (referrer_reaches_page_in_either_order "http://a.com/new" "http://a.com/" 1
           midcrawl_state).
  discriminate.
Defined.

(** ** The asset manifest *)

Section Manifest.
Import Json.
Variables (path page_url : string) (depth : Z) (reused : bool).

Lemma eq_str_true (j : json) (s : string) : eq_str j s = true -> j = JStr s.
Proof.
  destruct j; try done. simpl. intros H. apply String.eqb_eq in H. by subst.
Qed.

(** The item of [page_url] after [register_asset] has passed over it. *)
Definition page_item_ok (item : list (string * json)) : Prop :=
  get "page" item = JStr page_url /\ get "path" item = JStr path
  /\ get "depth" item = JInt depth
  /\ (reused = true -> get "reused" item = JBool true).

Lemma touch_page_found (l l' : list json) :
  CrawlState.touch_page path page_url depth reused l = Ok (Some l') ->
  length l' = length l /\ exists item, JObj item ∈ l' /\ page_item_ok item.
Proof.
  revert l'. induction l as [|j l IH]; intros l'; [done|].
  destruct j as [| | | | |item]; try done. simpl.
  destruct (eq_str (get "page" item) page_url) eqn:Hp.
  - intros [= <-]. split; [done|]. eexists. split; [apply list_elem_of_here|].
    apply eq_str_true in Hp. unfold page_item_ok.
    destruct reused; repeat split;
      repeat (rewrite get_set_eq || rewrite get_set_ne by done); done.
  - destruct (CrawlState.touch_page path page_url depth reused l) as [[l0|]|e]; try done.
    simpl. intros [= <-]. destruct (IH l0 eq_refl) as (Hlen & item' & Hin & Hok).
    split; [simpl; lia|]. exists item'. split; [by apply list_elem_of_further | done].
Qed.

Lemma touch_page_missing (l : list json) (item : list (string * json)) :
  CrawlState.touch_page path page_url depth reused l = Ok None ->
  JObj item ∈ l -> eq_str (get "page" item) page_url = false.
Proof.
  induction l as [|j l IH]; [by intros _ H; apply elem_of_nil in H|].
  destruct j as [| | | | |item0]; try done. simpl.
  destruct (eq_str (get "page" item0) page_url) eqn:Hp; [done|].
  destruct (CrawlState.touch_page path page_url depth reused l) as [[l0|]|e]; try done.
  intros _ Hin. apply elem_of_cons in Hin as [[= ->] | Hin]; [done | by apply IH].
Qed.

Variables (asset_type extension : option string) (now : string).

(** What [register_asset] leaves in the entry it writes. *)
Lemma register_entry_result (existing : option (list (string * json)))
    (entry : list (string * json)) :
  CrawlState.register_entry path page_url depth asset_type extension reused now
    existing = Ok entry ->
  exists pages,
    get "pages" entry = JArr pages
    /\ get "download_count" entry = JInt (Z.of_nat (length pages))
    /\ get "path" entry = JStr path
    /\ get "last_seen" entry = JStr now
    /\ (exists item, JObj item ∈ pages /\ page_item_ok item)
    /\ (forall e k, existing = Some e ->
          k ∉ ["path"; "type"; "extension"; "pages"; "last_seen"; "download_count"] ->
          get k entry = get k e)
    /\ (forall e l, existing = Some e -> get "pages" e = JArr l ->
          dict_has "pages" e = true ->
          (exists item, JObj item ∈ l /\ eq_str (get "page" item) page_url = true) ->
          length pages = length l).
Proof.
  unfold CrawlState.register_entry.
  set (entry0 := match existing with None => _ | Some e => _ end).
  set (entry1 := if dict_has "pages" entry0 then entry0 else _).
  assert (Hpath : get "path" entry1 = JStr path).
  { subst entry1 entry0. destruct existing as [e|].
    - set (e1 := dict_set "path" (JStr path) e).
      set (e2 := if CrawlState.nonempty asset_type then _ else e1).
      set (e3 := if CrawlState.nonempty extension then _ else e2).
      assert (get "path" e3 = JStr path).
      { subst e3 e2 e1.
        destruct (CrawlState.nonempty extension), (CrawlState.nonempty asset_type);
          rewrite ?get_set_ne by done; apply get_set_eq. }
      destruct (dict_has "pages" e3); [done|]. by rewrite get_set_ne.
    - reflexivity. }
  assert (Hkeep : forall e k, existing = Some e ->
            k ∉ ["path"; "type"; "extension"; "pages"; "last_seen"; "download_count"] ->
            get k entry1 = get k e).
  { intros e k -> Hk. subst entry1 entry0.
    assert (k <> "path" /\ k <> "type" /\ k <> "extension" /\ k <> "pages")
      as (H1 & H2 & H3 & H4) by (repeat split; intros ->; apply Hk; set_solver).
    destruct (CrawlState.nonempty extension), (CrawlState.nonempty asset_type),
      (dict_has "pages" _); rewrite ?get_set_ne by done; done. }
  destruct (get "pages" entry1) as [| | | |l|] eqn:Hpages; try done.
  destruct (CrawlState.touch_page path page_url depth reused l) as [touched|e] eqn:Ht;
    [|done].
  cbn [bind].
  set (pages := match touched with
                | Some l' => l'
                | None => l ++ [JObj [("page", JStr page_url); ("depth", JInt depth);
                                      ("path", JStr path); ("reused", JBool reused)]]
                end).
  assert (Hbind : (let* pages0 := match touched with
                                  | Some l' => Ok l'
                                  | None => Ok (l ++ [JObj [("page", JStr page_url);
                                                            ("depth", JInt depth);
                                                            ("path", JStr path);
                                                            ("reused", JBool reused)]])
                                  end in
                   Ok (dict_set "download_count" (JInt (Z.of_nat (length pages0)))
                         (dict_set "last_seen" (JStr now)
                            (dict_set "pages" (JArr pages0) entry1))))
                  = Ok (dict_set "download_count" (JInt (Z.of_nat (length pages)))
                          (dict_set "last_seen" (JStr now)
                             (dict_set "pages" (JArr pages) entry1)))).
  { subst pages. by destruct touched. }
  rewrite Hbind. intros [= <-]. exists pages.
  rewrite !get_set_eq, !get_set_ne, !get_set_eq by done.
  rewrite !(get_set_ne "path") by done. rewrite !(get_set_ne "last_seen" "download_count") by done.
  rewrite get_set_eq.
  split; [done|]. split; [done|]. split; [done|]. split; [done|].
  split; [|split].
  - subst pages. destruct touched as [l'|].
    + by apply touch_page_found in Ht as [_ H].
    + eexists. split; [apply elem_of_app; right; apply list_elem_of_here|].
      unfold page_item_ok. repeat split. by intros ->.
  - intros e k He Hk. rewrite !get_set_ne; [by eapply Hkeep | |  |];
      intros ->; apply Hk; set_solver.
  - intros e l0 -> Hl0 Hhas (item & Hin & Hpage).
    assert (l = l0) as <-.
    { enough (get "pages" entry1 = get "pages" e) by congruence.
      subst entry1.
      assert (Hh : forall d, dict_has "pages" d = true ->
                forall k v, k <> "pages" -> dict_has "pages" (dict_set k v d) = true).
      { intros d Hd k v Hk. unfold dict_has in *. by rewrite dict_get_set_ne. }
      assert (Hh0 : dict_has "pages" entry0 = true).
      { subst entry0.
        destruct (CrawlState.nonempty extension), (CrawlState.nonempty asset_type);
          repeat (apply Hh; [|done]); done. }
      rewrite Hh0. subst entry0.
      destruct (CrawlState.nonempty extension), (CrawlState.nonempty asset_type);
        rewrite ?get_set_ne by done; done. }
    subst pages. destruct touched as [l'|].
    + by apply touch_page_found in Ht as [H _].
    + pose proof (touch_page_missing l item Ht Hin). congruence.
Qed.

End Manifest.

(** X4: after [register_asset] the manifest entry of the asset lists the
    page, with the path and depth just given, and [download_count] is the
    number of pages listed; the entry carries the new path and time stamp,
    and the entries of the other assets are untouched. *)
Theorem register_asset_counts_pages :
  forall (asset_url path page_url : string) (depth : Z)
         (asset_type extension : option string) (reused : bool) (now : string)
         (s s' : CrawlState.t),
    CrawlState.register_asset asset_url path page_url depth asset_type extension
      reused now s = Ok s' ->
    (exists entry pages,
       CrawlState.asset_manifest s' !! asset_url = Some entry
       /\ Json.get "pages" entry = Json.JArr pages
       /\ Json.get "download_count" entry = Json.JInt (Z.of_nat (length pages))
       /\ Json.get "path" entry = Json.JStr path
       /\ Json.get "last_seen" entry = Json.JStr now
       /\ exists item,
            Json.JObj item ∈ pages
            /\ Json.get "page" item = Json.JStr page_url
            /\ Json.get "path" item = Json.JStr path
            /\ Json.get "depth" item = Json.JInt depth
            /\ (reused = true -> Json.get "reused" item = Json.JBool true))
    /\ forall other, other <> asset_url ->
         CrawlState.asset_manifest s' !! other = CrawlState.asset_manifest s !! other.
Proof.
  intros asset_url path page_url depth asset_type extension reused now s s'.
  unfold CrawlState.register_asset.
  destruct (CrawlState.register_entry _ _ _ _ _ _ _ _) as [entry|e] eqn:He; [|done].
  cbn [bind]. intros [= <-].
  destruct (register_entry_result _ _ _ _ _ _ _ _ _ He)
    as (pages & Hp & Hc & Hpath & Hseen & (item & Hin & Hok) & _).
  split.
  - exists entry, pages. simpl. rewrite lookup_insert_eq.
    repeat split; try done. exists item. split; [done|]. exact Hok.
  - intros other Hne. simpl. by rewrite lookup_insert_ne.
Qed.

Lemma register_asset_counts_pages_witness :
  exists s',
    CrawlState.register_asset "http://a.com/f.pdf" "out/f.pdf" "http://a.com/docs" 1
      (Some "application/pdf") (Some ".pdf") true "2024-01-02T00:00:00.000000Z"
      midcrawl_state = Ok s'
    /\ forall other, other <> "http://a.com/f.pdf" ->
         CrawlState.asset_manifest s' !! other
         = CrawlState.asset_manifest midcrawl_state !! other.
Proof.
  eexists. split; [vm_compute; reflexivity|].
  refine (proj2 (register_asset_counts_pages "http://a.com/f.pdf" "out/f.pdf"
                   "http://a.com/docs" 1 (Some "application/pdf") (Some ".pdf") true
                   "2024-01-02T00:00:00.000000Z" midcrawl_state _ _)).
  vm_compute. reflexivity.
Defined.

(** X5: the manifest entry of an asset is merged, not replaced. When the
    same page registers the asset again, even with another path, depth or
    time, [download_count] stays what it was and the first page, first
    depth and first time stamp of the entry are kept. *)
Theorem register_asset_again_keeps_count :
  forall (asset_url page_url path1 path2 : string) (depth1 depth2 : Z)
         (type1 type2 ext1 ext2 : option string) (reused1 reused2 : bool)
         (now1 now2 : string) (s s1 s2 : CrawlState.t),
    CrawlState.register_asset asset_url path1 page_url depth1 type1 ext1 reused1
      now1 s = Ok s1 ->
    CrawlState.register_asset asset_url path2 page_url depth2 type2 ext2 reused2
      now2 s1 = Ok s2 ->
    exists entry1 entry2,
      CrawlState.asset_manifest s1 !! asset_url = Some entry1
      /\ CrawlState.asset_manifest s2 !! asset_url = Some entry2
      /\ Json.get "download_count" entry2 = Json.get "download_count" entry1
      /\ Json.get "first_page" entry2 = Json.get "first_page" entry1
      /\ Json.get "first_depth" entry2 = Json.get "first_depth" entry1
      /\ Json.get "first_seen" entry2 = Json.get "first_seen" entry1.
Proof.
  intros asset_url page_url path1 path2 depth1 depth2 type1 type2 ext1 ext2
    reused1 reused2 now1 now2 s s1 s2.
  unfold CrawlState.register_asset.
  destruct (CrawlState.register_entry path1 _ _ _ _ _ _ _) as [entry1|e] eqn:He1;
    [|done].
  cbn [bind]. intros [= <-]. simpl. rewrite lookup_insert_eq.
  destruct (CrawlState.register_entry path2 _ _ _ _ _ _ _) as [entry2|e] eqn:He2;
    [|done].
  cbn [bind]. intros [= <-]. simpl. rewrite lookup_insert_eq.
  exists entry1, entry2. split; [done|]. split; [done|].
  destruct (register_entry_result _ _ _ _ _ _ _ _ _ He1)
    as (pages1 & Hp1 & Hc1 & _ & _ & (item & Hin & Hpage & _) & _).
  destruct (register_entry_result _ _ _ _ _ _ _ _ _ He2)
    as (pages2 & Hp2 & Hc2 & _ & _ & _ & Hkeep & Hlen).
  split; [|repeat split; apply (Hkeep entry1); try done; set_solver].
  rewrite Hc1, Hc2. f_equal. f_equal.
  apply (Hlen entry1 pages1); try done.
  - unfold Json.dict_has. unfold Json.get in Hp1.
    by destruct (Json.dict_get "pages" entry1).
  - exists item. split; [done|]. rewrite Hpage. simpl. apply String.eqb_refl.
Qed.

Lemma register_asset_again_keeps_count_witness :
  exists s1 s2,
    CrawlState.register_asset "http://a.com/f.pdf" "out/f.pdf" "http://a.com/docs" 1
      None None false "t1" midcrawl_state = Ok s1
    /\ CrawlState.register_asset "http://a.com/f.pdf" "out/g.pdf" "http://a.com/docs" 2
         None None true "t2" s1 = Ok s2
    /\ exists entry1 entry2,
         CrawlState.asset_manifest s1 !! "http://a.com/f.pdf" = Some entry1
         /\ CrawlState.asset_manifest s2 !! "http://a.com/f.pdf" = Some entry2
         /\ Json.get "download_count" entry2 = Json.get "download_count" entry1
         /\ Json.get "first_page" entry2 = Json.get "first_page" entry1
         /\ Json.get "first_depth" entry2 = Json.get "first_depth" entry1
         /\ Json.get "first_seen" entry2 = Json.get "first_seen" entry1.
Proof.
  eexists. eexists. split; [vm_compute; reflexivity|].
  split; [vm_compute; reflexivity|].
  refine (register_asset_again_keeps_count "http://a.com/f.pdf" "http://a.com/docs"
            "out/f.pdf" "out/g.pdf" 1 2 None None None None false true "t1" "t2"
            midcrawl_state _ _ _ _); vm_compute; reflexivity.
Defined.

(** ** Enqueueing and dispatching pages *)

Section Dispatch.
Import FileCrawler.
Context {policy : Type}.
Variable E : env policy.

Lemma record_referrer_view (url parent_url : string) (c : t policy) :
  enqueue_view (with_state (CrawlState.record_referrer url parent_url (state c)) c)
  = enqueue_view c.
Proof.
  unfold CrawlState.record_referrer.
  destruct (Py.is_empty parent_url); [by destruct c|]. simpl.
  by destruct (_ !! url).
Qed.

(** What [_enqueue_page] does to the frontier, the visited set and
    [_queued_pages]. *)
Lemma enqueue_page_view (parent_url url : string) (depth : Z) (c : t policy) :
  enqueue_view (_enqueue_page parent_url url depth c)
  = if bool_decide (url ∈ CrawlState.visited (state c))
       || bool_decide (url ∈ queued_pages c)
    then enqueue_view c
    else (CrawlState.frontier (state c) ++ [(url, depth)],
          CrawlState.visited (state c), {[url]} ∪ queued_pages c).
Proof.
  unfold _enqueue_page.
  pose proof (record_referrer_view url parent_url c) as Hv.
  set (c1 := with_state _ c) in *.
  pose proof (f_equal (fun v => v.1.1) Hv) as Hf.
  pose proof (f_equal (fun v => v.1.2) Hv) as Hvi.
  pose proof (f_equal snd Hv) as Hq.
  cbn [enqueue_view fst snd] in Hf, Hvi, Hq.
  change (CrawlState.record_referrer url parent_url (state c)) with (state c1).
  rewrite Hvi, Hq. destruct (_ || _); [done|].
  unfold enqueue_view.
  cbn [state queued_pages with_queued_pages with_state CrawlState.frontier
       CrawlState.visited CrawlState.enqueue CrawlState.with_frontier].
  rewrite ?Hf, ?Hvi, ?Hq. done.
Qed.

(** X6: [_enqueue_page] queues a URL at most once. A URL that is neither
    visited nor queued is appended to the frontier with its depth and
    becomes queued; asking again for the same URL, from any parent and at
    any depth, then changes neither the frontier nor the two sets. *)
Theorem enqueue_page_queues_once :
  forall (parent1 parent2 url : string) (depth1 depth2 : Z) (c : t policy),
    let c1 := _enqueue_page parent1 url depth1 c in
    enqueue_view (_enqueue_page parent2 url depth2 c1) = enqueue_view c1
    /\ (url ∉ CrawlState.visited (state c) -> url ∉ queued_pages c ->
        CrawlState.frontier (state c1)
        = CrawlState.frontier (state c) ++ [(url, depth1)]
        /\ url ∈ queued_pages c1).
Proof.
  intros parent1 parent2 url depth1 depth2 c c1. split.
  - rewrite (enqueue_page_view parent2 url depth2 c1).
    assert (Hin : url ∈ CrawlState.visited (state c1) \/ url ∈ queued_pages c1).
    { subst c1. pose proof (enqueue_page_view parent1 url depth1 c) as Hv.
      pose proof (f_equal (fun v => v.1.2) Hv) as Hvi.
      pose proof (f_equal snd Hv) as Hq.
      cbn [enqueue_view fst snd] in Hvi, Hq.
      destruct (decide (url ∈ CrawlState.visited (state c))) as [H1|H1];
        [|destruct (decide (url ∈ queued_pages c)) as [H2|H2]].
      - left. rewrite Hvi. rewrite (bool_decide_eq_true_2 _ H1). done.
      - right. rewrite Hq, (bool_decide_eq_true_2 _ H2), orb_true_r. done.
      - right. rewrite Hq, (bool_decide_eq_false_2 _ H1), (bool_decide_eq_false_2 _ H2).
        cbn. set_solver. }
    destruct Hin as [Hin | Hin].
    + by rewrite (bool_decide_eq_true_2 _ Hin).
    + rewrite (bool_decide_eq_true_2 _ Hin). by rewrite orb_true_r.
  - intros Hv Hq. subst c1.
    pose proof (enqueue_page_view parent1 url depth1 c) as Hview.
    rewrite (bool_decide_eq_false_2 _ Hv), (bool_decide_eq_false_2 _ Hq) in Hview.
    cbn [orb] in Hview.
    pose proof (f_equal (fun v => v.1.1) Hview) as Hf.
    pose proof (f_equal snd Hview) as Hq'.
    cbn [enqueue_view fst snd] in Hf, Hq'.
    split; [done|]. rewrite Hq'. set_solver.
Qed.

Lemma step_visited (l : label) (w : world policy) :
  CrawlState.visited (state (crawler w))
  ⊆ CrawlState.visited (state (crawler (step E l w))).
Proof.
  assert (Hview : forall c c' : t policy, enqueue_view c' = enqueue_view c ->
            CrawlState.visited (state c) ⊆ CrawlState.visited (state c')).
  { intros c c' H. pose proof (f_equal (fun v => v.1.2) H) as Hv.
    cbn [enqueue_view fst snd] in Hv. by rewrite Hv. }
  destruct l; simpl; try done.
  - destruct (task w); [done|].
    unfold loop_dequeue, CrawlState.dequeue.
    by destruct (CrawlState.frontier (state (crawler w))).
  - destruct (task w) as [tk|]; [|done]. simpl.
    unfold loop_mark. destruct (bool_decide _); [done|]. simpl. set_solver.
  - unfold CrawlState.page. simpl. apply Hview. by rewrite add_page_error_view.
  - destruct (consider E base_url url_value lab (crawler w) acc) as [[c' acc']|e] eqn:Hc;
      [|done].
    simpl. apply Hview. by apply consider_view in Hc.
  - pose proof (f_equal (fun v => v.1.2)
                  (enqueue_page_view parent_url url depth (crawler w))) as Hv.
    cbn [enqueue_view fst snd] in Hv. rewrite Hv. by destruct (_ || _).
  - destruct (scheds w !! thread) as [th|]; [|done].
    pose proof (sched_step_view E th w) as Hv.
    destruct (sched_step E th w) as [pc w']. simpl in *. by apply Hview.
  - destruct (tasks w !! future) as [t0|]; [|done].
    pose proof (download_step_view E future t0 w) as Hv.
    destruct (download_step E future t0 w) as [pc w']. simpl in *. by apply Hview.
Qed.

(** X7: the visited set only grows, and a visited page is not dispatched
    again. Whatever the threads do next, a URL that is in the visited set
    stays in it, and the driving loop, finding it in the frontier again,
    drops the entry without dispatching a fetch. *)
Theorem visited_page_is_not_dispatched_again :
  forall (w : world policy) (schedule : list label) (url : string) (depth : Z),
    url ∈ CrawlState.visited (state (crawler w)) ->
    let c := crawler (exec E schedule w) in
    url ∈ CrawlState.visited (state c)
    /\ loop_mark (url, depth) c = (false, c).
Proof.
  intros w schedule url depth Hin c.
  assert (Hc : url ∈ CrawlState.visited (state c)).
  { subst c. revert w Hin. induction schedule as [|l ls IH]; intros w Hin; [done|].
    simpl. apply IH. by apply (step_visited l w). }
  split; [done|]. unfold loop_mark. simpl. by rewrite bool_decide_eq_true_2.
Qed.

End Dispatch.

Lemma visited_page_is_not_dispatched_again_witness :
  match Race.engine with
  | Ok c0 =>
      let w := FileCrawler.exec Demo.E [FileCrawler.LoopDequeue; FileCrawler.LoopMark]
                 (FileCrawler.boot c0 ∅ ∅) in
      Race.index ∈ CrawlState.visited (FileCrawler.state (FileCrawler.crawler w))
      /\ FileCrawler.loop_mark (Race.index, 1%Z)
           (FileCrawler.crawler (FileCrawler.exec Demo.E Race.racing w))
         = (false, FileCrawler.crawler (FileCrawler.exec Demo.E Race.racing w))
  | Raise _ => False
  end.
Proof.
  destruct Race.engine as [c0|e] eqn:He; [|by vm_compute in He].
  assert (H : Race.index ∈ CrawlState.visited
                (FileCrawler.state
                   (FileCrawler.crawler
                      (FileCrawler.exec Demo.E
                         [FileCrawler.LoopDequeue; FileCrawler.LoopMark]
                         (FileCrawler.boot c0 ∅ ∅))))).
  { vm_compute in He. injection He as <-. vm_compute. set_solver. }
  split; [exact H|].
  exact (proj2 (visited_page_is_not_dispatched_again Demo.E _ Race.racing
                  Race.index 1 H)).
Defined.

(** ** Attaching an asset to a page *)

Section Attach.
Import Json FileCrawler.
Context {policy : Type}.

Lemma dict_get_app (k : string) (a b : list (string * json)) :
  dict_get k (a ++ b)
  = match dict_get k a with Some v => Some v | None => dict_get k b end.
Proof.
  induction a as [|[k' v'] a IH]; [done|]. simpl.
  by destruct (String.eqb k k').
Qed.

Lemma optional_field_get (k k' : string) (o : option string) :
  k <> k' -> dict_get k (optional_field k' o) = None.
Proof.
  intros Hne. unfold optional_field. destruct (CrawlState.nonempty o); [|done].
  simpl. apply String.eqb_neq in Hne. by rewrite Hne.
Qed.

(** The entry that [_attach_asset_to_page] appends. *)
Definition new_entry (asset_url path : string) (asset_type extension : option string)
    (reused : bool) : list (string * json) :=
  [("url", JStr asset_url); ("path", JStr path)]
    ++ optional_field "type" asset_type
    ++ optional_field "extension" extension
    ++ (if reused then [("reused", JBool true)] else []).

Lemma new_entry_fields (asset_url path : string) (asset_type extension : option string)
    (reused : bool) :
  let entry := new_entry asset_url path asset_type extension reused in
  get "url" entry = JStr asset_url /\ get "path" entry = JStr path
  /\ (reused = true -> get "reused" entry = JBool true).
Proof.
  cbv zeta. split; [done|]. split; [done|]. intros ->.
  unfold get, new_entry. cbn [app].
  cbn [dict_get String.eqb Ascii.eqb Bool.eqb andb].
  rewrite !dict_get_app, !optional_field_get by done. done.
Qed.

(** The key of an attachment: its URL and its path. *)
Definition asset_key (item : list (string * json)) : json * json :=
  (get "url" item, get "path" item).

Lemma mark_existing_keys (asset_url path : string) (reused : bool)
    (l l' : list (list (string * json))) :
  mark_existing asset_url path reused l = Some l' ->
  map asset_key l' = map asset_key l
  /\ (JStr asset_url, JStr path) ∈ map asset_key l
  /\ mark_existing asset_url path reused l' = Some l'.
Proof.
  revert l'. induction l as [|item l IH]; intros l'; [done|]. simpl.
  destruct (eq_str (get "url" item) asset_url && eq_str (get "path" item) path) eqn:Hm.
  - intros [= <-]. apply andb_true_iff in Hm as [Hu Hp].
    pose proof (eq_str_true _ _ Hu) as Hu'. pose proof (eq_str_true _ _ Hp) as Hp'.
    destruct (reused && negb (truthy (get "reused" item))) eqn:Hr.
    + split; [|split].
      * simpl. f_equal. unfold asset_key. by rewrite !get_set_ne.
      * simpl. unfold asset_key at 1. rewrite Hu', Hp'. apply list_elem_of_here.
      * simpl. rewrite !get_set_ne by done. rewrite Hu, Hp. cbn [andb].
        rewrite get_set_eq. cbn [truthy negb]. by rewrite andb_false_r.
    + split; [done|]. split.
      * simpl. unfold asset_key at 1. rewrite Hu', Hp'. apply list_elem_of_here.
      * simpl. by rewrite Hu, Hp, Hr.
  - destruct (mark_existing asset_url path reused l) as [l0|]; [|done].
    simpl. intros [= <-]. destruct (IH l0 eq_refl) as (Hk & Hin & Hidem).
    split; [simpl; by rewrite Hk|]. split; [by apply list_elem_of_further|].
    simpl. by rewrite Hm, Hidem.
Qed.

Lemma mark_existing_none (asset_url path : string) (reused : bool)
    (l : list (list (string * json))) :
  mark_existing asset_url path reused l = None ->
  (JStr asset_url, JStr path) ∉ map asset_key l.
Proof.
  induction l as [|item l IH]; [by intros _ H; apply elem_of_nil in H|]. simpl.
  destruct (eq_str (get "url" item) asset_url && eq_str (get "path" item) path) eqn:Hm;
    [done|].
  destruct (mark_existing asset_url path reused l) as [l0|]; [done|].
  intros _ Hin. apply elem_of_cons in Hin as [Heq | Hin]; [|by apply IH].
  unfold asset_key in Heq. injection Heq as Hu Hp.
  rewrite <- Hu, <- Hp in Hm. simpl in Hm. by rewrite !String.eqb_refl in Hm.
Qed.

Lemma mark_existing_appended (asset_url path : string)
    (asset_type extension : option string) (reused : bool)
    (l : list (list (string * json))) :
  mark_existing asset_url path reused l = None ->
  let l' := l ++ [new_entry asset_url path asset_type extension reused] in
  mark_existing asset_url path reused l' = Some l'.
Proof.
  cbv zeta. induction l as [|item l IH].
  - intros _.
    destruct (new_entry_fields asset_url path asset_type extension reused)
      as (Hu & Hp & Hr).
    revert Hu Hp Hr.
    generalize (new_entry asset_url path asset_type extension reused).
    intros e Hu Hp Hr. simpl. rewrite Hu, Hp. simpl. rewrite !String.eqb_refl.
    cbn [andb]. destruct reused; [|done]. rewrite (Hr eq_refl). done.
  - simpl.
    destruct (eq_str (get "url" item) asset_url && eq_str (get "path" item) path);
      [done|].
    destruct (mark_existing asset_url path reused l) as [l0|]; [done|].
    intros _. by rewrite (IH eq_refl).
Qed.

(** X8: attaching is idempotent. Once an asset has been attached to a
    page with a given path, attaching the same asset and path to that page
    again changes nothing: no second entry in the page's list, no change
    of the cache or of the manifest. *)
Theorem attach_asset_twice_changes_nothing :
  forall (page asset_url path : string) (asset_type extension : option string)
         (reused : bool) (now now' : string) (c c1 : t policy),
    _attach_asset_to_page page asset_url path asset_type extension reused now c
    = (c1, None) ->
    _attach_asset_to_page page asset_url path asset_type extension reused now' c1
    = (c1, None).
Proof.
  intros page asset_url path asset_type extension reused now now' c c1.
  unfold _attach_asset_to_page at 1.
  destruct (CrawlState.pages (state c) !! page) as [p|] eqn:Hp; [|done].
  fold (new_entry asset_url path asset_type extension reused).
  destruct (mark_existing asset_url path reused (PageRecord.assets p)) as [l|] eqn:Hm.
  - intros [= <-]. unfold _attach_asset_to_page.
    destruct c as [se co dc te ro st qp ai aw ad dp].
    destruct st as [su md rr sd ip ep tx fr vi ac pg sk sa fa rf am].
    destruct p as [pu pd pt pa pe pr pl].
    cbn in *. rewrite lookup_insert_eq. cbn.
    destruct (mark_existing_keys _ _ _ _ _ Hm) as (_ & _ & ->).
    cbn. by rewrite insert_insert_eq.
  - unfold CrawlState.register_asset.
    destruct (CrawlState.register_entry _ _ _ _ _ _ _ _) as [entry|e]; [|done].
    cbn [bind]. intros [= <-]. unfold _attach_asset_to_page.
    destruct c as [se co dc te ro st qp ai aw ad dp].
    destruct st as [su md rr sd ip ep tx fr vi ac pg sk sa fa rf am].
    destruct p as [pu pd pt pa pe pr pl].
    cbn in *. rewrite lookup_insert_eq. cbn.
    pose proof (mark_existing_appended asset_url path asset_type extension reused pa Hm)
      as Happ.
    cbv zeta in Happ. unfold new_entry in Happ. cbn in Happ. rewrite Happ.
    cbn. by rewrite insert_insert_eq.
Qed.

End Attach.

Section DistinctAssets.
Import Json FileCrawler.
Context {policy : Type}.
Variable E : env policy.

(** No page lists two attachments with the same URL and path. *)
Definition assets_distinct (c : t policy) : Prop :=
  forall url p, CrawlState.pages (state c) !! url = Some p ->
                NoDup (map asset_key (PageRecord.assets p)).

Lemma assets_distinct_pages (c c' : t policy) :
  CrawlState.pages (state c') = CrawlState.pages (state c) ->
  assets_distinct c -> assets_distinct c'.
Proof. unfold assets_distinct. by intros ->. Qed.

(** Replacing a record by one with the same attachments. *)
Lemma assets_distinct_insert (c c' : t policy) (url : string) (p' : PageRecord.t) :
  CrawlState.pages (state c') = <[url := p']> (CrawlState.pages (state c)) ->
  NoDup (map asset_key (PageRecord.assets p')) ->
  assets_distinct c -> assets_distinct c'.
Proof.
  unfold assets_distinct. intros -> Hp' Hc u p.
  destruct (decide (url = u)) as [->|Hne].
  - rewrite lookup_insert_eq. by intros [= <-].
  - rewrite lookup_insert_ne by done. apply Hc.
Qed.

Lemma attach_distinct (page asset_url path : string)
    (asset_type extension : option string) (reused : bool) (now : string)
    (c : t policy) :
  assets_distinct c ->
  assets_distinct (fst (_attach_asset_to_page page asset_url path asset_type
                          extension reused now c)).
Proof.
  intros Hc. unfold _attach_asset_to_page.
  destruct (CrawlState.pages (state c) !! page) as [p|] eqn:Hp; [|done].
  fold (new_entry asset_url path asset_type extension reused).
  destruct (mark_existing asset_url path reused (PageRecord.assets p)) as [l|] eqn:Hm.
  - eapply (assets_distinct_insert c _ page (PageRecord.with_assets l p));
      [reflexivity| |exact Hc].
    destruct (mark_existing_keys _ _ _ _ _ Hm) as (Hk & _ & _).
    simpl. rewrite Hk. by apply (Hc page).
  - assert (Hnew : NoDup (map asset_key
                     (PageRecord.assets p
                        ++ [new_entry asset_url path asset_type extension reused]))).
    { rewrite map_app. apply NoDup_app. split; [by apply (Hc page)|].
      split; [|apply NoDup_singleton].
      intros k Hk Hk'. simpl in Hk'. apply list_elem_of_singleton in Hk'. subst k.
      destruct (new_entry_fields asset_url path asset_type extension reused)
        as (Hu & Hpa & _).
      cbv zeta in *. unfold asset_key at 1 in Hk. rewrite Hu, Hpa in Hk.
      by apply (mark_existing_none _ _ _ _ Hm). }
    unfold CrawlState.register_asset.
    destruct (CrawlState.register_entry _ _ _ _ _ _ _ _);
      (eapply (assets_distinct_insert c _ page
                 (PageRecord.with_assets
                    (PageRecord.assets p
                       ++ [new_entry asset_url path asset_type extension reused]) p));
       [reflexivity | exact Hnew | exact Hc]).
Qed.

Lemma add_page_error_distinct (page msg : string) (c : t policy) :
  assets_distinct c -> assets_distinct (add_page_error page msg c).
Proof.
  intros Hc. unfold add_page_error.
  destruct (CrawlState.pages (state c) !! page) as [p|] eqn:Hp; [|done].
  eapply (assets_distinct_insert c _ page
            (PageRecord.with_errors (PageRecord.errors p ++ [msg]) p));
    [reflexivity| |exact Hc].
  simpl. by apply (Hc page).
Qed.

Lemma page_distinct (url : string) (depth : Z) (c : t policy) :
  assets_distinct c ->
  assets_distinct (with_state (snd (CrawlState.page url depth (state c))) c).
Proof.
  intros Hc. unfold CrawlState.page. simpl.
  eapply (assets_distinct_insert c _ url); [reflexivity| |done].
  destruct (CrawlState.pages (state c) !! url) as [p|] eqn:Hp; simpl.
  - by apply (Hc url).
  - constructor.
Qed.

Lemma record_referrer_distinct (url referrer : string) (c : t policy) :
  assets_distinct c ->
  assets_distinct (with_state (CrawlState.record_referrer url referrer (state c)) c).
Proof.
  intros Hc. unfold CrawlState.record_referrer.
  destruct (Py.is_empty referrer); [by destruct c|]. simpl.
  destruct (CrawlState.pages (state c) !! url) as [p|] eqn:Hp.
  - eapply (assets_distinct_insert c _ url); [reflexivity| |done].
    simpl. by apply (Hc url).
  - by apply (assets_distinct_pages c).
Qed.

Lemma download_done_distinct (future : nat) (w : world policy) :
  assets_distinct (crawler w) -> assets_distinct (crawler (_download_done E future w)).
Proof.
  apply assets_distinct_pages. unfold _download_done. simpl.
  try done; by destruct (filter _ _).
Qed.

Lemma sched_step_distinct (th : sched_thread) (w : world policy) :
  assets_distinct (crawler w) -> assets_distinct (crawler (snd (sched_step E th w))).
Proof.
  intros Hw. unfold sched_step.
  destruct (s_pc th) as [|entry| | |fut|fut| |e]; try done.
  - destruct (CrawlState.pages _ !! _); [|done].
    destruct (has_asset _ _); [done|].
    destruct (CrawlState.asset_cache _ !! _) as [[|f fl]|]; try done.
    destruct (dict_get "path" (f :: fl)) as [[]|]; try done.
    by destruct (bool_decide _).
  - destruct (get_default _ _ _); try done.
    destruct (negb _); [done|].
    destruct (as_opt_str "type" _); [|done].
    destruct (as_opt_str "extension" _); [|done].
    pose proof (attach_distinct (c_page (s_call th)) (c_asset_url (s_call th)) s a a0
                  true (clock E (time w)) (crawler w) Hw) as Hv.
    destruct (_attach_asset_to_page _ _ _ _ _ _ _ _) as [c' e]. exact Hv.
  - destruct (CrawlState.pages _ !! _); [|done].
    destruct (Urllib.in_list _ _); [done|].
    destruct (bool_decide _); [done|].
    by destruct (has_asset _ _).
  - by destruct (download_pool _).
  - destruct (tasks w !! fut) as [t0|]; [|done].
    destruct (d_pc t0); try done.
Qed.

Lemma download_step_distinct (future : nat) (t0 : dl_task) (w : world policy) :
  assets_distinct (crawler w) ->
  assets_distinct (crawler (snd (download_step E future t0 w))).
Proof.
  intros Hw. unfold download_step.
  destruct (d_pc t0) as [|tg|tg at' ext|tg at' ext|tg at' ext ws|tg msg|tg msg
                         |tg msg ws|tg| |]; try done.
  - destruct (http_get E _); [|done]. by destruct (Py.contains _ _).
  - pose proof (attach_distinct (c_page (d_call t0)) (c_asset_url (d_call t0)) tg at'
                  (Some ext) false (clock E (time w)) (crawler w) Hw) as Hv.
    destruct (_attach_asset_to_page _ _ _ _ _ _ _ _) as [c' e]. exact Hv.
  - destruct ws as [|waiter rest]; [done|].
    pose proof (attach_distinct waiter (c_asset_url (d_call t0)) tg at'
                  (Some ext) true (clock E (time w)) (crawler w) Hw) as Hv.
    destruct (_attach_asset_to_page _ _ _ _ _ _ _ _) as [c' e]. exact Hv.
  - simpl. apply (assets_distinct_pages
                    (add_page_error (c_page (d_call t0)) ("download-error: " +:+ msg)
                       (crawler w))); [done|].
    by apply add_page_error_distinct.
  - destruct ws as [|waiter rest]; [done|]. simpl. by apply add_page_error_distinct.
  - destruct (d_callback t0); [|done]. by apply download_done_distinct.
Qed.

Lemma consider_pages (base_url : string) (url_value : option string)
    (lab : string) (c c' : t policy) (acc acc' : links) :
  consider E base_url url_value lab c acc = Ok (c', acc') ->
  CrawlState.pages (state c') = CrawlState.pages (state c).
Proof.
  unfold consider. intros H.
  repeat (simplify_eq; try done;
          match type of H with
          | context [match ?x with _ => _ end] => destruct x eqn:?
          | context [bind ?x _] => destruct x eqn:?; cbn [bind] in H
          end).
Qed.

Lemma step_distinct (l : label) (w : world policy) :
  assets_distinct (crawler w) -> assets_distinct (crawler (step E l w)).
Proof.
  intros Hw. destruct l; cbn [step]; try done.
  - destruct (task w); [done|].
    unfold loop_dequeue, CrawlState.dequeue.
    by destruct (CrawlState.frontier (state (crawler w))).
  - destruct (task w) as [tk|]; [|done]. simpl.
    unfold loop_mark. by destruct (bool_decide _).
  - pose proof (page_distinct url depth (crawler w) Hw) as Hp.
    destruct (CrawlState.page url depth (state (crawler w))) as [r st].
    cbn [snd] in Hp. cbn [crawler with_crawler]. by apply add_page_error_distinct.
  - pose proof (page_distinct url depth (crawler w) Hw) as Hp.
    destruct (CrawlState.page url depth (state (crawler w))) as [r st] eqn:Hpage.
    cbn [snd] in Hp. cbn [crawler with_crawler].
    eapply (assets_distinct_insert (with_state st (crawler w)) _ url);
      [reflexivity| |exact Hp].
    cbn [PageRecord.assets].
    assert (Hst : CrawlState.pages st !! url = Some r).
    { unfold CrawlState.page in Hpage. injection Hpage as <- <-.
      simpl. by rewrite lookup_insert_eq. }
    by apply (Hp url).
  - destruct (consider E base_url url_value lab (crawler w) acc) as [[c' acc']|e] eqn:Hc;
      [|done].
    cbn [crawler with_crawler]. apply (assets_distinct_pages (crawler w)); [|done].
    by apply consider_pages in Hc.
  - cbn [crawler with_crawler]. unfold _enqueue_page.
    pose proof (record_referrer_distinct url parent_url (crawler w) Hw) as Hr.
    destruct (_ || _); [done|].
    by apply (assets_distinct_pages
                (with_state (CrawlState.record_referrer url parent_url
                               (state (crawler w))) (crawler w))).
  - destruct (scheds w !! thread) as [th|]; [|done].
    pose proof (sched_step_distinct th w Hw) as Hv.
    by destruct (sched_step E th w) as [pc w'].
  - destruct (tasks w !! future) as [t0|]; [|done].
    pose proof (download_step_distinct future t0 w Hw) as Hv.
    by destruct (download_step E future t0 w) as [pc w'].
Qed.

Lemma hydrate_pages (path : string) (fs : gmap string string)
    (st st' : CrawlState.t) :
  _hydrate_cache_from_previous_run E path fs st = Ok st' ->
  CrawlState.pages st' = CrawlState.pages st.
Proof.
  unfold _hydrate_cache_from_previous_run.
  destruct (fs !! path) as [raw|]; [|by intros [= <-]].
  destruct (json_loads E raw) as [data|]; [|by intros [= <-]].
  destruct (as_payload data) as [payload|]; [|done]. cbn [bind].
  destruct (items (py_or (py_or _ _) _)); [|done]. cbn [bind].
  destruct (items (py_or _ _)); [|done]. cbn [bind].
  by intros [= <-].
Qed.

(** X9: an engine that starts a fresh crawl never gives a page two
    attachments with the same asset URL and path, whatever the schedule of
    its threads. *)
Theorem no_page_lists_an_attachment_twice :
  forall (start_url : string) (max_depth : Z) (settings : ScraperSettings.t)
         (concurrency : Z) (include_patterns exclude_patterns : option (list string))
         (respect_robots same_domain_only : bool)
         (download_concurrency : option Z)
         (target_extensions : option (list string))
         (now : string) (fs : gmap string string) (dk : gset string)
         (c0 : t policy) (schedule : list label) (url : string) (p : PageRecord.t),
    init E start_url max_depth settings concurrency include_patterns
      exclude_patterns respect_robots same_domain_only false
      download_concurrency target_extensions now fs = Ok c0 ->
    CrawlState.pages (state (crawler (exec E schedule (boot c0 dk fs)))) !! url
    = Some p ->
    NoDup (map asset_key (PageRecord.assets p)).
Proof.
  intros start_url max_depth settings concurrency incl excl rr sd dc exts now fs dk
    c0 schedule url p Hinit.
  assert (H0 : assets_distinct c0).
  { assert (Hpg : CrawlState.pages (state c0) = ∅).
    { revert Hinit. unfold init. cbn [andb bind].
      destruct (_hydrate_cache_from_previous_run E _ fs _) as [st|e] eqn:Hh; [|done].
      apply hydrate_pages in Hh. cbn [bind].
      unfold CrawlState.mark_started.
      destruct (CrawlState.started_at st) as [[|]|];
        destruct (CrawlState.target_extensions _); intros [= <-]; exact Hh. }
    intros u q. by rewrite Hpg, lookup_empty. }
  assert (Hall : forall ls w, assets_distinct (crawler w) ->
                              assets_distinct (crawler (exec E ls w))).
  { induction ls as [|l ls IH]; intros w Hw; [done|].
    simpl. apply IH. by apply step_distinct. }
  apply (Hall schedule (boot c0 dk fs) H0).
Qed.

End DistinctAssets.

(** The engine of [Race] once the two pages have been discovered. *)
Definition discovered_crawler : result (FileCrawler.t unit) :=
  let* c := Race.engine in
  Ok (FileCrawler.crawler
        (FileCrawler.exec Demo.E Race.discovered (FileCrawler.boot c ∅ ∅))).

Lemma attach_asset_twice_changes_nothing_witness :
  match discovered_crawler with
  | Ok c =>
      let c1 := fst (FileCrawler._attach_asset_to_page Race.page1 Race.asset
                       "out/sample.pdf" None (Some ".pdf") false "t1" c) in
      FileCrawler._attach_asset_to_page Race.page1 Race.asset "out/sample.pdf" None
        (Some ".pdf") false "t2" c1 = (c1, None)
  | Raise _ => False
  end.
Proof.
  destruct discovered_crawler as [c|e] eqn:Hc; [|by vm_compute in Hc].
  cbv zeta.
  apply (attach_asset_twice_changes_nothing Race.page1 Race.asset "out/sample.pdf"
           None (Some ".pdf") false "t1" "t2" c).
  vm_compute in Hc. injection Hc as <-. vm_compute. reflexivity.
Defined.

Lemma no_page_lists_an_attachment_twice_witness :
  match Race.engine with
  | Ok c0 =>
      match CrawlState.pages
              (FileCrawler.state
                 (FileCrawler.crawler
                    (FileCrawler.exec Demo.E Race.ordered (FileCrawler.boot c0 ∅ ∅))))
            !! Race.page2 with
      | Some p => NoDup (map asset_key (PageRecord.assets p))
      | None => False
      end
  | Raise _ => False
  end.
Proof.
  destruct Race.engine as [c0|e] eqn:He; [|by vm_compute in He].
  destruct (CrawlState.pages _ !! Race.page2) as [p|] eqn:Hp.
  - exact (no_page_lists_an_attachment_twice Demo.E Race.index 2 Demo.settings 4
             None None false true (Some 2%Z) (Some [".pdf"])
             "2024-01-01T00:00:00.000000Z" ∅ ∅ c0 Race.ordered Race.page2 p He Hp).
  - vm_compute in He. injection He as <-. by vm_compute in Hp.
Defined.

(** ** State files that decode but are not snapshots *)

Section StateFile.
Import Json FileCrawler.
Context {policy : Type}.
Variable E : env policy.
Variables (start_url : string) (max_depth : Z) (settings : ScraperSettings.t).
Variables (concurrency : Z) (include_patterns exclude_patterns : option (list string)).
Variables (respect_robots same_domain_only : bool).
Variables (download_concurrency : option Z) (target_extensions : option (list string)).
Variables (now : string) (fs : gmap string string).

Lemma of_payload_not_object (data : json) :
  (forall d, data <> JObj d) ->
  CrawlState.of_payload data = Raise (AttributeError "get").
Proof. intros H. destruct data as [| | | | |d]; try done. by destruct (H d). Qed.

(** X10: a state file that holds JSON other than an object (a list, a
    string, a number, [null]) makes the constructor raise
    [AttributeError], with [resume] and without it: [load] and the
    hydration of the cache both call [payload.get], and the constructor
    catches [ValueError] only. *)
Theorem state_file_not_an_object_is_fatal :
  forall (raw : string) (data : json) (resume : bool),
    fs !! ScraperSettings.state_path settings = Some raw ->
    json_loads E raw = Some data ->
    (forall d, data <> JObj d) ->
    init E start_url max_depth settings concurrency include_patterns
      exclude_patterns respect_robots same_domain_only resume
      download_concurrency target_extensions now fs
    = Raise (AttributeError "get").
Proof.
  intros raw data resume Hfs Hloads Hdata.
  assert (Hhyd : forall st,
            _hydrate_cache_from_previous_run E (ScraperSettings.state_path settings)
              fs st = Raise (AttributeError "get")).
  { intros st. unfold _hydrate_cache_from_previous_run. rewrite Hfs, Hloads.
    destruct data as [| | | | |d]; try done. by destruct (Hdata d). }
  unfold init. rewrite Hfs. unfold CrawlState.load. rewrite Hfs, Hloads.
  rewrite (of_payload_not_object data Hdata).
  destruct resume; cbn [andb]; [|cbn [bind]; by rewrite Hhyd].
  rewrite bool_decide_eq_true_2 by (by eexists).
  destruct (Py.is_empty (Py.strip raw)); cbn [bind]; [by rewrite Hhyd | done].
Qed.

(** X11: with [resume], a state file that holds a JSON object without
    [start_url] makes the constructor raise [KeyError]: [load] reads
    [payload['start_url']] once the pages have been decoded, and the
    constructor catches [ValueError] only. *)
Theorem snapshot_without_start_url_is_fatal :
  forall (raw : string) (d page_items : pydict) (pages : list (string * PageRecord.t)),
    fs !! ScraperSettings.state_path settings = Some raw ->
    Py.is_empty (Py.strip raw) = false ->
    json_loads E raw = Some (JObj d) ->
    items (get_default "pages" (JObj []) d) = Ok page_items ->
    CrawlState.decode_values PageRecord.from_dict page_items = Ok pages ->
    dict_get "start_url" d = None ->
    CrawlState.load (json_loads E) (ScraperSettings.state_path settings) fs
    = Raise (KeyError "start_url")
    /\ init E start_url max_depth settings concurrency include_patterns
         exclude_patterns respect_robots same_domain_only true
         download_concurrency target_extensions now fs
       = Raise (KeyError "start_url").
Proof.
  intros raw d page_items pages Hfs Hraw Hloads Hitems Hpages Hkey.
  assert (Hload : CrawlState.load (json_loads E) (ScraperSettings.state_path settings) fs
                  = Raise (KeyError "start_url")).
  { unfold CrawlState.load. rewrite Hfs, Hraw, Hloads.
    unfold CrawlState.of_payload. cbn [as_payload bind].
    rewrite Hitems. cbn [bind]. rewrite Hpages. cbn [bind].
    unfold getitem. by rewrite Hkey. }
  split; [done|].
  unfold init. rewrite Hfs, Hload.
  rewrite bool_decide_eq_true_2 by (by eexists). done.
Qed.

End StateFile.

Lemma state_file_not_an_object_is_fatal_witness :
  FileCrawler.init Demo.E "http://a.com/" 2 Demo.settings 4 None None true true
    false None None "2024-01-01T00:00:00.000000Z"
    {[ "crawl_state.json" := "[]" ]}
  = Raise (AttributeError "get").
Proof.
  apply (state_file_not_an_object_is_fatal Demo.E "http://a.com/" 2 Demo.settings 4
           None None true true None None "2024-01-01T00:00:00.000000Z"
           {[ "crawl_state.json" := "[]" ]} "[]" (Json.JArr []) false).
  - vm_compute. reflexivity.
  - vm_compute. reflexivity.
  - intros d. discriminate.
Defined.

Lemma snapshot_without_start_url_is_fatal_witness :
  FileCrawler.init Demo.E "http://a.com/" 2 Demo.settings 4 None None true true
    true None None "2024-01-01T00:00:00.000000Z"
    {[ "crawl_state.json" := "{}" ]}
  = Raise (KeyError "start_url").
Proof.
  refine (proj2 (snapshot_without_start_url_is_fatal Demo.E "http://a.com/" 2
                   Demo.settings 4 None None true true None None
                   "2024-01-01T00:00:00.000000Z"
                   {[ "crawl_state.json" := "{}" ]} "{}" [] [] [] _ _ _ _ _ _));
    vm_compute; reflexivity.
Defined.

(** ** Resuming and starting over *)

Section Resume.
Import Json FileCrawler.
Context {policy : Type}.
Variable E : env policy.
Variables (start_url : string) (max_depth : Z) (settings : ScraperSettings.t).
Variables (concurrency : Z) (include_patterns exclude_patterns : option (list string)).
Variables (respect_robots same_domain_only : bool).
Variables (download_concurrency : option Z) (target_extensions : option (list string)).
Variables (now : string) (fs : gmap string string).




End Resume.



From Stdlib Require Import Sorted.
From Stdlib Require OrdersEx.

(** ** The extensions the engine looks for *)

Section Extensions.
Import FileCrawler.

Lemma lower_char_idem (c : ascii) : Py.lower_char (Py.lower_char c) = Py.lower_char c.
Proof. destruct c as [[] [] [] [] [] [] [] []]; vm_compute; reflexivity. Qed.

Lemma lower_idem (s : string) : Py.lower (Py.lower s) = Py.lower s.
Proof. induction s as [|c s IH]; [done|]. simpl. by rewrite lower_char_idem, IH. Qed.

Lemma lower_lstrip (p : ascii -> bool) (s : string) :
  Py.lower s = s -> Py.lower (Py.lstrip_by p s) = Py.lstrip_by p s.
Proof.
  induction s as [|c s IH]; [done|]. simpl. intros [= Hc Hs].
  destruct (p c); [by apply IH|]. simpl. by rewrite Hc, Hs.
Qed.

Lemma lower_rstrip (p : ascii -> bool) (s : string) :
  Py.lower s = s -> Py.lower (Py.rstrip_by p s) = Py.rstrip_by p s.
Proof.
  induction s as [|c s IH]; [done|]. simpl. intros [= Hc Hs].
  specialize (IH Hs). destruct (Py.rstrip_by p s) as [|c' r'] eqn:Hr.
  - destruct (p c); [done|]. simpl. by rewrite Hc.
  - cbn [Py.lower]. rewrite Hc. f_equal. exact IH.
Qed.

Lemma rstrip_idem (p : ascii -> bool) (s : string) :
  Py.rstrip_by p (Py.rstrip_by p s) = Py.rstrip_by p s.
Proof.
  induction s as [|c s IH]; [done|]. simpl.
  destruct (Py.rstrip_by p s) as [|c' r'] eqn:Hr.
  - destruct (p c) eqn:Hc; [done|]. simpl. by rewrite Hc.
  - cbn [Py.rstrip_by] in *. rewrite IH. done.
Qed.

(** [rstrip] keeps the first character of what it does not erase. *)
Lemma rstrip_head (p : ascii -> bool) (c : ascii) (s : string) :
  p c = false -> exists r, Py.rstrip_by p (String c s) = String c r.
Proof.
  intros Hc. simpl. destruct (Py.rstrip_by p s); rewrite ?Hc; by eexists.
Qed.

Lemma lstrip_head (p : ascii -> bool) (s : string) :
  match Py.lstrip_by p s with
  | EmptyString => True
  | String c _ => p c = false
  end.
Proof.
  induction s as [|c s IH]; [done|]. simpl. destruct (p c) eqn:Hc; [done|].
  simpl. done.
Qed.

Lemma strip_idem (s : string) : Py.strip (Py.strip s) = Py.strip s.
Proof.
  unfold Py.strip. pose proof (lstrip_head Py.isspace s) as Hh.
  destruct (Py.lstrip_by Py.isspace s) as [|c r] eqn:Hl; [done|].
  destruct (rstrip_head Py.isspace c r Hh) as [r' Hr'].
  rewrite Hr'. cbn [Py.lstrip_by]. rewrite Hh, <- Hr'. apply rstrip_idem.
Qed.

(** An extension in the form the engine keeps. *)
Definition canonical (e : string) : Prop :=
  Py.startswith "." e = true /\ Py.lower e = e /\ Py.strip e = e.

Lemma startswith_dot (e : string) :
  Py.startswith "." e = true -> exists r, e = String "."%char r.
Proof.
  unfold Py.startswith. destruct e as [|c r]; [done|]. cbn [String.prefix].
  destruct (Ascii.ascii_dec "." c) as [<-|]; [by eexists | done].
Qed.

Lemma clean_extension_canonical (x e : string) :
  clean_extension x = Some e -> canonical e.
Proof.
  unfold clean_extension. destruct (Py.is_empty x); [done|].
  set (c := Py.strip (Py.lower x)).
  assert (Hlow : Py.lower c = c).
  { subst c. unfold Py.strip. apply lower_rstrip, lower_lstrip, lower_idem. }
  assert (Hstrip : Py.strip c = c) by apply strip_idem.
  clearbody c.
  destruct (Py.is_empty c) eqn:Hne; [done|].
  destruct (Py.startswith "." c) eqn:Hdot; intros [= <-];
    [exact (conj Hdot (conj Hlow Hstrip))|].
  split; [by destruct c|]. split.
  - change ("." +:+ c) with (String "."%char c). cbn [Py.lower].
    by rewrite Hlow.
  - change ("." +:+ c) with (String "."%char c).
    unfold Py.strip. cbn [Py.lstrip_by].
    change (Py.isspace "."%char) with false. cbv iota.
    cbn [Py.rstrip_by].
    assert (Hr : Py.rstrip_by Py.isspace c = c).
    { rewrite <- Hstrip at 1. unfold Py.strip. by rewrite rstrip_idem. }
    rewrite Hr. by destruct c.
Qed.

Lemma canonical_clean (e : string) : canonical e -> clean_extension e = Some e.
Proof.
  intros (Hdot & Hlow & Hstrip). unfold clean_extension.
  destruct (startswith_dot e Hdot) as [r ->]. cbn [Py.is_empty].
  rewrite Hlow, Hstrip. cbn [Py.is_empty]. by rewrite Hdot.
Qed.

Abbreviation ascending := (StronglySorted (fun a b : string => String.compare a b = Lt)).

Lemma compare_lt_trans (a b c : string) :
  String.compare a b = Lt -> String.compare b c = Lt -> String.compare a c = Lt.
Proof.
  exact (@RelationClasses.StrictOrder_Transitive _ _
           OrdersEx.String_as_OT.lt_strorder a b c).
Qed.

Lemma insert_sorted_elem (x y : string) (l : list string) :
  y ∈ insert_sorted x l <-> y = x \/ y ∈ l.
Proof.
  induction l as [|z r IH]; simpl; [set_solver|].
  destruct (String.compare x z) eqn:Hc.
  - apply String.compare_eq_iff in Hc. subst. set_solver.
  - set_solver.
  - rewrite elem_of_cons, IH. set_solver.
Qed.

Lemma insert_sorted_ascending (x : string) (l : list string) :
  ascending l -> ascending (insert_sorted x l).
Proof.
  induction 1 as [|z r Hr IH Hz]; simpl; [by repeat constructor|].
  destruct (String.compare x z) eqn:Hc.
  - by constructor.
  - constructor; [by constructor|]. constructor; [done|].
    eapply Forall_impl; [exact Hz|]. intros y Hy. by eapply compare_lt_trans.
  - constructor; [done|]. apply Forall_forall. intros y Hy.
    apply insert_sorted_elem in Hy as [->|Hy].
    + rewrite String.compare_antisym, Hc. done.
    + by eapply Forall_forall in Hz.
Qed.

Lemma sorted_set_ascending (l : list string) : ascending (sorted_set l).
Proof.
  induction l as [|x l IH]; simpl; [constructor | by apply insert_sorted_ascending].
Qed.

Lemma sorted_set_elem (y : string) (l : list string) : y ∈ sorted_set l <-> y ∈ l.
Proof.
  induction l as [|x l IH]; simpl; [done|].
  rewrite insert_sorted_elem, IH. set_solver.
Qed.

Lemma sorted_set_fixed (l : list string) : ascending l -> sorted_set l = l.
Proof.
  induction 1 as [|z r Hr IH Hz]; [done|]. simpl. rewrite IH.
  destruct r as [|y r']; [done|]. simpl.
  apply Forall_cons in Hz as [Hy _]. by rewrite Hy.
Qed.

Lemma omap_fixed {A : Type} (f : A -> option A) (l : list A) :
  Forall (fun x => f x = Some x) l -> omap f l = l.
Proof.
  induction 1 as [|x l Hx Hl IH]; [done|]. cbn [omap list_omap]. rewrite Hx.
  f_equal. exact IH.
Qed.

(** X14: [_prepare_extensions] returns a canonical set of extensions.
    Whatever it is given, the result is not empty, is in strictly
    ascending order (so without duplicates), holds only lower-case,
    stripped entries that start with a dot, namely the cleaned entries of
    the input or [.pdf] alone when there is none, and is left unchanged
    when it is prepared again, as happens when a snapshot is resumed. *)
Theorem prepare_extensions_is_canonical :
  forall (raw : list string),
    let exts := _prepare_extensions raw in
    exts <> []
    /\ StronglySorted (fun a b : string => String.compare a b = Lt) exts
    /\ (forall e, e ∈ exts ->
          Py.startswith "." e = true /\ Py.lower e = e /\ Py.strip e = e)
    /\ (forall e, e ∈ exts <->
          e ∈ omap clean_extension raw
          \/ (omap clean_extension raw = [] /\ e = ".pdf"))
    /\ _prepare_extensions exts = exts.
Proof.
  intros raw exts.
  assert (Hmem : forall e, e ∈ exts <->
            e ∈ omap clean_extension raw
            \/ (omap clean_extension raw = [] /\ e = ".pdf")).
  { intros e. subst exts. unfold _prepare_extensions.
    rewrite sorted_set_elem. destruct (omap clean_extension raw) as [|x r].
    - rewrite list_elem_of_singleton. split; [by right | by intros [H|[_ H]]; [by apply elem_of_nil in H|]].
    - split; [by left | by intros [H|[H _]]]. }
  assert (Hcanon : forall e, e ∈ exts -> canonical e).
  { intros e He. apply Hmem in He as [He | [_ ->]]; [|by vm_compute].
    apply list_elem_of_omap in He as (x & _ & Hx).
    by eapply clean_extension_canonical. }
  assert (Hasc : ascending exts) by apply sorted_set_ascending.
  assert (Hne : exts <> []).
  { intros Hnil. eapply prepare_extensions_nonempty. exact Hnil. }
  split; [exact Hne|]. split; [exact Hasc|]. split; [exact Hcanon|].
  split; [exact Hmem|].
  unfold _prepare_extensions at 1.
  rewrite (omap_fixed clean_extension exts).
  - destruct exts as [|x r] eqn:He; [done|]. by apply sorted_set_fixed.
  - apply Forall_forall. intros e He. by apply canonical_clean, Hcanon.
Qed.

End Extensions.

(** ** The extension of a URL *)

Section LongestExtension.

Abbreviation longest_first :=
  (StronglySorted (fun a b : string => (String.length b <= String.length a)%nat)).

Lemma insert_by_len_elem (x y : string) (l : list string) :
  y ∈ Utils.insert_by_len x l <-> y = x \/ y ∈ l.
Proof.
  induction l as [|z r IH]; simpl; [set_solver|].
  destruct (String.length z <? String.length x)%nat; [set_solver|].
  rewrite elem_of_cons, IH. set_solver.
Qed.

Lemma insert_by_len_sorted (x : string) (l : list string) :
  longest_first l -> longest_first (Utils.insert_by_len x l).
Proof.
  induction 1 as [|z r Hr IH Hz]; simpl; [by repeat constructor|].
  destruct (String.length z <? String.length x)%nat eqn:Hlen.
  - apply Nat.ltb_lt in Hlen. constructor; [by constructor|].
    constructor; [lia|]. eapply Forall_impl; [exact Hz|]. simpl. lia.
  - apply Nat.ltb_ge in Hlen. constructor; [done|].
    apply Forall_forall. intros y Hy.
    apply insert_by_len_elem in Hy as [->|Hy]; [done|].
    by eapply Forall_forall in Hz.
Qed.

Lemma sort_by_len_desc_spec (l : list string) :
  longest_first (Utils.sort_by_len_desc l)
  /\ forall y, y ∈ Utils.sort_by_len_desc l <-> y ∈ l.
Proof.
  unfold Utils.sort_by_len_desc.
  assert (H : forall acc, longest_first acc ->
            longest_first (fold_left (fun acc x => Utils.insert_by_len x acc) l acc)
            /\ forall y, y ∈ fold_left (fun acc x => Utils.insert_by_len x acc) l acc
                         <-> y ∈ acc \/ y ∈ l).
  { induction l as [|x l IH]; intros acc Hacc; simpl; [set_solver|].
    destruct (IH _ (insert_by_len_sorted x acc Hacc)) as [Hs Hm].
    split; [done|]. intros y. rewrite Hm, insert_by_len_elem. set_solver. }
  destruct (H [] ltac:(constructor)) as [Hs Hm]. split; [done|].
  intros y. rewrite Hm. set_solver.
Qed.

(** The first hit of a search through a list sorted longest first is a
    longest hit. *)
Lemma find_longest (f : string -> bool) (l : list string) :
  longest_first l ->
  match List.find f l with
  | Some x =>
      x ∈ l /\ f x = true
      /\ forall y, y ∈ l -> f y = true -> (String.length y <= String.length x)%nat
  | None => forall y, y ∈ l -> f y = false
  end.
Proof.
  induction 1 as [|z r Hr IH Hz]; simpl.
  - intros y Hy. by apply elem_of_nil in Hy.
  - destruct (f z) eqn:Hfz.
    + split; [apply list_elem_of_here|]. split; [done|].
      intros y Hy _. apply elem_of_cons in Hy as [->|Hy]; [done|].
      by eapply Forall_forall in Hz.
    + destruct (List.find f r) as [x|].
      * destruct IH as (Hx & Hfx & Hmax). split; [by apply list_elem_of_further|].
        split; [done|]. intros y Hy Hfy.
        apply elem_of_cons in Hy as [->|Hy]; [congruence | by apply Hmax].
      * intros y Hy. apply elem_of_cons in Hy as [->|Hy]; [done | by apply IH].
Qed.

Variable chk : Urllib.netloc_checks.

(** X15: [match_extension] returns a longest one of the given
    extensions that end the path of the URL, both taken in lower case, and
    [None] when no non-empty extension ends the path. *)
Theorem match_extension_returns_longest_match :
  forall (url : string) (extensions : list string) (parsed : Urllib.ParseResult),
    Urllib.urlparse chk url EmptyString = Ok parsed ->
    let path := Py.lower (Urllib.path parsed) in
    let offered e :=
      exists ext, ext ∈ extensions /\ ext <> EmptyString /\ e = Py.lower ext in
    match Utils.match_extension chk url extensions with
    | Ok (Some e) =>
        offered e /\ Py.endswith e path = true
        /\ forall e', offered e' -> Py.endswith e' path = true ->
                      (String.length e' <= String.length e)%nat
    | Ok None => forall e, offered e -> Py.endswith e path = false
    | Raise _ => False
    end.
Proof.
  intros url extensions parsed Hp path offered.
  unfold Utils.match_extension. rewrite Hp. cbn [bind].
  fold path.
  set (normalized := map Py.lower (filter _ extensions)).
  assert (Hoff : forall e, offered e <-> e ∈ normalized).
  { intros e. subst normalized offered. cbv beta.
    rewrite list_elem_of_fmap. split.
    - intros (ext & Hin & Hne & ->). exists ext. split; [done|].
      apply list_elem_of_filter. split; [|done]. by destruct ext.
    - intros (ext & -> & Hin). apply list_elem_of_filter in Hin as [Hne Hin].
      exists ext. split; [done|]. split; [|done]. by intros ->. }
  destruct (sort_by_len_desc_spec (remove_dups normalized)) as [Hsorted Hmem].
  pose proof (find_longest (fun ext => Py.endswith ext path) _ Hsorted) as Hfind.
  assert (Hmem' : forall e, e ∈ Utils.sort_by_len_desc (remove_dups normalized)
                            <-> offered e).
  { intros e. by rewrite Hmem, elem_of_remove_dups, Hoff. }
  destruct (List.find _ _) as [e|].
  - destruct Hfind as (He & Hends & Hmax). split; [by apply Hmem'|].
    split; [done|]. intros e' He' Hends'. apply Hmax; [by apply Hmem' | done].
  - intros e He. apply Hfind. by apply Hmem'.
Qed.

End LongestExtension.

Lemma match_extension_returns_longest_match_witness :
  let url := "http://a.com/files/Data.TAR.GZ?v=1.zip" in
  let extensions := [".gz"; ""; ".tar.gz"; ".zip"] in
  let parsed := Urllib.mkParse "http" "a.com" "/files/Data.TAR.GZ" "" "v=1.zip" "" in
  Urllib.urlparse Demo.ok_checks url EmptyString = Ok parsed
  /\ match Utils.match_extension Demo.ok_checks url extensions with
     | Ok (Some e) =>
         (exists ext, ext ∈ extensions /\ ext <> EmptyString /\ e = Py.lower ext)
         /\ Py.endswith e (Py.lower (Urllib.path parsed)) = true
         /\ forall e',
              (exists ext, ext ∈ extensions /\ ext <> EmptyString /\ e' = Py.lower ext) ->
              Py.endswith e' (Py.lower (Urllib.path parsed)) = true ->
              (String.length e' <= String.length e)%nat
     | Ok None =>
         forall e,
           (exists ext, ext ∈ extensions /\ ext <> EmptyString /\ e = Py.lower ext) ->
           Py.endswith e (Py.lower (Urllib.path parsed)) = false
     | Raise _ => False
     end.
Proof.
  intros url extensions parsed.
  assert (Hp : Urllib.urlparse Demo.ok_checks url EmptyString = Ok parsed)
    by (vm_compute; reflexivity).
  split; [exact Hp|].
  exact (match_extension_returns_longest_match Demo.ok_checks url extensions parsed Hp).
Defined.

(** ** What [normalize_url] returns *)

Section HttpOnly.

Lemma append_cons (d : ascii) (a s : string) :
  String d a +:+ s = String d (a +:+ s).
Proof. reflexivity. Qed.

Lemma append_assoc (a b c : string) : (a +:+ b) +:+ c = a +:+ (b +:+ c).
Proof. induction a as [|d a IH]; [done|]. by rewrite !append_cons, IH. Qed.

Lemma prefix_app (p s : string) : String.prefix p (p +:+ s) = true.
Proof.
  induction p as [|c p IH]; [by destruct s|].
  change (String.prefix (String c p) (String c p +:+ s))
    with (if Ascii.ascii_dec c c then String.prefix p (p +:+ s) else false).
  destruct (Ascii.ascii_dec c c); [exact IH | done].
Qed.

(** [rstrip] does not reach behind a character it keeps. *)
Lemma rstrip_keeps_prefix (p : ascii -> bool) (a : string) (c : ascii) (s : string) :
  p c = false ->
  exists s', Py.rstrip_by p (a +:+ String c s) = a +:+ String c s'.
Proof.
  intros Hc. induction a as [|d a IH]; [by apply rstrip_head|].
  destruct IH as [s' IH]. exists s'.
  change (String d a +:+ String c s) with (String d (a +:+ String c s)).
  change (String d a +:+ String c s') with (String d (a +:+ String c s')).
  cbn [Py.rstrip_by]. rewrite IH. by destruct a.
Qed.

Lemma startswith_rstrip (p : ascii -> bool) (a : string) (c : ascii) (s : string) :
  p c = false ->
  Py.startswith (a +:+ String c EmptyString)
    (Py.rstrip_by p ((a +:+ String c EmptyString) +:+ s)) = true.
Proof.
  intros Hc.
  assert (Happ : forall t, (a +:+ String c EmptyString) +:+ t = a +:+ String c t).
  { intros t. by rewrite append_assoc. }
  rewrite Happ. destruct (rstrip_keeps_prefix p a c s Hc) as [s' ->].
  rewrite <- (Happ s'). apply prefix_app.
Qed.

Lemma urlunsplit_scheme (scheme netloc url query : string) :
  scheme <> EmptyString ->
  exists tail,
    Urllib.urlunsplit scheme netloc url query EmptyString = (scheme +:+ ":") +:+ tail.
Proof.
  intros Hne. unfold Urllib.urlunsplit. destruct scheme as [|c r]; [done|].
  cbn [Py.is_empty].
  destruct (Py.is_empty query); eexists; rewrite ?append_assoc; reflexivity.
Qed.

Variable chk : Urllib.netloc_checks.

(** X16: [normalize_url] returns web URLs only. A URL it returns starts
    with [http:] or [https:] and holds no [#]; it returns one only for a
    non-empty href that, once stripped, starts with neither [mailto:] nor
    [javascript:]. *)
Theorem normalize_url_yields_http_urls :
  forall (base href u : string),
    Utils.normalize_url chk base href = Ok (Some u) ->
    (Py.startswith "http:" u = true \/ Py.startswith "https:" u = true)
    /\ lacks "#" u
    /\ href <> EmptyString
    /\ Py.startswith "mailto:" (Py.strip href) = false
    /\ Py.startswith "javascript:" (Py.strip href) = false.
Proof.
  intros base href u Hu.
  split; [|split; [by eapply normalize_url_strips_fragment|]].
  - revert Hu. unfold Utils.normalize_url.
    destruct (Py.is_empty href); [done|].
    destruct (_ || _); [done|].
    destruct (Urllib.urljoin chk base (Py.strip href)) as [joined|e]; [|done].
    cbn [bind].
    destruct (Urllib.urlparse chk joined EmptyString) as [p|e]; [|done]. cbn [bind].
    destruct (negb _) eqn:Hs; [done|]. apply negb_false_iff in Hs.
    assert (Hscheme : Urllib.scheme p = "http" \/ Urllib.scheme p = "https").
    { unfold Urllib.in_list in Hs. cbn in Hs.
      destruct (String.eqb_spec (Urllib.scheme p) "http") as [->|_]; [by left|].
      destruct (String.eqb_spec (Urllib.scheme p) "https") as [->|_]; [by right|].
      done. }
    unfold Urllib.urlunparse.
    cbn [Urllib.scheme Urllib.netloc Urllib.path Urllib.params Urllib.query
         Urllib.fragment].
    set (pth := if Py.is_empty (Urllib.params p) then _ else _).
    intros [= <-].
    destruct Hscheme as [-> | ->]; [left | right].
    + destruct (urlunsplit_scheme "http" (Urllib.netloc p) pth (Urllib.query p))
        as [tail ->]; [done|].
      destruct (negb (Urllib.path p =? "/")%string); [|apply prefix_app].
      apply (startswith_rstrip (fun c => Ascii.eqb c "/") "http" ":" tail). done.
    + destruct (urlunsplit_scheme "https" (Urllib.netloc p) pth (Urllib.query p))
        as [tail ->]; [done|].
      destruct (negb (Urllib.path p =? "/")%string); [|apply prefix_app].
      apply (startswith_rstrip (fun c => Ascii.eqb c "/") "https" ":" tail). done.
  - revert Hu. unfold Utils.normalize_url.
    destruct href as [|c r]; [done|]. cbn [Py.is_empty].
    destruct (Py.startswith "mailto:" _); [done|].
    destruct (Py.startswith "javascript:" _); [done|]. done.
Qed.

End HttpOnly.

Lemma normalize_url_yields_http_urls_witness :
  Utils.normalize_url Demo.ok_checks "https://a.com/docs/" "../f.pdf#page=2"
  = Ok (Some "https://a.com/f.pdf")
  /\ (Py.startswith "http:" "https://a.com/f.pdf" = true
      \/ Py.startswith "https:" "https://a.com/f.pdf" = true).
Proof.
  assert (H : Utils.normalize_url Demo.ok_checks "https://a.com/docs/" "../f.pdf#page=2"
              = Ok (Some "https://a.com/f.pdf")) by (vm_compute; reflexivity).
  split; [exact H|].
  exact (proj1 (normalize_url_yields_http_urls Demo.ok_checks "https://a.com/docs/"
                  "../f.pdf#page=2" "https://a.com/f.pdf" H)).
Defined.

(** ** Page records are only ever extended *)

Section Growth.
Import Json FileCrawler.
Context {policy : Type}.
Variable E : env policy.

(** [p'] is a later version of the record [p]. *)
Definition extends (p p' : PageRecord.t) : Prop :=
  PageRecord.url p' = PageRecord.url p
  /\ (PageRecord.depth p' <= PageRecord.depth p)%Z
  /\ PageRecord.errors p `prefix_of` PageRecord.errors p'
  /\ PageRecord.referrers p `prefix_of` PageRecord.referrers p'
  /\ map asset_key (PageRecord.assets p) `prefix_of` map asset_key (PageRecord.assets p').

Definition pages_extend (c c' : t policy) : Prop :=
  forall url p, CrawlState.pages (state c) !! url = Some p ->
    exists p', CrawlState.pages (state c') !! url = Some p' /\ extends p p'.

Lemma extends_refl (p : PageRecord.t) : extends p p.
Proof. by repeat split. Qed.

Lemma extends_trans (p q r : PageRecord.t) : extends p q -> extends q r -> extends p r.
Proof.
  intros (H1 & H2 & H3 & H4 & H5) (G1 & G2 & G3 & G4 & G5).
  split; [congruence|]. split; [lia|].
  split; [by etrans|]. split; by etrans.
Qed.

Lemma pages_extend_same (c c' : t policy) :
  CrawlState.pages (state c') = CrawlState.pages (state c) -> pages_extend c c'.
Proof. intros Heq url p Hp. exists p. rewrite Heq. split; [done | apply extends_refl]. Qed.

Lemma pages_extend_trans (c1 c2 c3 : t policy) :
  pages_extend c1 c2 -> pages_extend c2 c3 -> pages_extend c1 c3.
Proof.
  intros H12 H23 url p Hp. destruct (H12 url p Hp) as (q & Hq & Hpq).
  destruct (H23 url q Hq) as (r & Hr & Hqr). exists r. split; [done|].
  by eapply extends_trans.
Qed.

(** Storing a later version of a record, or a first one. *)
Lemma pages_extend_insert (c c' : t policy) (url : string) (p' : PageRecord.t) :
  CrawlState.pages (state c') = <[url := p']> (CrawlState.pages (state c)) ->
  (forall p, CrawlState.pages (state c) !! url = Some p -> extends p p') ->
  pages_extend c c'.
Proof.
  intros Heq Hp' u p Hp. rewrite Heq. destruct (decide (url = u)) as [->|Hne].
  - exists p'. rewrite lookup_insert_eq. split; [done | by apply Hp'].
  - exists p. rewrite lookup_insert_ne by done. split; [done | apply extends_refl].
Qed.

Lemma attach_extends (page asset_url path : string)
    (asset_type extension : option string) (reused : bool) (now : string)
    (c : t policy) :
  pages_extend c (fst (_attach_asset_to_page page asset_url path asset_type
                         extension reused now c)).
Proof.
  unfold _attach_asset_to_page.
  destruct (CrawlState.pages (state c) !! page) as [p|] eqn:Hp;
    [|by apply pages_extend_same].
  destruct (mark_existing asset_url path reused (PageRecord.assets p)) as [l|] eqn:Hm.
  - eapply (pages_extend_insert c _ page (PageRecord.with_assets l p)); [reflexivity|].
    intros q Hq. rewrite Hp in Hq. injection Hq as <-.
    destruct (mark_existing_keys _ _ _ _ _ Hm) as (Hk & _ & _).
    repeat split; try done. simpl. by rewrite Hk.
  - unfold CrawlState.register_asset.
    destruct (CrawlState.register_entry _ _ _ _ _ _ _ _);
      (eapply (pages_extend_insert c _ page); [reflexivity|];
       intros q Hq; rewrite Hp in Hq; injection Hq as <-;
       repeat split; try done; simpl; rewrite map_app; by apply prefix_app_r).
Qed.

Lemma add_page_error_extends (page msg : string) (c : t policy) :
  pages_extend c (add_page_error page msg c).
Proof.
  unfold add_page_error.
  destruct (CrawlState.pages (state c) !! page) as [p|] eqn:Hp;
    [|by apply pages_extend_same].
  eapply (pages_extend_insert c _ page); [reflexivity|].
  intros q Hq. rewrite Hp in Hq. injection Hq as <-.
  repeat split; try done. simpl. by apply prefix_app_r.
Qed.

Lemma page_extends (url : string) (depth : Z) (c : t policy) :
  pages_extend c (with_state (snd (CrawlState.page url depth (state c))) c).
Proof.
  unfold CrawlState.page. cbn [snd].
  eapply (pages_extend_insert c _ url); [reflexivity|].
  intros p Hp. rewrite Hp.
  destruct (backfill_spec (default [] (CrawlState.referrers (state c) !! url))
              (PageRecord.referrers
                 (PageRecord.with_depth (Z.min (PageRecord.depth p) depth) p)))
    as (added & Hb & _).
  repeat split; try done.
  - simpl. lia.
  - cbn [PageRecord.with_referrers PageRecord.referrers] in *. rewrite Hb.
    by apply prefix_app_r.
Qed.

Lemma record_referrer_extends (url referrer : string) (c : t policy) :
  pages_extend c (with_state (CrawlState.record_referrer url referrer (state c)) c).
Proof.
  unfold CrawlState.record_referrer.
  destruct (Py.is_empty referrer); [by apply pages_extend_same; destruct c|].
  cbn [CrawlState.pages CrawlState.with_referrers].
  destruct (CrawlState.pages (state c) !! url) as [p|] eqn:Hp;
    [|by apply pages_extend_same].
  eapply (pages_extend_insert c _ url); [reflexivity|].
  intros q Hq. rewrite Hp in Hq. injection Hq as <-.
  repeat split; try done. simpl.
  destruct (append_new_cases referrer (PageRecord.referrers p)) as [[_ ->] | [_ ->]];
    [done | by apply prefix_app_r].
Qed.

Lemma download_done_extends (future : nat) (w : world policy) :
  pages_extend (crawler w) (crawler (_download_done E future w)).
Proof.
  apply pages_extend_same. unfold _download_done. simpl.
  try done; by destruct (filter _ _).
Qed.

Lemma sched_step_extends (th : sched_thread) (w : world policy) :
  pages_extend (crawler w) (crawler (snd (sched_step E th w))).
Proof.
  pose proof (pages_extend_same (crawler w) (crawler w) eq_refl) as Hw.
  unfold sched_step.
  destruct (s_pc th) as [|entry| | |fut|fut| |e]; try done.
  - destruct (CrawlState.pages _ !! _); [|done].
    destruct (has_asset _ _); [done|].
    destruct (CrawlState.asset_cache _ !! _) as [[|f fl]|]; try done.
    destruct (dict_get "path" (f :: fl)) as [[]|]; try done.
    by destruct (bool_decide _).
  - destruct (get_default _ _ _); try done.
    destruct (negb _); [done|].
    destruct (as_opt_str "type" _); [|done].
    destruct (as_opt_str "extension" _); [|done].
    pose proof (attach_extends (c_page (s_call th)) (c_asset_url (s_call th)) s a a0
                  true (clock E (time w)) (crawler w)) as Hv.
    destruct (_attach_asset_to_page _ _ _ _ _ _ _ _) as [c' e]. exact Hv.
  - destruct (CrawlState.pages _ !! _); [|done].
    destruct (Urllib.in_list _ _); [done|].
    destruct (bool_decide _); [done|].
    by destruct (has_asset _ _).
  - by destruct (download_pool _).
  - destruct (tasks w !! fut) as [t0|]; [|done].
    destruct (d_pc t0); try done.
Qed.

Lemma download_step_extends (future : nat) (t0 : dl_task) (w : world policy) :
  pages_extend (crawler w) (crawler (snd (download_step E future t0 w))).
Proof.
  pose proof (pages_extend_same (crawler w) (crawler w) eq_refl) as Hw.
  unfold download_step.
  destruct (d_pc t0) as [|tg|tg at' ext|tg at' ext|tg at' ext ws|tg msg|tg msg
                         |tg msg ws|tg| |]; try done.
  - destruct (http_get E _); [|done]. by destruct (Py.contains _ _).
  - pose proof (attach_extends (c_page (d_call t0)) (c_asset_url (d_call t0)) tg at'
                  (Some ext) false (clock E (time w)) (crawler w)) as Hv.
    destruct (_attach_asset_to_page _ _ _ _ _ _ _ _) as [c' e]. exact Hv.
  - destruct ws as [|waiter rest]; [done|].
    pose proof (attach_extends waiter (c_asset_url (d_call t0)) tg at'
                  (Some ext) true (clock E (time w)) (crawler w)) as Hv.
    destruct (_attach_asset_to_page _ _ _ _ _ _ _ _) as [c' e]. exact Hv.
  - simpl.
    apply (pages_extend_trans _
             (add_page_error (c_page (d_call t0)) ("download-error: " +:+ msg)
                (crawler w))); [apply add_page_error_extends|].
    by apply pages_extend_same.
  - destruct ws as [|waiter rest]; [done|]. simpl. apply add_page_error_extends.
  - destruct (d_callback t0); [|done]. apply download_done_extends.
Qed.

Lemma step_extends (l : label) (w : world policy) :
  pages_extend (crawler w) (crawler (step E l w)).
Proof.
  pose proof (pages_extend_same (crawler w) (crawler w) eq_refl) as Hw.
  destruct l; cbn [step]; try done.
  - destruct (task w); [done|].
    unfold loop_dequeue, CrawlState.dequeue.
    by destruct (CrawlState.frontier (state (crawler w))).
  - destruct (task w) as [tk|]; [|done]. simpl.
    unfold loop_mark. by destruct (bool_decide _).
  - pose proof (page_extends url depth (crawler w)) as Hp.
    destruct (CrawlState.page url depth (state (crawler w))) as [r st].
    cbn [snd] in Hp. cbn [crawler with_crawler].
    eapply pages_extend_trans; [exact Hp | apply add_page_error_extends].
  - pose proof (page_extends url depth (crawler w)) as Hp.
    destruct (CrawlState.page url depth (state (crawler w))) as [r st] eqn:Hpage.
    cbn [snd] in Hp. cbn [crawler with_crawler].
    eapply pages_extend_trans; [exact Hp|].
    eapply (pages_extend_insert (with_state st (crawler w)) _ url); [reflexivity|].
    assert (Hst : CrawlState.pages st !! url = Some r).
    { unfold CrawlState.page in Hpage. injection Hpage as <- <-.
      simpl. by rewrite lookup_insert_eq. }
    cbn [state with_state]. rewrite Hst. intros q [= <-]. by repeat split.
  - destruct (consider E base_url url_value lab (crawler w) acc) as [[c' acc']|e] eqn:Hc;
      [|done].
    cbn [crawler with_crawler]. apply pages_extend_same.
    by apply consider_pages in Hc.
  - cbn [crawler with_crawler]. unfold _enqueue_page.
    pose proof (record_referrer_extends url parent_url (crawler w)) as Hr.
    destruct (_ || _); [done|].
    eapply pages_extend_trans; [exact Hr|]. by apply pages_extend_same.
  - destruct (scheds w !! thread) as [th|]; [|done].
    pose proof (sched_step_extends th w) as Hv.
    by destruct (sched_step E th w) as [pc w'].
  - destruct (tasks w !! future) as [t0|]; [|done].
    pose proof (download_step_extends future t0 w) as Hv.
    by destruct (download_step E future t0 w) as [pc w'].
Qed.

(** X17: a page record is never removed and only ever extended. Once a
    record is stored for a URL, every later state of the engine, whatever
    the threads did in between, stores a record for that URL, with the
    same [url], a depth that is not greater, and errors, referrers and
    attachments (by URL and path) that continue the earlier lists. *)
Theorem page_records_only_grow :
  forall (w : world policy) (schedule : list label) (url : string) (p : PageRecord.t),
    CrawlState.pages (state (crawler w)) !! url = Some p ->
    exists p',
      CrawlState.pages (state (crawler (exec E schedule w))) !! url = Some p'
      /\ PageRecord.url p' = PageRecord.url p
      /\ (PageRecord.depth p' <= PageRecord.depth p)%Z
      /\ PageRecord.errors p `prefix_of` PageRecord.errors p'
      /\ PageRecord.referrers p `prefix_of` PageRecord.referrers p'
      /\ map asset_key (PageRecord.assets p)
         `prefix_of` map asset_key (PageRecord.assets p').
Proof.
  intros w schedule. revert w.
  induction schedule as [|l ls IH]; intros w url p Hp.
  - exists p. split; [done|]. apply extends_refl.
  - destruct (step_extends l w url p Hp) as (q & Hq & Hpq).
    destruct (IH (step E l w) url q Hq) as (r & Hr & Hqr).
    exists r. split; [exact Hr|]. by eapply extends_trans.
Qed.

End Growth.

Lemma page_records_only_grow_witness :
  match discovered_crawler with
  | Ok c =>
      exists p p',
        CrawlState.pages (FileCrawler.state c) !! Race.page1 = Some p
        /\ CrawlState.pages
             (FileCrawler.state
                (FileCrawler.crawler
                   (FileCrawler.exec Demo.E
                      [FileCrawler.PageError Race.page1 3 "timeout"]
                      (FileCrawler.boot c ∅ ∅)))) !! Race.page1 = Some p'
        /\ PageRecord.errors p `prefix_of` PageRecord.errors p'
  | Raise _ => False
  end.
Proof.
  destruct discovered_crawler as [c|e] eqn:Hc; [|by vm_compute in Hc].
  assert (Hp : is_Some (CrawlState.pages (FileCrawler.state c) !! Race.page1)).
  { vm_compute in Hc. injection Hc as <-. vm_compute. by eexists. }
  destruct Hp as [p Hp]. exists p.
  destruct (page_records_only_grow Demo.E (FileCrawler.boot c ∅ ∅)
              [FileCrawler.PageError Race.page1 3 "timeout"] Race.page1 p Hp)
    as (p' & Hp' & _ & _ & Herr & _).
  exists p'. split; [exact Hp|]. split; [exact Hp'|]. exact Herr.
Defined.

(** ** Reusing a download *)

Section Reuse.
Import Json FileCrawler.
Context {policy : Type}.
Variable E : env policy.

Lemma has_asset_mark_existing (asset_url path : string) (reused : bool)
    (p : PageRecord.t) :
  has_asset asset_url p = false ->
  mark_existing asset_url path reused (PageRecord.assets p) = None.
Proof.
  unfold has_asset. induction (PageRecord.assets p) as [|item l IH]; [done|].
  simpl. intros H. apply orb_false_iff in H as [Hu Hl]. rewrite Hu. cbn [andb].
  by rewrite (IH Hl).
Qed.

(** X18: a cached download is reused without a request. When a page
    that does not hold the asset asks for it while the cache names a file
    that is on disk, the call of [_schedule_asset_download] sends no
    request, submits no download and leaves the counter of active
    downloads alone; the page gets an attachment for the cached path that
    is marked as reused. *)
Theorem cached_asset_is_reused_without_request :
  forall (w : world policy) (i : nat) (cl : call) (p : PageRecord.t)
         (entry : pydict) (source_path : string)
         (asset_type preferred_ext : option string),
    scheds w !! i = Some (mkSched cl SBegin) ->
    CrawlState.pages (state (crawler w)) !! c_page cl = Some p ->
    has_asset (c_asset_url cl) p = false ->
    CrawlState.asset_cache (state (crawler w)) !! c_asset_url cl = Some entry ->
    dict_get "path" entry = Some (JStr source_path) ->
    source_path ∈ disk w ->
    as_opt_str "type" (get "type" entry) = Ok asset_type ->
    as_opt_str "extension" (py_or (get "extension" entry) (JStr (c_extension cl)))
    = Ok preferred_ext ->
    let w' := exec E [Sched i; Sched i] w in
    gets w' = gets w /\ tasks w' = tasks w /\ disk w' = disk w
    /\ active_downloads (crawler w') = active_downloads (crawler w)
    /\ asset_inflight (crawler w') = asset_inflight (crawler w)
    /\ exists p' item,
         CrawlState.pages (state (crawler w')) !! c_page cl = Some p'
         /\ PageRecord.assets p' = PageRecord.assets p ++ [item]
         /\ get "url" item = JStr (c_asset_url cl)
         /\ get "path" item = JStr source_path
         /\ get "reused" item = JBool true.
Proof.
  intros w i cl p entry source_path asset_type preferred_ext
    Hth Hp Hhas Hcache Hpath Hdisk Htype Hext w'.
  assert (Hi : (i < length (scheds w))%nat) by (by eapply lookup_lt_Some).
  destruct entry as [|f fl]; [done|].
  set (w1 := with_scheds (<[i := mkSched cl (SCached (f :: fl))]> (scheds w)) w).
  assert (H1 : step E (Sched i) w = w1).
  { cbn [step]. rewrite Hth. unfold sched_step. cbn [s_call s_pc].
    rewrite Hp, Hhas, Hcache. cbv iota. rewrite Hpath.
    destruct (bool_decide _) eqn:Hb; [reflexivity|].
    by apply bool_decide_eq_false in Hb. }
  assert (Hth1 : scheds w1 !! i = Some (mkSched cl (SCached (f :: fl)))).
  { subst w1. cbn [scheds with_scheds]. by rewrite list_lookup_insert_eq. }
  assert (Hatt : exists c' e,
            _attach_asset_to_page (c_page cl) (c_asset_url cl) source_path asset_type
              preferred_ext true (clock E (time w)) (crawler w) = (c', e)
            /\ active_downloads c' = active_downloads (crawler w)
            /\ asset_inflight c' = asset_inflight (crawler w)
            /\ CrawlState.pages (state c') !! c_page cl
               = Some (PageRecord.with_assets
                         (PageRecord.assets p
                            ++ [new_entry (c_asset_url cl) source_path asset_type
                                  preferred_ext true]) p)).
  { unfold _attach_asset_to_page. rewrite Hp.
    rewrite (has_asset_mark_existing _ source_path true p Hhas).
    fold (new_entry (c_asset_url cl) source_path asset_type preferred_ext true).
    destruct (CrawlState.register_asset _ _ _ _ _ _ _ _ _) as [st'|e] eqn:Hreg.
    - unfold CrawlState.register_asset in Hreg.
      destruct (CrawlState.register_entry _ _ _ _ _ _ _ _) as [en|]; [|done].
      cbn [bind] in Hreg. injection Hreg as <-.
      eexists. eexists. split; [reflexivity|]. cbn. by rewrite lookup_insert_eq.
    - eexists. eexists. split; [reflexivity|]. cbn. by rewrite lookup_insert_eq. }
  destruct Hatt as (c' & e & Hatt & Hact & Hinf & Hpage).
  assert (H2 : step E (Sched i) w1
               = with_scheds
                   (<[i := mkSched cl (match e with
                                       | Some e0 => SRaised e0
                                       | None => SDone
                                       end)]> (scheds w1))
                   (with_time (S (time w)) (with_crawler c' w1))).
  { cbn [step]. rewrite Hth1. unfold sched_step. cbn [s_call s_pc].
    unfold get_default. rewrite Hpath. cbn [default from_option id].
    change (disk w1) with (disk w).
    destruct (bool_decide _) eqn:Hb; [|by apply bool_decide_eq_false in Hb].
    cbn [negb]. rewrite Htype, Hext.
    change (crawler w1) with (crawler w). change (time w1) with (time w).
    rewrite Hatt. reflexivity. }
  subst w'. change (exec E [Sched i; Sched i] w)
    with (step E (Sched i) (step E (Sched i) w)).
  rewrite H1, H2. cbn [gets tasks disk crawler with_scheds with_time with_crawler].
  split; [done|]. split; [done|]. split; [done|]. split; [done|]. split; [done|].
  destruct (new_entry_fields (c_asset_url cl) source_path asset_type preferred_ext true)
    as (Hu & Hpa & Hr).
  eexists. eexists. split; [exact Hpage|]. split; [reflexivity|].
  split; [exact Hu|]. split; [exact Hpa|]. by apply Hr.
Qed.

End Reuse.

(** Page [a.html] has downloaded the asset; the worker of page [b.html]
    is about to enter [_schedule_asset_download]. *)
Definition first_page_done : list FileCrawler.label :=
  Race.discovered
    ++ [FileCrawler.Sched 0; FileCrawler.Sched 0; FileCrawler.Sched 0;
        FileCrawler.Sched 0; FileCrawler.Sched 0]
    ++ repeat (FileCrawler.Download 0) 7.

Lemma cached_asset_is_reused_without_request_witness :
  match Race.engine with
  | Ok c0 =>
      let w := FileCrawler.exec Demo.E first_page_done (FileCrawler.boot c0 ∅ ∅) in
      let w' := FileCrawler.exec Demo.E [FileCrawler.Sched 1; FileCrawler.Sched 1] w in
      FileCrawler.gets w' = FileCrawler.gets w
      /\ FileCrawler.tasks w' = FileCrawler.tasks w
  | Raise _ => False
  end.
Proof.
  destruct Race.engine as [c0|e] eqn:He; [|by vm_compute in He].
  set (w := FileCrawler.exec Demo.E first_page_done (FileCrawler.boot c0 ∅ ∅)).
  assert (Hth : FileCrawler.scheds w !! 1%nat
                = Some (FileCrawler.mkSched Race.call2 FileCrawler.SBegin)).
  { subst w. vm_compute in He. injection He as <-. vm_compute. reflexivity. }
  assert (Hp : exists p,
             CrawlState.pages (FileCrawler.state (FileCrawler.crawler w))
               !! FileCrawler.c_page Race.call2 = Some p
             /\ FileCrawler.has_asset (FileCrawler.c_asset_url Race.call2) p = false).
  { subst w. vm_compute in He. injection He as <-. vm_compute.
    eexists. split; reflexivity. }
  assert (Hc : CrawlState.asset_cache (FileCrawler.state (FileCrawler.crawler w))
                 !! FileCrawler.c_asset_url Race.call2
               = Some [("path", Json.JStr "out/a.com/docs/a.html/a/sample.pdf");
                       ("type", Json.JStr "application/pdf");
                       ("extension", Json.JStr ".pdf")]
               /\ "out/a.com/docs/a.html/a/sample.pdf" ∈ FileCrawler.disk w).
  { subst w. vm_compute in He. injection He as <-. split.
    - vm_compute. reflexivity.
    - refine (bool_decide_unpack _ _). vm_compute. exact I. }
  destruct Hp as (p & Hp & Hhas). destruct Hc as [Hc Hdisk].
  pose proof (cached_asset_is_reused_without_request Demo.E w 1 Race.call2 p _ _
                (Some "application/pdf") (Some ".pdf")
                Hth Hp Hhas Hc eq_refl Hdisk eq_refl eq_refl) as H.
  cbv zeta in H. exact (conj (proj1 H) (proj1 (proj2 H))).
Defined.

(** ** The links of a page *)

Section ExtractLinks.
Import Json FileCrawler.
Context {policy : Type}.
Variable E : env policy.

(** [_extract_links(base_url, soup)]: [candidates] are the arguments of
    the calls of [consider] that the loops over the parsed page make, in
    order (the parser is outside the repository). *)
Definition _extract_links (base_url : string)
    (candidates : list (option string * string)) (c : t policy)
  : result (t policy * links) :=
  fold_left
    (fun r cand =>
       let* (c, acc) := r in
       consider E base_url (fst cand) (snd cand) c acc)
    candidates (Ok (c, mkLinks [] [] ∅ ∅)).

(** [self.state.target_extensions or list(self.target_extensions)] *)
Definition target_exts (c : t policy) : list string :=
  match CrawlState.target_extensions (state c) with
  | [] => target_extensions c
  | l => l
  end.

(** What one call of [consider] does to the accumulators. *)
Inductive considered (base_url lab : string) (c : t policy) (acc : links)
  : links -> Prop :=
| considered_none : considered base_url lab c acc acc
| considered_asset (norm ext : string) :
    ext <> EmptyString ->
    Utils.match_extension (chk E) norm (target_exts c) = Ok (Some ext) ->
    norm ∉ assets_seen acc ->
    considered base_url lab c acc
      (mkLinks (assets acc ++ [(norm, lab, ext)]) (html_links acc)
         ({[norm]} ∪ assets_seen acc) (html_seen acc))
| considered_html (norm : string) :
    Utils.match_extension (chk E) norm (target_exts c) = Ok None
    \/ Utils.match_extension (chk E) norm (target_exts c) = Ok (Some EmptyString) ->
    norm ∉ html_seen acc ->
    considered base_url lab c acc
      (mkLinks (assets acc) (html_links acc ++ [norm]) (assets_seen acc)
         ({[norm]} ∪ html_seen acc)).

Lemma consider_cases (base_url : string) (url_value : option string) (lab : string)
    (c c' : t policy) (acc acc' : links) :
  consider E base_url url_value lab c acc = Ok (c', acc') ->
  target_exts c' = target_exts c /\ considered base_url lab c acc acc'.
Proof.
  unfold consider.
  destruct url_value as [[|a0 u0]|]; try (intros [= <- <-]; split; [done|constructor]).
  destruct (Utils.normalize_url _ _ _) as [[[|a1 norm1]|]|e]; cbn [bind];
    try done; try (intros [= <- <-]; split; [done|constructor]).
  set (norm := String a1 norm1).
  destruct (Utils.match_patterns _ norm (CrawlState.exclude_patterns _));
    [intros [= <- <-]; split; [done|constructor]|].
  destruct (match CrawlState.include_patterns (state c) with [] => _ | _ => _ end);
    [intros [= <- <-]; split; [done|constructor]|].
  destruct (if CrawlState.same_domain_only (state c) then _ else _) as [off|e];
    cbn [bind]; [|done].
  destruct off; [intros [= <- <-]; split; [done|constructor]|].
  destruct (RobotsHandler.is_allowed _ _ _ _ _ _) as [[allowed rb]|e]; cbn [bind];
    [|done].
  destruct (negb allowed); [intros [= <- <-]; split; [done|constructor]|].
  change (match CrawlState.target_extensions (state c) with
          | [] => target_extensions (with_robots rb c)
          | l => l
          end) with (target_exts c).
  destruct (Utils.match_extension (chk E) norm (target_exts c)) as [[[|a2 e2]|]|e] eqn:Hm;
    cbn [bind]; [| | |done].
  - destruct (bool_decide _) eqn:Hb; intros [= <- <-]; (split; [done|]);
      [constructor|].
    apply bool_decide_eq_false in Hb. apply considered_html; [by right | done].
  - destruct (bool_decide _) eqn:Hb; intros [= <- <-]; (split; [done|]);
      [constructor|].
    apply bool_decide_eq_false in Hb. by apply considered_asset.
  - destruct (bool_decide _) eqn:Hb; intros [= <- <-]; (split; [done|]);
      [constructor|].
    apply bool_decide_eq_false in Hb. apply considered_html; [by left | done].
Qed.

(** The accumulators agree with the [seen] sets, hold no URL twice, and
    sort every URL by its extension. *)
Definition links_ok (exts : list string) (acc : links) : Prop :=
  NoDup (map (fun a => a.1.1) (assets acc))
  /\ NoDup (html_links acc)
  /\ (forall u, u ∈ assets_seen acc <-> u ∈ map (fun a => a.1.1) (assets acc))
  /\ (forall u, u ∈ html_seen acc <-> u ∈ html_links acc)
  /\ (forall u l e, (u, l, e) ∈ assets acc ->
        e <> EmptyString /\ Utils.match_extension (chk E) u exts = Ok (Some e))
  /\ (forall u, u ∈ html_links acc ->
        Utils.match_extension (chk E) u exts = Ok None
        \/ Utils.match_extension (chk E) u exts = Ok (Some EmptyString)).

Lemma considered_ok (base_url lab : string) (c : t policy) (acc acc' : links) :
  considered base_url lab c acc acc' ->
  links_ok (target_exts c) acc -> links_ok (target_exts c) acc'.
Proof.
  intros Hc (Ha & Hh & Hsa & Hsh & Hea & Heh).
  destruct Hc as [|norm ext Hne Hm Hnew|norm Hm Hnew]; [done| |];
    unfold links_ok; cbn [assets html_links assets_seen html_seen].
  - split; [|split; [done|split; [|split; [done|split; [|done]]]]].
    + rewrite map_app. apply NoDup_app. split; [done|].
      split; [|apply NoDup_singleton].
      intros u Hu Hu'. apply list_elem_of_singleton in Hu'. subst u.
      by apply Hnew, Hsa.
    + intros u. rewrite map_app, elem_of_app, elem_of_union, elem_of_singleton.
      cbn [map]. rewrite list_elem_of_singleton. cbn [fst]. rewrite Hsa. tauto.
    + intros u l e H. apply elem_of_app in H as [H|H]; [by eapply Hea|].
      apply list_elem_of_singleton in H. by injection H as -> -> ->.
  - split; [done|split; [|split; [done|split; [|split; [done|]]]]].
    + apply NoDup_app. split; [done|]. split; [|apply NoDup_singleton].
      intros u Hu Hu'. apply list_elem_of_singleton in Hu'. subst u.
      by apply Hnew, Hsh.
    + intros u. rewrite elem_of_app, elem_of_union, elem_of_singleton,
        list_elem_of_singleton, Hsh. tauto.
    + intros u Hu. apply elem_of_app in Hu as [Hu|Hu]; [by apply Heh|].
      apply list_elem_of_singleton in Hu. by subst u.
Qed.

Lemma extract_links_ok (base_url : string) (candidates : list (option string * string))
    (c c' : t policy) (acc acc' : links) :
  fold_left
    (fun r cand =>
       let* (c, acc) := r in
       consider E base_url (fst cand) (snd cand) c acc)
    candidates (Ok (c, acc)) = Ok (c', acc') ->
  links_ok (target_exts c) acc ->
  links_ok (target_exts c) acc'
  /\ enqueue_view c' = enqueue_view c
  /\ CrawlState.pages (state c') = CrawlState.pages (state c).
Proof.
  revert c acc. induction candidates as [|[uv lab] rest IH]; intros c acc.
  - simpl. by intros [= <- <-].
  - cbn [fold_left bind fst snd].
    destruct (consider E base_url uv lab c acc) as [[c1 acc1]|e] eqn:Hc.
    + intros Hfold Hok.
      destruct (consider_cases _ _ _ _ _ _ _ Hc) as [Hexts Hcons].
      pose proof (considered_ok _ _ _ _ _ Hcons Hok) as Hok1.
      rewrite <- Hexts in Hok1.
      destruct (IH c1 acc1 Hfold Hok1) as (Hok' & Hview & Hpages).
      rewrite Hexts in Hok'. split; [done|].
      split; [by rewrite Hview; apply consider_view in Hc
             | by rewrite Hpages; apply consider_pages in Hc].
    + intros Hfold. exfalso. clear -Hfold.
      induction rest as [|x rest IH]; [done | by apply IH].
Qed.

(** X19: [_extract_links] returns every URL once. In its result no asset
    URL and no page URL occurs twice, no URL is both an asset and a page
    link, every asset carries the non-empty extension [match_extension]
    finds for it, and the call has changed neither the frontier, the
    visited set, the queued pages nor the page records: it only records
    skips and fills the robots cache. *)
Theorem extract_links_lists_each_url_once :
  forall (base_url : string) (candidates : list (option string * string))
         (c c' : t policy) (found : links),
    _extract_links base_url candidates c = Ok (c', found) ->
    NoDup (map (fun a => a.1.1) (assets found))
    /\ NoDup (html_links found)
    /\ (forall u, u ∈ map (fun a => a.1.1) (assets found) -> u ∉ html_links found)
    /\ (forall u l e, (u, l, e) ∈ assets found ->
          e <> EmptyString
          /\ Utils.match_extension (chk E) u (target_exts c) = Ok (Some e))
    /\ CrawlState.frontier (state c') = CrawlState.frontier (state c)
    /\ CrawlState.visited (state c') = CrawlState.visited (state c)
    /\ queued_pages c' = queued_pages c
    /\ CrawlState.pages (state c') = CrawlState.pages (state c).
Proof.
  intros base_url candidates c c' found Hx.
  assert (H0 : links_ok (target_exts c) (mkLinks [] [] ∅ ∅)).
  { repeat split; cbn; try constructor; try set_solver. }
  destruct (extract_links_ok base_url candidates c c' _ found Hx H0)
    as ((Ha & Hh & _ & _ & Hea & Heh) & Hview & Hpages).
  split; [done|]. split; [done|]. split; [|split; [done|]].
  - intros u Hu Hu'. apply list_elem_of_fmap in Hu as ([[u0 l] e] & -> & Hin).
    cbn [fst] in *. destruct (Hea _ _ _ Hin) as [Hne Hm].
    destruct (Heh _ Hu') as [Hn | Hn]; rewrite Hm in Hn; [done|].
    injection Hn as ->. done.
  - pose proof (f_equal (fun v => v.1.1) Hview) as Hf.
    pose proof (f_equal (fun v => v.1.2) Hview) as Hv.
    pose proof (f_equal snd Hview) as Hq.
    cbn [enqueue_view fst snd] in Hf, Hv, Hq. done.
Qed.

End ExtractLinks.


Lemma extract_links_lists_each_url_once_witness :
  match Race.engine with
  | Ok c0 =>
      match _extract_links Demo.E Race.index
              [(Some "docs/a.html", "A"); (Some "files/sample.pdf", "Sample");
               (Some "docs/a.html#top", "A again"); (Some "mailto:a@a.com", "");
               (None, ""); (Some "/files/sample.pdf", "Same")] c0 with
      | Ok (c', found) =>
          NoDup (map (fun a => a.1.1) (FileCrawler.assets found))
          /\ NoDup (FileCrawler.html_links found)
      | Raise _ => False
      end
  | Raise _ => False
  end.
Proof.
  destruct Race.engine as [c0|e] eqn:He; [|by vm_compute in He].
  destruct (_extract_links _ _ _ _) as [[c' found]|e] eqn:Hx.
  - pose proof (extract_links_lists_each_url_once Demo.E _ _ _ _ _ Hx) as H.
    exact (conj (proj1 H) (proj1 (proj2 H))).
  - vm_compute in He. injection He as <-. by vm_compute in Hx.
Defined.

(** ** A download that fails *)

Section FailedDownload.
Import Json FileCrawler.
Context {policy : Type}.
Variable E : env policy.

(** [c'] differs from [c] by errors added to page records. *)
Definition errors_added (c c' : t policy) : Prop :=
  CrawlState.asset_cache (state c') = CrawlState.asset_cache (state c)
  /\ CrawlState.asset_manifest (state c') = CrawlState.asset_manifest (state c)
  /\ asset_waiters c' = asset_waiters c
  /\ forall url p, CrawlState.pages (state c) !! url = Some p ->
       exists p', CrawlState.pages (state c') !! url = Some p'
                  /\ PageRecord.assets p' = PageRecord.assets p
                  /\ PageRecord.errors p `prefix_of` PageRecord.errors p'.

Lemma errors_added_refl (c : t policy) : errors_added c c.
Proof. repeat split. intros url p Hp. by exists p. Qed.

Lemma errors_added_trans (c1 c2 c3 : t policy) :
  errors_added c1 c2 -> errors_added c2 c3 -> errors_added c1 c3.
Proof.
  intros (A1 & A2 & A3 & A4) (B1 & B2 & B3 & B4).
  split; [congruence|]. split; [congruence|]. split; [congruence|].
  intros url p Hp. destruct (A4 url p Hp) as (q & Hq & Ha & He).
  destruct (B4 url q Hq) as (r & Hr & Ha' & He'). exists r.
  split; [done|]. split; [congruence | by etrans].
Qed.

Lemma add_page_error_adds (page msg : string) (c : t policy) :
  errors_added c (add_page_error page msg c)
  /\ forall p, CrawlState.pages (state c) !! page = Some p ->
       exists p', CrawlState.pages (state (add_page_error page msg c)) !! page = Some p'
                  /\ msg ∈ PageRecord.errors p'.
Proof.
  unfold add_page_error.
  destruct (CrawlState.pages (state c) !! page) as [p|] eqn:Hp;
    [|split; [apply errors_added_refl | done]].
  split.
  - repeat split. intros url q Hq. cbn.
    destruct (decide (page = url)) as [->|Hne].
    + rewrite lookup_insert_eq. rewrite Hp in Hq. injection Hq as <-.
      eexists. split; [reflexivity|]. cbn. split; [done | by apply prefix_app_r].
    + rewrite lookup_insert_ne by done. by exists q.
  - intros q [= <-]. cbn. rewrite lookup_insert_eq. eexists. split; [reflexivity|].
    cbn. apply elem_of_app. right. apply list_elem_of_here.
Qed.

(** A later error list still holds an earlier error. *)
Lemma errors_added_keeps (c c' : t policy) (url msg : string) (p : PageRecord.t) :
  errors_added c c' ->
  CrawlState.pages (state c) !! url = Some p -> msg ∈ PageRecord.errors p ->
  exists p', CrawlState.pages (state c') !! url = Some p'
             /\ PageRecord.assets p' = PageRecord.assets p
             /\ msg ∈ PageRecord.errors p'.
Proof.
  intros (_ & _ & _ & H) Hp Hm. destruct (H url p Hp) as (p' & Hp' & Ha & [k Hk]).
  exists p'. split; [done|]. split; [done|]. rewrite Hk. apply elem_of_app. by left.
Qed.

Variables (future : nat) (cl : call) (cb : bool) (target msg : string).

Abbreviation err := ("download-error: " +:+ msg).

(** The task stands at [pc]. *)
Definition stands (pc : dl_pc) (w : world policy) : Prop :=
  tasks w !! future = Some (mkTask cl pc cb).

Lemma stands_next (pc pc' : dl_pc) (w w' : world policy) :
  stands pc w -> tasks w' = tasks w ->
  stands pc' (with_tasks (<[future := mkTask cl pc' cb]> (tasks w')) w').
Proof.
  unfold stands. intros Hs Ht. cbn. rewrite Ht. apply list_lookup_insert_eq.
  by eapply lookup_lt_Some.
Qed.

(** The loop over the waiters of a failed download, then the removal of
    the file. *)
Lemma except_waiters_run (ws : list string) (w : world policy) :
  stands (DExceptWaiters target msg ws) w ->
  let w' := exec E (repeat (Download future) (length ws + 2)) w in
  stands DReturned w'
  /\ disk w' = disk w ∖ {[target]}
  /\ gets w' = gets w
  /\ errors_added (crawler w) (crawler w')
  /\ forall u q, u ∈ ws -> CrawlState.pages (state (crawler w)) !! u = Some q ->
       exists q', CrawlState.pages (state (crawler w')) !! u = Some q'
                  /\ PageRecord.assets q' = PageRecord.assets q
                  /\ err ∈ PageRecord.errors q'.
Proof.
  revert w. induction ws as [|u rest IH]; intros w Hs.
  - cbn [length Nat.add repeat exec fold_left].
    assert (H1 : step E (Download future) w
                 = with_tasks (<[future := mkTask cl (DUnlink target) cb]> (tasks w)) w).
    { cbn [step]. rewrite Hs. reflexivity. }
    rewrite H1.
    pose proof (stands_next _ (DUnlink target) w w Hs eq_refl) as Hs1.
    cbn [step]. rewrite Hs1. cbn [download_step d_pc d_call d_callback].
    split; [|split; [done|split; [done|split; [apply errors_added_refl|]]]].
    + unfold stands. cbn. rewrite list_lookup_insert_eq; [done|].
      rewrite length_insert. by eapply lookup_lt_Some.
    + intros u q Hu. by apply elem_of_nil in Hu.
  - change (length (u :: rest) + 2)%nat with (S (length rest + 2)).
    cbn [repeat]. change (exec E (Download future :: ?l) w)
      with (exec E l (step E (Download future) w)).
    set (w1 := with_tasks
                 (<[future := mkTask cl (DExceptWaiters target msg rest) cb]> (tasks w))
                 (with_crawler (add_page_error u err (crawler w)) w)).
    assert (H1 : step E (Download future) w = w1).
    { cbn [step]. rewrite Hs. reflexivity. }
    rewrite H1.
    assert (Hs1 : stands (DExceptWaiters target msg rest) w1).
    { apply (stands_next _ _ w (with_crawler _ w) Hs eq_refl). }
    destruct (IH w1 Hs1) as (Hr & Hd & Hg & Hadd & Hws).
    destruct (add_page_error_adds u err (crawler w)) as [Hadd1 Hu].
    split; [done|]. split; [done|]. split; [done|].
    split; [by eapply errors_added_trans|].
    intros v q Hv Hq. apply elem_of_cons in Hv as [->|Hv].
    + destruct (Hu q Hq) as (q1 & Hq1 & Hin).
      destruct Hadd1 as (_ & _ & _ & Hsame). destruct (Hsame u q Hq) as (q1' & Hq1' & Ha1 & _).
      rewrite Hq1 in Hq1'. injection Hq1' as <-.
      destruct (errors_added_keeps _ _ u err q1 Hadd Hq1 Hin) as (q' & Hq' & Ha' & Hin').
      exists q'. split; [done|]. split; [congruence | done].
    + destruct Hadd1 as (_ & _ & _ & Hsame). destruct (Hsame v q Hq) as (q1 & Hq1 & Ha1 & _).
      destruct (Hws v q1 Hv Hq1) as (q' & Hq' & Ha' & Hin').
      exists q'. split; [done|]. split; [congruence | done].
Qed.

(** X20: a download that fails leaves no trace but the errors. When the
    GET request of a download fails, or answers with an HTML content type,
    the task returns after having recorded the error on its page and on
    every page that waited for it; no attachment is added to any page, the
    cache entry of the asset and the list of its waiters are gone, the
    target file is not on disk and the manifest is as before. *)
Theorem failed_download_leaves_no_trace :
  forall (w : world policy),
    stands (DFetch target) w ->
    (http_get E (c_asset_url cl) = None /\ msg = "request failed")
    \/ (exists header, http_get E (c_asset_url cl) = Some header
                       /\ Py.contains "text/html" (Py.lower header) = true
                       /\ msg = "content-type html") ->
    let ws := default [] (asset_waiters (crawler w) !! c_asset_url cl) in
    let w' := exec E (repeat (Download future) (length ws + 5)) w in
    stands DReturned w'
    /\ gets w' = gets w ++ [c_asset_url cl]
    /\ disk w' = disk w ∖ {[target]}
    /\ CrawlState.asset_cache (state (crawler w'))
       = delete (c_asset_url cl) (CrawlState.asset_cache (state (crawler w)))
    /\ asset_waiters (crawler w') = delete (c_asset_url cl) (asset_waiters (crawler w))
    /\ CrawlState.asset_manifest (state (crawler w'))
       = CrawlState.asset_manifest (state (crawler w))
    /\ forall u q, u = c_page cl \/ u ∈ ws ->
         CrawlState.pages (state (crawler w)) !! u = Some q ->
         exists q', CrawlState.pages (state (crawler w')) !! u = Some q'
                    /\ PageRecord.assets q' = PageRecord.assets q
                    /\ ("download-error: " +:+ msg) ∈ PageRecord.errors q'.
Proof.
  intros w Hs Hfail ws w'.
  set (wa := with_gets (gets w ++ [c_asset_url cl]) w).
  set (w1 := with_tasks (<[future := mkTask cl (DExcept target msg) cb]> (tasks wa)) wa).
  assert (H1 : step E (Download future) w = w1).
  { cbn [step]. rewrite Hs. cbn [download_step d_pc d_call d_callback].
    destruct Hfail as [[-> ->] | (header & -> & -> & ->)]; reflexivity. }
  assert (Hs1 : stands (DExcept target msg) w1)
    by apply (stands_next _ _ w wa Hs eq_refl).
  set (c2 := evict_cache (c_asset_url cl) (add_page_error (c_page cl) err (crawler w))).
  set (w2 := with_tasks (<[future := mkTask cl (DExceptDrain target msg) cb]> (tasks w1))
               (with_crawler c2 w1)).
  assert (H2 : step E (Download future) w1 = w2).
  { cbn [step]. rewrite Hs1. reflexivity. }
  assert (Hs2 : stands (DExceptDrain target msg) w2)
    by apply (stands_next _ _ w1 (with_crawler c2 w1) Hs1 eq_refl).
  destruct (add_page_error_adds (c_page cl) err (crawler w))
    as [(Ac & Am & Aw & Ap) Hpage].
  assert (Hws2 : default [] (asset_waiters c2 !! c_asset_url cl) = ws).
  { subst c2 ws. cbn [asset_waiters evict_cache with_state]. by rewrite Aw. }
  set (c3 := with_asset_waiters (delete (c_asset_url cl) (asset_waiters c2)) c2).
  set (w3 := with_tasks (<[future := mkTask cl (DExceptWaiters target msg ws) cb]>
                           (tasks w2)) (with_crawler c3 w2)).
  assert (H3 : step E (Download future) w2 = w3).
  { cbn [step]. rewrite Hs2. cbn [download_step d_pc d_call d_callback].
    change (crawler w2) with c2. rewrite Hws2. reflexivity. }
  assert (Hs3 : stands (DExceptWaiters target msg ws) w3)
    by apply (stands_next _ _ w2 (with_crawler c3 w2) Hs2 eq_refl).
  assert (Hrun : w' = exec E (repeat (Download future) (length ws + 2)) w3).
  { subst w'. replace (length ws + 5)%nat with (S (S (S (length ws + 2)))) by lia.
    cbn [repeat].
    change (exec E (Download future :: Download future :: Download future :: ?l) w)
      with (exec E l (step E (Download future)
                        (step E (Download future) (step E (Download future) w)))).
    by rewrite H1, H2, H3. }
  destruct (except_waiters_run ws w3 Hs3) as (Hr & Hd & Hg & (Hc & Hm & Hw & Hp) & Hws).
  rewrite <- Hrun in Hr, Hd, Hg, Hc, Hm, Hw, Hp, Hws.
  split; [done|]. split; [done|]. split; [done|].
  split; [by rewrite Hc; subst c3 c2; cbn; rewrite Ac|].
  split; [by rewrite Hw; subst c3 c2; cbn; rewrite Aw|].
  split; [by rewrite Hm; subst c3 c2; cbn; rewrite Am|].
  assert (Hpages3 : CrawlState.pages (state (crawler w3))
                    = CrawlState.pages
                        (state (add_page_error (c_page cl) err (crawler w))))
    by reflexivity.
  intros u q Hu Hq.
  destruct (Ap u q Hq) as (q1 & Hq1 & Ha1 & He1).
  rewrite <- Hpages3 in Hq1.
  destruct Hu as [-> | Hu].
  - destruct (Hpage q Hq) as (q2 & Hq2 & Hin). rewrite <- Hpages3 in Hq2.
    rewrite Hq1 in Hq2. injection Hq2 as <-.
    destruct (Hp _ _ Hq1) as (q' & Hq' & Ha' & [k Hk]).
    exists q'. split; [done|]. split; [congruence|].
    rewrite Hk. apply elem_of_app. by left.
  - destruct (Hws u q1 Hu Hq1) as (q' & Hq' & Ha' & Hin).
    exists q'. split; [done|]. split; [congruence | done].
Qed.

End FailedDownload.


(** The collaborators of [Demo.E] with a site that answers no request. *)
Definition offline : FileCrawler.env unit :=
  FileCrawler.mkEnv Demo.ok_checks Demo.re_literal Demo.tld_host
    (fun _ => Some tt) (fun _ _ _ => true) JsonText.dumps JsonText.loads pretty
    (fun _ => None) (fun _ => None)
    (fun _ _ _ => ("sample.pdf", "sample", ".pdf")) (fun _ => ".pdf").

(** Page [a.html] has submitted its download, whose task has picked its
    target; page [b.html] waits for it. *)
Definition download_started : list FileCrawler.label :=
  Race.discovered
    ++ [FileCrawler.Sched 0; FileCrawler.Sched 0; FileCrawler.Sched 0;
        FileCrawler.Sched 0; FileCrawler.Sched 0;
        FileCrawler.Sched 1; FileCrawler.Sched 1; FileCrawler.Download 0].

Lemma failed_download_leaves_no_trace_witness :
  match Race.engine with
  | Ok c0 =>
      let w := FileCrawler.exec offline download_started (FileCrawler.boot c0 ∅ ∅) in
      let ws := default [] (FileCrawler.asset_waiters (FileCrawler.crawler w)
                              !! FileCrawler.c_asset_url Race.call1) in
      let w' := FileCrawler.exec offline
                  (repeat (FileCrawler.Download 0) (length ws + 5)) w in
      ws = [Race.page2]
      /\ stands 0 Race.call1 true FileCrawler.DReturned w'
      /\ FileCrawler.gets w' = FileCrawler.gets w ++ [Race.asset]
  | Raise _ => False
  end.
Proof.
  destruct Race.engine as [c0|e] eqn:He; [|by vm_compute in He].
  set (w := FileCrawler.exec offline download_started (FileCrawler.boot c0 ∅ ∅)).
  assert (Hs : stands 0 Race.call1 true
                 (FileCrawler.DFetch "out/a.com/docs/a.html/a/sample.pdf") w).
  { subst w. vm_compute in He. injection He as <-. vm_compute. reflexivity. }
  assert (Hws : default [] (FileCrawler.asset_waiters (FileCrawler.crawler w)
                              !! FileCrawler.c_asset_url Race.call1) = [Race.page2]).
  { subst w. vm_compute in He. injection He as <-. vm_compute. reflexivity. }
  pose proof (failed_download_leaves_no_trace offline 0 Race.call1 true
                "out/a.com/docs/a.html/a/sample.pdf" "request failed" w Hs
                (or_introl (conj eq_refl eq_refl))) as H.
  cbv zeta in *. split; [exact Hws|].
  exact (conj (proj1 H) (proj1 (proj2 H))).
Defined.

(** ** File names (scraper/utils.py) *)

Module FsNames.

(** [INVALID_FS_CHARS] *)
Definition INVALID_FS_CHARS : list ascii :=
  ["<"; ">"; ":"; "034"; "/"; "092"; "|"; "?"; "*"]%char.

Definition invalid (ch : ascii) : bool := existsb (Ascii.eqb ch) INVALID_FS_CHARS.

(** [''.join('_' if ch in INVALID_FS_CHARS else ch for ch in text)] *)
Fixpoint replace_invalid (text : string) : string :=
  match text with
  | EmptyString => EmptyString
  | String ch r => String (if invalid ch then "_"%char else ch) (replace_invalid r)
  end.

(** [re.sub(r'\s+', '_', s)]: every maximal run of white space becomes
    one underscore; [in_run] tells that the previous character was white
    space. *)
Fixpoint sub_spaces (in_run : bool) (s : string) : string :=
  match s with
  | EmptyString => EmptyString
  | String ch r =>
      if Py.isspace ch
      then if in_run then sub_spaces true r else String "_"%char (sub_spaces true r)
      else String ch (sub_spaces false r)
  end.

(** [sanitize_for_fs(text)], the replacement being left at its default
    ['_'], as in every call of the repository. *)
Definition sanitize_for_fs (text : string) : string :=
  let sanitized := replace_invalid text in
  let sanitized := Py.strip sanitized in
  let sanitized := sub_spaces false sanitized in
  let sanitized := Urllib.slice_to 150 sanitized in
  if Py.is_empty sanitized then "item" else sanitized.

End FsNames.


Section SafeNames.
Import FsNames.

(** A character that may stay in a file name. *)
Definition safe (ch : ascii) : bool := negb (invalid ch) && negb (Py.isspace ch).

Lemma all_chars_lstrip (p q : ascii -> bool) (s : string) :
  Urllib.all_chars p s = true -> Urllib.all_chars p (Py.lstrip_by q s) = true.
Proof.
  induction s as [|c s IH]; [done|]. simpl. intros H.
  destruct (q c); [|done]. apply andb_true_iff in H as [_ H]. by apply IH.
Qed.

Lemma all_chars_rstrip (p q : ascii -> bool) (s : string) :
  Urllib.all_chars p s = true -> Urllib.all_chars p (Py.rstrip_by q s) = true.
Proof.
  induction s as [|c s IH]; [done|]. simpl. intros H.
  apply andb_true_iff in H as [Hc H]. specialize (IH H).
  destruct (Py.rstrip_by q s) as [|c' r'].
  - destruct (q c); [done|]. simpl. by rewrite Hc.
  - cbn [Urllib.all_chars] in *. by rewrite Hc, IH.
Qed.

Lemma replace_invalid_valid (text : string) :
  Urllib.all_chars (fun ch => negb (invalid ch)) (replace_invalid text) = true.
Proof.
  induction text as [|c s IH]; [done|]. simpl. rewrite IH, andb_true_r.
  by destruct (invalid c) eqn:Hc; [|rewrite Hc].
Qed.

Lemma sub_spaces_safe (in_run : bool) (s : string) :
  Urllib.all_chars (fun ch => negb (invalid ch)) s = true ->
  Urllib.all_chars safe (sub_spaces in_run s) = true.
Proof.
  revert in_run. induction s as [|c s IH]; intros in_run; [done|]. simpl.
  intros H. apply andb_true_iff in H as [Hc H].
  destruct (Py.isspace c) eqn:Hs.
  - destruct in_run; [by apply IH|]. cbn [Urllib.all_chars]. by rewrite IH.
  - cbn [Urllib.all_chars]. rewrite IH by done. unfold safe. by rewrite Hc, Hs.
Qed.

Lemma slice_to_length (n : nat) (s : string) :
  (String.length (Urllib.slice_to n s) <= n)%nat.
Proof.
  unfold Urllib.slice_to. revert n. induction s as [|c s IH]; intros [|n]; simpl;
    try lia. specialize (IH n). lia.
Qed.

Lemma slice_to_short (n : nat) (s : string) :
  (String.length s <= n)%nat -> Urllib.slice_to n s = s.
Proof.
  unfold Urllib.slice_to. revert n. induction s as [|c s IH]; intros [|n]; simpl;
    try done; try lia. intros H. rewrite IH; [done | lia].
Qed.

(** A name of safe characters passes through every stage unchanged. *)
Lemma safe_replace (s : string) :
  Urllib.all_chars safe s = true -> replace_invalid s = s.
Proof.
  induction s as [|c s IH]; [done|]. simpl. intros H.
  apply andb_true_iff in H as [Hc H]. rewrite (IH H).
  unfold safe in Hc. apply andb_true_iff in Hc as [Hc _].
  apply negb_true_iff in Hc. by rewrite Hc.
Qed.

Lemma safe_sub_spaces (in_run : bool) (s : string) :
  Urllib.all_chars safe s = true -> sub_spaces in_run s = s.
Proof.
  revert in_run. induction s as [|c s IH]; intros in_run; [done|]. simpl. intros H.
  apply andb_true_iff in H as [Hc H].
  unfold safe in Hc. apply andb_true_iff in Hc as [_ Hc].
  apply negb_true_iff in Hc. by rewrite Hc, IH.
Qed.

Lemma safe_strip (s : string) : Urllib.all_chars safe s = true -> Py.strip s = s.
Proof.
  intros H. unfold Py.strip.
  assert (Hl : Py.lstrip_by Py.isspace s = s).
  { destruct s as [|c s]; [done|]. simpl in *.
    apply andb_true_iff in H as [Hc _]. unfold safe in Hc.
    apply andb_true_iff in Hc as [_ Hc]. apply negb_true_iff in Hc. by rewrite Hc. }
  rewrite Hl. clear Hl. induction s as [|c s IH]; [done|]. simpl in *.
  apply andb_true_iff in H as [Hc H]. rewrite (IH H).
  destruct s; [|done]. unfold safe in Hc.
  apply andb_true_iff in Hc as [_ Hc]. apply negb_true_iff in Hc. by rewrite Hc.
Qed.

(** X21: [sanitize_for_fs] returns a name fit for a path component, and
    leaves such a name alone. Whatever the text, the result is not empty,
    has at most 150 characters, holds none of the characters of
    [INVALID_FS_CHARS] (the slash and the backslash among them) and no
    white space; sanitizing the result again returns it unchanged. *)
Theorem sanitize_for_fs_gives_safe_names :
  forall (text : string),
    let name := sanitize_for_fs text in
    name <> EmptyString
    /\ (String.length name <= 150)%nat
    /\ Urllib.all_chars (fun ch => negb (invalid ch) && negb (Py.isspace ch)) name = true
    /\ sanitize_for_fs name = name.
Proof.
  intros text name.
  assert (Hsafe : Urllib.all_chars safe name = true).
  { subst name. unfold sanitize_for_fs.
    destruct (Py.is_empty _) eqn:He; [by vm_compute|].
    apply all_chars_substring, sub_spaces_safe.
    unfold Py.strip. apply all_chars_rstrip, all_chars_lstrip, replace_invalid_valid. }
  assert (Hne : name <> EmptyString).
  { subst name. unfold sanitize_for_fs.
    destruct (Urllib.slice_to 150 _) eqn:Hs; [done|]. cbn [Py.is_empty]. done. }
  assert (Hlen : (String.length name <= 150)%nat).
  { subst name. unfold sanitize_for_fs.
    destruct (Py.is_empty _); [vm_compute; lia | apply slice_to_length]. }
  split; [done|]. split; [done|]. split; [exact Hsafe|].
  unfold sanitize_for_fs.
  rewrite (safe_replace name Hsafe), (safe_strip name Hsafe),
    (safe_sub_spaces false name Hsafe), (slice_to_short 150 name Hlen).
  by destruct name.
Qed.

End SafeNames.

(** ** Recent events and the status snapshot (scraper/crawler.py) *)

Module Events.
Import Json.

Section Clocked.
(** The reading of [time.time()], a float outside the model. *)
Variable timestamp : Type.
Variable timestamp_json : timestamp -> json.

Record CrawlEvent : Type := mkEvent
  { ev_timestamp : timestamp;
    action : string;
    url : string;
    detail : string }.

(** [CrawlEvent.to_dict()] *)
Definition to_dict (e : CrawlEvent) : json :=
  JObj [("timestamp", timestamp_json (ev_timestamp e));
        ("action", JStr (action e)); ("url", JStr (url e));
        ("detail", JStr (detail e))].

(** [deque(maxlen=100).appendleft(x)]: a full deque drops its last
    element. *)
Definition maxlen : nat := 100.
Definition appendleft (x : CrawlEvent) (d : list CrawlEvent) : list CrawlEvent :=
  take maxlen (x :: d).

(** [_record_event(action, url, detail)] on [_recent_events]; [now] is
    the clock reading of the constructor of the event. *)
Definition _record_event (now : timestamp) (action url detail : string)
    (recent_events : list CrawlEvent) : list CrawlEvent :=
  appendleft (mkEvent now action url detail) recent_events.

(** The [events] entry of the snapshot built by [_update_status]. *)
Definition status_events (recent_events : list CrawlEvent) : list json :=
  map to_dict (take 10 recent_events).

End Clocked.

End Events.

Section RecentEvents.
Import Events.
Variable timestamp : Type.
Variable timestamp_json : timestamp -> Json.json.

(** The events recorded one after the other, each with its clock reading. *)
Definition record_all (es : list (CrawlEvent timestamp))
    (recent_events : list (CrawlEvent timestamp)) : list (CrawlEvent timestamp) :=
  fold_left
    (fun d e => _record_event timestamp (ev_timestamp _ e) (action _ e) (url _ e)
                  (detail _ e) d)
    es recent_events.

Lemma take_cons_take {A : Type} (n : nat) (x : A) (d : list A) :
  take n (x :: take n d) = take n (x :: d).
Proof.
  destruct n as [|n]; [done|]. cbn [take]. f_equal.
  rewrite take_take. f_equal. lia.
Qed.

Lemma record_all_spec (es d : list (CrawlEvent timestamp)) :
  record_all es (take maxlen d) = take maxlen (rev es ++ d).
Proof.
  revert d. induction es as [|e es IH]; intros d; [done|].
  cbn [record_all fold_left]. unfold _record_event, appendleft.
  replace (mkEvent timestamp (ev_timestamp _ e) (action _ e) (url _ e) (detail _ e))
    with e by (by destruct e).
  rewrite take_cons_take. fold (record_all es (take maxlen (e :: d))).
  rewrite IH. cbn [rev]. by rewrite <- app_assoc.
Qed.

(** X22: the engine keeps the last 100 events and shows the last 10,
    newest first. After any number of calls of [_record_event] on the
    empty deque of the constructor, [_recent_events] holds the most recent
    100 events in reverse order of recording, and the [events] entry of
    the status snapshot holds the most recent 10, newest first. *)
Theorem status_shows_latest_events :
  forall (es : list (CrawlEvent timestamp)),
    let recent := record_all es [] in
    recent = take 100 (rev es)
    /\ (length recent <= 100)%nat
    /\ status_events timestamp timestamp_json recent
       = map (to_dict timestamp timestamp_json) (take 10 (rev es)).
Proof.
  intros es recent.
  assert (Hr : recent = take 100 (rev es)).
  { subst recent. change [] with (take maxlen (@nil (CrawlEvent timestamp))).
    rewrite record_all_spec. by rewrite app_nil_r. }
  split; [exact Hr|]. split.
  - rewrite Hr, length_take. lia.
  - unfold status_events. rewrite Hr, take_take. f_equal.
Qed.

End RecentEvents.

(** ** The extensions of the form (app.py) *)

Module Form.

(** One pass of the loop of [normalize_ext_values]: [None] when the value
    is skipped as blank. *)
Definition clean_value (value : string) : option string :=
  let clean := Py.lower (Py.strip value) in
  if Py.is_empty clean then None
  else Some (if Py.startswith "." clean then clean else "." +:+ clean).

(** [normalize_ext_values(values)] *)
Definition normalize_ext_values (values : list string) : list string :=
  fst (fold_left
         (fun '(normalized, seen) value =>
            match clean_value value with
            | None => (normalized, seen)
            | Some clean =>
                if bool_decide (clean ∈ seen) then (normalized, seen)
                else (normalized ++ [clean], {[clean]} ∪ seen)
            end)
         values ([], (∅ : gset string))).

End Form.

Section FormExtensions.
Import Form FileCrawler.

Lemma isspace_lower_char (c : ascii) : Py.isspace (Py.lower_char c) = Py.isspace c.
Proof. destruct c as [[] [] [] [] [] [] [] []]; vm_compute; reflexivity. Qed.

Lemma lower_lstrip_comm (s : string) :
  Py.lower (Py.lstrip_by Py.isspace s) = Py.lstrip_by Py.isspace (Py.lower s).
Proof.
  induction s as [|c s IH]; [done|]. simpl. rewrite isspace_lower_char.
  by destruct (Py.isspace c).
Qed.

Lemma lower_rstrip_comm (s : string) :
  Py.lower (Py.rstrip_by Py.isspace s) = Py.rstrip_by Py.isspace (Py.lower s).
Proof.
  induction s as [|c s IH]; [done|]. simpl. rewrite <- IH, isspace_lower_char.
  destruct (Py.rstrip_by Py.isspace s) as [|c' r']; [|done].
  by destruct (Py.isspace c).
Qed.

Lemma lower_strip_comm (s : string) : Py.lower (Py.strip s) = Py.strip (Py.lower s).
Proof. unfold Py.strip. by rewrite lower_rstrip_comm, lower_lstrip_comm. Qed.

(** The form and the engine clean an extension to the same text. *)
Lemma clean_value_extension (value e : string) :
  clean_value value = Some e -> clean_extension value = Some e.
Proof.
  unfold clean_value, clean_extension. rewrite lower_strip_comm.
  destruct (Py.is_empty (Py.strip (Py.lower value))) eqn:He; [done|].
  intros [= <-]. destruct value as [|c r]; [done|]. done.
Qed.

Lemma normalize_loop_spec (values normalized : list string) (seen : gset string) :
  NoDup normalized -> (forall e, e ∈ seen <-> e ∈ normalized) ->
  let out := fst (fold_left
                    (fun '(normalized, seen) value =>
                       match clean_value value with
                       | None => (normalized, seen)
                       | Some clean =>
                           if bool_decide (clean ∈ seen) then (normalized, seen)
                           else (normalized ++ [clean], {[clean]} ∪ seen)
                       end)
                    values (normalized, seen)) in
  NoDup out
  /\ forall e, e ∈ out <-> e ∈ normalized \/ e ∈ omap clean_value values.
Proof.
  revert normalized seen. induction values as [|v vs IH]; intros normalized seen Hnd Hseen.
  - cbn. split; [done|]. intros e. rewrite elem_of_nil. tauto.
  - cbn [fold_left]. cbn [omap list_omap].
    destruct (clean_value v) as [clean|] eqn:Hv; [|by apply IH].
    destruct (bool_decide (clean ∈ seen)) eqn:Hb.
    + apply bool_decide_eq_true in Hb.
      destruct (IH normalized seen Hnd Hseen) as [Hn Hm]. split; [done|].
      intros e. rewrite Hm, elem_of_cons. apply Hseen in Hb.
      split; [tauto|]. intros [H|[->|H]]; tauto.
    + apply bool_decide_eq_false in Hb.
      destruct (IH (normalized ++ [clean]) ({[clean]} ∪ seen)) as [Hn Hm].
      * apply NoDup_app. split; [done|]. split; [|apply NoDup_singleton].
        intros e He He'. apply list_elem_of_singleton in He'. subst e.
        by apply Hb, Hseen.
      * intros e. rewrite elem_of_union, elem_of_singleton, elem_of_app,
          list_elem_of_singleton, Hseen. tauto.
      * split; [done|]. intros e.
        rewrite Hm, elem_of_app, list_elem_of_singleton, elem_of_cons. tauto.
Qed.

(** X23: the extensions chosen in the form are the ones the engine
    looks for. [normalize_ext_values] returns each cleaned value once, in
    the form the engine keeps (lower case, stripped, with its dot); given
    to the constructor, a non-empty result comes back from
    [_prepare_extensions] with the same members, none added and none
    lost. *)
Theorem form_extensions_reach_the_engine :
  forall (values : list string),
    let shown := normalize_ext_values values in
    NoDup shown
    /\ (forall e, e ∈ shown <-> e ∈ omap clean_value values)
    /\ (forall e, e ∈ shown ->
          Py.startswith "." e = true /\ Py.lower e = e /\ Py.strip e = e)
    /\ (shown <> [] -> forall e, e ∈ _prepare_extensions shown <-> e ∈ shown).
Proof.
  intros values shown.
  destruct (normalize_loop_spec values [] ∅ NoDup_nil_2) as [Hnd Hmem];
    [set_solver|].
  fold (normalize_ext_values values) in Hnd, Hmem. fold shown in Hnd, Hmem.
  assert (Hmem' : forall e, e ∈ shown <-> e ∈ omap clean_value values).
  { intros e. rewrite Hmem, elem_of_nil. tauto. }
  assert (Hcanon : forall e, e ∈ shown -> canonical e).
  { intros e He. apply Hmem', list_elem_of_omap in He as (v & _ & Hv).
    eapply clean_extension_canonical. by apply clean_value_extension. }
  split; [exact Hnd|]. split; [exact Hmem'|]. split; [exact Hcanon|].
  intros Hne e. unfold _prepare_extensions.
  rewrite (omap_fixed clean_extension shown).
  - rewrite sorted_set_elem. by destruct shown.
  - apply Forall_forall. intros x Hx. by apply canonical_clean, Hcanon.
Qed.

End FormExtensions.

(** ** The report of links by depth (scraper/state.py) *)

Module Report.
Import Json.

Section StableSort.
Context {A K : Type}.
Variable key : A -> K.
Variable ltb : K -> K -> bool.

(** [sorted(l, key=key)]: a stable sort, an element going behind the
    ones that are not greater. *)
Fixpoint insert_by (x : A) (l : list A) : list A :=
  match l with
  | [] => [x]
  | y :: r => if ltb (key x) (key y) then x :: l else y :: insert_by x r
  end.

Definition sort_by (l : list A) : list A :=
  fold_left (fun acc x => insert_by x acc) l [].
End StableSort.

(** [bucket = levels.setdefault(depth, []); bucket.append(item)] *)
Fixpoint add_to_level {B : Type} (depth : Z) (item : B) (levels : list (Z * list B))
  : list (Z * list B) :=
  match levels with
  | [] => [(depth, [item])]
  | (d, bucket) :: rest =>
      if (d =? depth)%Z then (d, bucket ++ [item]) :: rest
      else (d, bucket) :: add_to_level depth item rest
  end.

Definition string_ltb (a b : string) : bool :=
  match String.compare a b with Lt => true | _ => false end.

(** The dict that the loop of [build_links_by_depth] builds for a page. *)
Definition level_item (url : string) (record : PageRecord.t) : json :=
  JObj [("url", JStr url);
        ("title", of_option_str (PageRecord.title record));
        ("referrers", JArr (map JStr (PageRecord.referrers record)));
        ("asset_count", JInt (Z.of_nat (length (PageRecord.assets record))));
        ("assets", JArr (map JObj (PageRecord.assets record)))].

(** The levels of [build_links_by_depth] over the pages in the order
    [items]: grouped by depth, the groups sorted by depth and each group
    by URL. The pages are kept as (url, record) pairs until
    [build_links_by_depth] turns each into its dict; the source builds the
    dict first and sorts on its ['url'], which is the same URL. *)
Definition levels_of (items : list (string * PageRecord.t))
  : list (Z * list (string * PageRecord.t)) :=
  let levels :=
    fold_left (fun levels kv => add_to_level (PageRecord.depth (snd kv)) kv levels)
      items [] in
  map (fun lv => (fst lv, sort_by fst string_ltb (snd lv)))
    (sort_by fst Z.ltb levels).

(** One element of [ordered]. *)
Definition level_json (lv : Z * list (string * PageRecord.t)) : json :=
  JObj [("depth", JInt (fst lv));
        ("pages", JArr (map (fun kv => level_item (fst kv) (snd kv)) (snd lv)))].

(** [build_links_by_depth()]; [now] is the clock reading. *)
Definition build_links_by_depth (now : string) (s : CrawlState.t) : json :=
  let ordered := map level_json (levels_of (map_to_list (CrawlState.pages s))) in
  JObj [("start_url", JStr (CrawlState.start_url s));
        ("generated_at", JStr now);
        ("levels", JArr ordered)].

End Report.


Section SortFacts.
Import Report.
Context {A K : Type}.
Variable key : A -> K.
Variable ltb : K -> K -> bool.
Hypothesis ltb_asym : forall a b, ltb a b = true -> ltb b a = false.
Hypothesis ltb_trans : forall a b c, ltb b a = false -> ltb c b = false -> ltb c a = false.
Hypothesis ltb_total : forall a b, ltb a b = false -> ltb b a = false -> a = b.

Abbreviation not_after := (fun a b : A => ltb (key b) (key a) = false).

Lemma insert_by_perm (x : A) (l : list A) : insert_by key ltb x l ≡ₚ x :: l.
Proof.
  induction l as [|y r IH]; [done|]. simpl.
  destruct (ltb (key x) (key y)); [done|]. rewrite IH. apply Permutation_swap.
Qed.

Lemma sort_by_perm (l : list A) : sort_by key ltb l ≡ₚ l.
Proof.
  unfold sort_by.
  assert (H : forall acc, fold_left (fun acc x => insert_by key ltb x acc) l acc
                          ≡ₚ acc ++ l).
  { induction l as [|x l IH]; intros acc; simpl; [by rewrite app_nil_r|].
    rewrite IH, insert_by_perm. simpl. apply Permutation_middle. }
  by rewrite H.
Qed.

Lemma insert_by_sorted (x : A) (l : list A) :
  StronglySorted not_after l -> StronglySorted not_after (insert_by key ltb x l).
Proof.
  induction 1 as [|y r Hr IH Hy]; simpl; [by repeat constructor|].
  destruct (ltb (key x) (key y)) eqn:Hxy.
  - constructor; [by constructor|]. constructor; [by apply ltb_asym|].
    eapply Forall_impl; [exact Hy|]. intros b Hb. cbv beta in *.
    eapply ltb_trans; [|exact Hb]. by apply ltb_asym.
  - constructor; [done|]. apply Forall_forall. intros b Hb.
    apply (elem_of_Permutation_proper _ _ _ (insert_by_perm x r)) in Hb.
    apply elem_of_cons in Hb as [->|Hb]; [done|].
    by eapply Forall_forall in Hy.
Qed.

Lemma sort_by_sorted (l : list A) : StronglySorted not_after (sort_by key ltb l).
Proof.
  unfold sort_by.
  assert (H : forall acc, StronglySorted not_after acc ->
            StronglySorted not_after
              (fold_left (fun acc x => insert_by key ltb x acc) l acc)).
  { induction l as [|x l IH]; intros acc Hacc; simpl; [done|].
    by apply IH, insert_by_sorted. }
  apply H. constructor.
Qed.

(** Without two equal keys the order is strict. *)
Lemma sort_by_strict (l : list A) :
  NoDup (map key l) ->
  StronglySorted (fun a b => ltb (key a) (key b) = true) (sort_by key ltb l).
Proof.
  intros Hnd.
  assert (Hnd' : NoDup (map key (sort_by key ltb l))).
  { by rewrite (sort_by_perm l). }
  pose proof (sort_by_sorted l) as Hs. revert Hnd'.
  induction Hs as [|y r Hr IH Hy]; intros Hnd'; [constructor|].
  cbn [map] in Hnd'. apply NoDup_cons in Hnd' as [Hy' Hnd'].
  constructor; [by apply IH|]. apply Forall_forall. intros b Hb.
  destruct (ltb (key y) (key b)) eqn:Hyb; [done|]. exfalso. apply Hy'.
  assert (Hby : ltb (key b) (key y) = false) by (by eapply Forall_forall in Hy).
  rewrite (ltb_total _ _ Hyb Hby). apply list_elem_of_fmap. by exists b.
Qed.

End SortFacts.


Section Levels.
Import Report.

Abbreviation page_item := (string * PageRecord.t)%type.

(** The levels hold the pages [items], each under its depth, and no depth
    twice. *)
Definition grouped (levels : list (Z * list page_item)) (items : list page_item) : Prop :=
  NoDup (map fst levels)
  /\ concat (map snd levels) ≡ₚ items
  /\ Forall (fun lv => snd lv <> []
                       /\ Forall (fun kv => PageRecord.depth (snd kv) = fst lv) (snd lv))
       levels.

Lemma add_to_level_depths (d d0 : Z) (x : page_item) (levels : list (Z * list page_item)) :
  d0 ∈ map fst (add_to_level d x levels) <-> d0 = d \/ d0 ∈ map fst levels.
Proof.
  induction levels as [|[d' b] rest IH]; simpl.
  - rewrite list_elem_of_singleton, elem_of_nil. tauto.
  - destruct (Z.eqb_spec d' d) as [->|Hne]; simpl.
    + rewrite elem_of_cons. tauto.
    + rewrite !elem_of_cons, IH. tauto.
Qed.

Lemma add_to_level_grouped (x : page_item) (levels : list (Z * list page_item))
    (items : list page_item) :
  grouped levels items ->
  grouped (add_to_level (PageRecord.depth (snd x)) x levels) (items ++ [x]).
Proof.
  intros (Hnd & Hperm & Hall). unfold grouped.
  assert (H : NoDup (map fst (add_to_level (PageRecord.depth (snd x)) x levels))
              /\ concat (map snd (add_to_level (PageRecord.depth (snd x)) x levels))
                 ≡ₚ concat (map snd levels) ++ [x]
              /\ Forall (fun lv => snd lv <> []
                           /\ Forall (fun kv => PageRecord.depth (snd kv) = fst lv)
                                (snd lv))
                   (add_to_level (PageRecord.depth (snd x)) x levels)).
  { clear Hperm. set (d := PageRecord.depth (snd x)).
    assert (Hd : PageRecord.depth (snd x) = d) by done. clearbody d.
    induction levels as [|[d' b] rest IH]; simpl.
    - split; [apply NoDup_singleton|]. split; [done|].
      repeat constructor; done.
    - apply NoDup_cons in Hnd as [Hd' Hnd]. apply Forall_cons in Hall as [[Hb Hbd] Hall].
      destruct (IH Hnd Hall) as (IH1 & IH2 & IH3).
      destruct (Z.eqb_spec d' d) as [->|Hne]; simpl.
      + split; [by constructor|]. split.
        * rewrite <- !app_assoc. apply Permutation_app_head.
          apply Permutation_app_comm.
        * constructor; [|done]. cbn [fst snd] in *. split; [by destruct b|].
          apply Forall_app. split; [done|]. by repeat constructor.
      + split.
        * constructor; [|done]. intros Hin. apply add_to_level_depths in Hin.
          destruct Hin as [Hin|Hin]; [done | by apply Hd'].
        * split; [by rewrite IH2, app_assoc|]. by constructor. }
  destruct H as (H1 & H2 & H3). split; [done|]. split; [|done].
  by rewrite H2, Hperm.
Qed.

Lemma group_grouped (items : list page_item) (levels : list (Z * list page_item))
    (before : list page_item) :
  grouped levels before ->
  grouped (fold_left (fun levels kv => add_to_level (PageRecord.depth (snd kv)) kv levels)
             items levels) (before ++ items).
Proof.
  revert levels before. induction items as [|x items IH]; intros levels before H.
  - by rewrite app_nil_r.
  - cbn [fold_left]. replace (before ++ x :: items) with ((before ++ [x]) ++ items)
      by (by rewrite <- app_assoc).
    by apply IH, add_to_level_grouped.
Qed.

Lemma bucket_nodup (levels : list (Z * list page_item)) (d : Z) (b : list page_item) :
  (d, b) ∈ levels -> NoDup (map fst (concat (map snd levels))) -> NoDup (map fst b).
Proof.
  induction levels as [|[d' b'] rest IH]; [by intros H; apply elem_of_nil in H|].
  simpl. rewrite map_app. intros Hin Hnd. apply NoDup_app in Hnd as (Hb & _ & Hr).
  apply elem_of_cons in Hin as [[= -> ->]|Hin]; [done | by apply IH].
Qed.

Lemma sorted_fmap {A B : Type} (R : A -> A -> Prop) (R' : B -> B -> Prop)
    (f : A -> B) (l : list A) :
  (forall x y, R x y -> R' (f x) (f y)) ->
  StronglySorted R l -> StronglySorted R' (map f l).
Proof.
  intros Hf. induction 1 as [|x l Hl IH Hx]; simpl; constructor; [done|].
  apply Forall_forall. intros y Hy. apply list_elem_of_fmap in Hy as (z & -> & Hz).
  apply Hf. by eapply Forall_forall in Hx.
Qed.

Lemma elem_of_concat {A : Type} (x : A) (ls : list (list A)) :
  x ∈ concat ls <-> exists l, x ∈ l /\ l ∈ ls.
Proof.
  induction ls as [|l0 ls IH]; simpl.
  - split; [by intros H; apply elem_of_nil in H|].
    intros (l & _ & H). by apply elem_of_nil in H.
  - rewrite elem_of_app, IH. split.
    + intros [H|(l & H1 & H2)]; [exists l0 | exists l]; split; try done;
        [apply list_elem_of_here | by apply list_elem_of_further].
    + intros (l & H1 & H2). apply elem_of_cons in H2 as [->|H2]; [by left|].
      right. by exists l.
Qed.

Lemma sorted_weaken {A : Type} (R R' : A -> A -> Prop) (l : list A) :
  (forall x y, R x y -> R' x y) -> StronglySorted R l -> StronglySorted R' l.
Proof.
  intros Hf. induction 1 as [|x l Hl IH Hx]; constructor; [done|].
  eapply Forall_impl; [exact Hx|]. apply Hf.
Qed.

Lemma string_ltb_asym (a b : string) : string_ltb a b = true -> string_ltb b a = false.
Proof.
  unfold string_ltb. rewrite (String.compare_antisym a b).
  by destruct (String.compare b a).
Qed.

Lemma string_ltb_total (a b : string) :
  string_ltb a b = false -> string_ltb b a = false -> a = b.
Proof.
  unfold string_ltb. rewrite (String.compare_antisym a b).
  destruct (String.compare b a) eqn:Hc; try done.
  intros _ _. symmetry. by apply String.compare_eq_iff.
Qed.

Lemma string_ltb_trans (a b c : string) :
  string_ltb b a = false -> string_ltb c b = false -> string_ltb c a = false.
Proof.
  intros Hba Hcb.
  destruct (string_ltb c a) eqn:Hca; [|done]. exfalso.
  destruct (string_ltb a b) eqn:Hab.
  - (* c < a < b: then c < b *)
    unfold string_ltb in *.
    destruct (String.compare c a) eqn:H1; try done.
    destruct (String.compare a b) eqn:H2; try done.
    by rewrite (compare_lt_trans c a b H1 H2) in Hcb.
  - pose proof (string_ltb_total a b Hab Hba) as ->. congruence.
Qed.

(** X24: the report of links by depth lists every page once, under its
    depth, in a fixed order. In the report built by
    [build_links_by_depth] the levels come by strictly increasing depth,
    no level is empty, the pages of a level come by strictly increasing
    URL, and a page is listed in a level exactly when the state holds its
    record with that depth; so the report does not depend on the order in
    which the pages were recorded. *)
Theorem links_report_is_sorted_and_complete :
  forall (now : string) (s : CrawlState.t),
    exists levels,
      build_links_by_depth now s
      = Json.JObj [("start_url", Json.JStr (CrawlState.start_url s));
                   ("generated_at", Json.JStr now);
                   ("levels", Json.JArr (map level_json levels))]
      /\ StronglySorted (fun a b => (fst a < fst b)%Z) levels
      /\ (forall d pages, (d, pages) ∈ levels ->
            pages <> []
            /\ StronglySorted (fun a b => String.compare (fst a) (fst b) = Lt) pages)
      /\ (forall url record d,
            (exists pages, (d, pages) ∈ levels /\ (url, record) ∈ pages)
            <-> CrawlState.pages s !! url = Some record
                /\ PageRecord.depth record = d).
Proof.
  intros now s. exists (levels_of (map_to_list (CrawlState.pages s))).
  split; [reflexivity|].
  set (items := map_to_list (CrawlState.pages s)).
  assert (Hitems : NoDup (map fst items)) by apply NoDup_fst_map_to_list.
  unfold levels_of.
  set (levels0 := fold_left _ items []).
  assert (Hg : grouped levels0 items).
  { apply (group_grouped items [] []). split; [constructor|]. split; [done|constructor]. }
  destruct Hg as (Hnd & Hperm & Hall).
  set (sorted := sort_by fst Z.ltb levels0).
  assert (Hsp : sorted ≡ₚ levels0) by apply sort_by_perm.
  assert (Hss : StronglySorted (fun a b => (fst a <? fst b)%Z = true) sorted).
  { apply sort_by_strict; try done; intros; lia. }
  assert (Hin : forall d b, (d, b) ∈ sorted <-> (d, b) ∈ levels0).
  { intros d b. by rewrite Hsp. }
  assert (Hfinal : forall d b',
            (d, b') ∈ map (fun lv => (fst lv, sort_by fst string_ltb (snd lv))) sorted
            <-> exists b, (d, b) ∈ levels0 /\ b' = sort_by fst string_ltb b).
  { intros d b'. rewrite list_elem_of_fmap. split.
    - intros ([d0 b] & [= -> ->] & Hb). exists b. split; [by apply Hin | done].
    - intros (b & Hb & ->). exists (d, b). split; [done | by apply Hin]. }
  split; [|split].
  - eapply sorted_fmap; [|exact Hss]. intros x y Hxy. cbn [fst].
    by apply Z.ltb_lt in Hxy.
  - intros d b' Hb'. apply Hfinal in Hb' as (b & Hb & ->).
    pose proof (proj1 (Forall_forall _ _) Hall _ Hb) as [Hne _]. cbn [snd] in Hne.
    split.
    + intros Hnil. apply Hne. apply Permutation_nil_r.
      rewrite <- Hnil. symmetry. apply sort_by_perm.
    + assert (Hb_nd : NoDup (map fst b)).
      { eapply bucket_nodup; [exact Hb|]. by rewrite Hperm. }
      pose proof (sort_by_strict fst string_ltb string_ltb_asym string_ltb_trans
                    string_ltb_total b Hb_nd) as Hs.
      eapply sorted_weaken; [|exact Hs]. intros x y. unfold string_ltb.
      cbv beta. by destruct (String.compare x.1 y.1).
  - intros url record d. split.
    + intros (b' & Hb' & Hkv). apply Hfinal in Hb' as (b & Hb & ->).
      apply (elem_of_Permutation_proper _ _ _ (sort_by_perm fst string_ltb b)) in Hkv.
      pose proof (proj1 (Forall_forall _ _) Hall _ Hb) as [_ Hdepth].
      cbn [fst snd] in Hdepth.
      split; [|by apply (proj1 (Forall_forall _ _) Hdepth _ Hkv)].
      apply elem_of_map_to_list. fold items. rewrite <- Hperm.
      apply elem_of_concat. exists b. split; [done|].
      apply list_elem_of_fmap. by exists (d, b).
    + intros [Hp Hd]. apply elem_of_map_to_list in Hp. fold items in Hp.
      rewrite <- Hperm in Hp. apply elem_of_concat in Hp as (b & Hkv & Hb).
      apply list_elem_of_fmap in Hb as ([d' b0] & -> & Hb). cbn [snd] in Hkv.
      pose proof (proj1 (Forall_forall _ _) Hall _ Hb) as [_ Hdepth].
      cbn [fst snd] in Hdepth.
      pose proof (proj1 (Forall_forall _ _) Hdepth _ Hkv) as Hd'. cbn [snd] in Hd'.
      assert (d' = d) as -> by congruence.
      exists (sort_by fst string_ltb b0). split.
      * apply Hfinal. by exists b0.
      * by apply (elem_of_Permutation_proper _ _ _ (sort_by_perm fst string_ltb b0)).
Qed.

End Levels.

(** ** Counting attachments (scraper/state.py) *)

Module Counts.

(** [CrawlState.asset_count]:
    [sum(len(page.assets) for page in self.pages.values())] *)
Definition asset_count (s : CrawlState.t) : Z :=
  map_fold (fun _ page n => (Z.of_nat (length (PageRecord.assets page)) + n)%Z) 0%Z
    (CrawlState.pages s).

End Counts.

Section Counting.
Import Json FileCrawler Counts.
Context {policy : Type}.

Lemma asset_count_insert (s s' : CrawlState.t) (page : string) (p p' : PageRecord.t) :
  CrawlState.pages s !! page = Some p ->
  CrawlState.pages s' = <[page := p']> (CrawlState.pages s) ->
  asset_count s'
  = (asset_count s - Z.of_nat (length (PageRecord.assets p))
     + Z.of_nat (length (PageRecord.assets p')))%Z.
Proof.
  intros Hp Hs'. unfold asset_count. rewrite Hs'.
  rewrite <- (insert_delete_id (CrawlState.pages s) page p Hp) at 2.
  rewrite <- (insert_delete_eq (CrawlState.pages s) page p').
  rewrite !map_fold_insert_L; try (by rewrite lookup_delete_eq); [lia| |];
    intros; lia.
Qed.

(** X25: [asset_count] counts every attachment once. A call of
    [_attach_asset_to_page] raises the count by one when the page has a
    record that does not yet list the asset with that path, and leaves it
    as it is otherwise, whether or not the manifest could be updated. *)
Theorem attachments_are_counted_once :
  forall (page asset_url path : string) (asset_type extension : option string)
         (reused : bool) (now : string) (c : t policy),
    let c' := fst (_attach_asset_to_page page asset_url path asset_type extension
                     reused now c) in
    (CrawlState.pages (state c) !! page = None ->
       asset_count (state c') = asset_count (state c))
    /\ forall p, CrawlState.pages (state c) !! page = Some p ->
         ((JStr asset_url, JStr path) ∈ map asset_key (PageRecord.assets p) ->
            asset_count (state c') = asset_count (state c))
         /\ ((JStr asset_url, JStr path) ∉ map asset_key (PageRecord.assets p) ->
            asset_count (state c') = (asset_count (state c) + 1)%Z).
Proof.
  intros page asset_url path asset_type extension reused now c c'. subst c'.
  unfold _attach_asset_to_page.
  destruct (CrawlState.pages (state c) !! page) as [p|] eqn:Hp; [|done].
  split; [done|]. intros q [= <-].
  destruct (mark_existing asset_url path reused (PageRecord.assets p)) as [l|] eqn:Hm.
  - destruct (mark_existing_keys _ _ _ _ _ Hm) as (Hk & Hin & _).
    split; [|done]. intros _. cbn [fst].
    erewrite (asset_count_insert (state c) _ page p (PageRecord.with_assets l p) Hp);
      [|reflexivity].
    cbn [PageRecord.assets PageRecord.with_assets].
    apply (f_equal (@length _)) in Hk. rewrite !length_map in Hk. lia.
  - pose proof (mark_existing_none _ _ _ _ Hm) as Hnin.
    split; [done|]. intros _.
    set (p' := PageRecord.with_assets (PageRecord.assets p ++ _) p).
    assert (Hcount : forall st, CrawlState.pages st
                                = <[page := p']> (CrawlState.pages (state c)) ->
              asset_count st = (asset_count (state c) + 1)%Z).
    { intros st Hst. rewrite (asset_count_insert (state c) st page p p' Hp Hst).
      subst p'. cbn [PageRecord.assets PageRecord.with_assets].
      rewrite length_app. cbn [length]. lia. }
    unfold CrawlState.register_asset.
    destruct (CrawlState.register_entry _ _ _ _ _ _ _ _); cbn [bind fst];
      by apply Hcount.
Qed.

End Counting.

(** ** Snapshots of earlier versions (scraper/state.py) *)

Section LegacySnapshot.
Import Json.

Lemma decode_dicts_lookup (field : string) (cache : pydict)
    (decoded : list (string * pydict)) (url : string) :
  CrawlState.decode_values (as_dict field) cache = Ok decoded ->
  (list_to_map decoded : gmap string pydict) !! url
  = match dict_get url cache with
    | Some (JObj entry) => Some entry
    | _ => None
    end.
Proof.
  unfold CrawlState.decode_values. revert decoded.
  induction cache as [|[k v] rest IH]; intros decoded.
  - intros [= <-]. done.
  - cbn [mapM fst snd]. destruct v as [| | | | |entry]; try done. cbn [as_dict bind].
    destruct (mapM _ rest) as [tl|e]; [|done]. cbn [bind]. intros [= <-].
    cbn [list_to_map foldr dict_get]. destruct (String.eqb_spec url k) as [->|Hne].
    + cbn. by rewrite lookup_insert_eq.
    + cbn. rewrite lookup_insert_ne by done. by apply IH.
Qed.

Variable json_loads : string -> option json.

(** X26: a snapshot written before the cache was renamed still loads
    its downloads. When a state file that loads has no usable
    [asset_cache] entry but a non-empty [pdf_cache], the asset cache of the
    loaded state holds exactly the entries of [pdf_cache]. *)
Theorem legacy_pdf_cache_is_loaded :
  forall (path raw : string) (fs : gmap string string) (d cache : pydict)
         (st : CrawlState.t),
    fs !! path = Some raw ->
    json_loads raw = Some (JObj d) ->
    CrawlState.load json_loads path fs = Ok st ->
    truthy (get "asset_cache" d) = false ->
    get "pdf_cache" d = JObj cache -> cache <> [] ->
    forall url,
      CrawlState.asset_cache st !! url
      = match dict_get url cache with
        | Some (JObj entry) => Some entry
        | _ => None
        end.
Proof.
  intros path raw fs d cache st Hfs Hloads Hload Hac Hpdf Hne url.
  revert Hload. unfold CrawlState.load. rewrite Hfs.
  destruct (Py.is_empty (Py.strip raw)); [done|]. rewrite Hloads.
  unfold CrawlState.of_payload. cbn [as_payload bind].
  assert (Hor : py_or (py_or (get "asset_cache" d) (get "pdf_cache" d)) (JObj [])
                = JObj cache).
  { unfold py_or at 2. rewrite Hac, Hpdf. unfold py_or. by destruct cache. }
  rewrite Hor. cbn [py_dict bind].
  repeat match goal with
         | |- bind ?x _ = _ -> _ => destruct x eqn:?; cbn [bind]; [|done]
         end.
  intros [= <-]. cbn [CrawlState.asset_cache].
  by eapply decode_dicts_lookup.
Qed.

End LegacySnapshot.

(** A snapshot of an earlier version: the cache is under [pdf_cache]. *)
Definition legacy_snapshot : string :=
  JsonText.dumps
    (Json.JObj [("start_url", Json.JStr "http://a.com/"); ("max_depth", Json.JInt 2);
                ("pdf_cache",
                 Json.JObj [("http://a.com/f.pdf",
                             Json.JObj [("path", Json.JStr "out/f.pdf")])])]).

Lemma legacy_pdf_cache_is_loaded_witness :
  exists st,
    CrawlState.load JsonText.loads "crawl_state.json"
      {[ "crawl_state.json" := legacy_snapshot ]} = Ok st
    /\ CrawlState.asset_cache st !! "http://a.com/f.pdf"
       = Some [("path", Json.JStr "out/f.pdf")].
Proof.
  destruct (CrawlState.load JsonText.loads "crawl_state.json"
              {[ "crawl_state.json" := legacy_snapshot ]}) as [st|e] eqn:Hload;
    [|by vm_compute in Hload].
  exists st. split; [done|].
  rewrite (legacy_pdf_cache_is_loaded JsonText.loads "crawl_state.json" legacy_snapshot
             {[ "crawl_state.json" := legacy_snapshot ]}
             [("start_url", Json.JStr "http://a.com/"); ("max_depth", Json.JInt 2);
              ("pdf_cache",
               Json.JObj [("http://a.com/f.pdf",
                           Json.JObj [("path", Json.JStr "out/f.pdf")])])]
             [("http://a.com/f.pdf", Json.JObj [("path", Json.JStr "out/f.pdf")])]
             st); try done; vm_compute; reflexivity.
Defined.
